(** * Neuroglancer viewer state (python/neuroglancer/viewer_state.py)

    A shallow embedding of the parts of [viewer_state.py] that the
    specification makes claims about: the [StarredSegments] container, the
    [Tool] factory, [ManagedLayer], the quaternion interpolation and the
    interpolation of layout trees.

    Conventions of the embedding.
    - A Python exception is a constructor of [exn]; a call that may raise
      returns [res A]; a method that mutates [self] returns an [effect],
      which carries the state of [self] at the moment the method returned
      or raised.
    - A Python [dict] is an insertion-ordered association list ([dict K V]).
    - Python and NumPy floats are idealised as real numbers. *)

From Stdlib Require Import ZArith List String Ascii Bool Lia.
From Stdlib Require Import DecimalString DecimalZ.
From Stdlib Require Import QArith.
From Stdlib Require Import Reals Lra.
Import ListNotations.

Set Implicit Arguments.
Set Warnings "-register-all".

(* ------------------------------------------------------------------ *)
(** * Python values, exceptions and dictionaries *)
(* ------------------------------------------------------------------ *)

Module Py.

(** The exception classes the modelled code raises. *)
Inductive exn : Type :=
| AttributeError
| KeyError
| TypeError
| ValueError
| OverflowError
| ZeroDivisionError.

(** The outcome of a call: a value, or a raised exception. *)
Inductive res (A : Type) : Type :=
| Ok (a : A)
| Raise (e : exn).

Arguments Ok {A} a.
Arguments Raise {A} e.

Definition bind {A B : Type} (r : res A) (f : A -> res B) : res B :=
  match r with
  | Ok a => f a
  | Raise e => Raise e
  end.

(** The outcome of a method that mutates its receiver: the receiver after a
    normal return, or the exception together with the receiver as the
    exception left it. *)
Inductive effect (S : Type) : Type :=
| Done (s : S)
| Raised (e : exn) (s : S).

Arguments Done {S} s.
Arguments Raised {S} e s.

Definition state_of {S : Type} (r : effect S) : S :=
  match r with
  | Done s => s
  | Raised _ s => s
  end.

Definition raised {S : Type} (r : effect S) : option exn :=
  match r with
  | Done _ => None
  | Raised e _ => Some e
  end.

(** Keys of a dictionary: a type with a boolean equality. *)
Class Key (K : Type) : Type := {
  key_eqb : K -> K -> bool;
  key_eqb_spec : forall a b : K, reflect (a = b) (key_eqb a b)
}.

#[export] Instance Z_Key : Key Z :=
  {| key_eqb := Z.eqb; key_eqb_spec := Z.eqb_spec |}.

#[export] Instance string_Key : Key string :=
  {| key_eqb := String.eqb; key_eqb_spec := String.eqb_spec |}.

(** A [dict]: the bindings in insertion order. *)
Definition dict (K V : Type) : Type := list (K * V).

Section Dict.
Context {K V : Type} `{Key K}.

(** [d.get(k)] *)
Fixpoint dict_get (d : dict K V) (k : K) : option V :=
  match d with
  | [] => None
  | (k', v) :: d' => if key_eqb k' k then Some v else dict_get d' k
  end.

(** [k in d] *)
Definition dict_contains (d : dict K V) (k : K) : bool :=
  match dict_get d k with
  | Some _ => true
  | None => false
  end.

(** [d[k] = v]: an existing key keeps its place, a new key goes last. *)
Fixpoint dict_set (d : dict K V) (k : K) (v : V) : dict K V :=
  match d with
  | [] => [(k, v)]
  | (k', v') :: d' =>
      if key_eqb k' k then (k', v) :: d' else (k', v') :: dict_set d' k v
  end.

(** [d.pop(k, None)], the popped value dropped.  The keys of a dict are
    unique, so dropping the binding of [k] is dropping every pair whose key
    is [k]. *)
Definition dict_discard (d : dict K V) (k : K) : dict K V :=
  filter (fun kv => negb (key_eqb (fst kv) k)) d.

(** [d[k]] *)
Definition dict_getitem (d : dict K V) (k : K) : res V :=
  match dict_get d k with
  | Some v => Ok v
  | None => Raise KeyError
  end.

(** [del d[k]] *)
Definition dict_delitem (d : dict K V) (k : K) : res (dict K V) :=
  if dict_contains d k then Ok (dict_discard d k) else Raise KeyError.

(** [d.pop(k)], the popped value dropped. *)
Definition dict_pop (d : dict K V) (k : K) : res (dict K V) :=
  if dict_contains d k then Ok (dict_discard d k) else Raise KeyError.

(** [d.update(other)] *)
Definition dict_update (d other : dict K V) : dict K V :=
  fold_left (fun acc kv => dict_set acc (fst kv) (snd kv)) other d.

(** [list(d)] *)
Definition dict_keys (d : dict K V) : list K := map fst d.

(** [d1 == d2] for dictionaries: the same bindings, in any order. *)
Definition dict_eqb (veqb : V -> V -> bool) (d1 d2 : dict K V) : bool :=
  Nat.eqb (List.length d1) (List.length d2)
  && forallb (fun kv => match dict_get d2 (fst kv) with
                        | Some v => veqb (snd kv) v
                        | None => false
                        end) d1.

End Dict.

(** The Python objects that reach [StarredSegments]: integers, booleans
    (which are [numbers.Integral] too), strings, tuples, and [None] for any
    object of another type. *)
Inductive pyval : Type :=
| PInt (z : Z)
| PBool (b : bool)
| PStr (s : string)
| PTuple (l : list pyval)
| PNone.

(** [isinstance(v, numbers.Integral)], with the integer it denotes. *)
Definition as_integral (v : pyval) : option Z :=
  match v with
  | PInt z => Some z
  | PBool b => Some (if b then 1 else 0)%Z
  | _ => None
  end.

(** [isinstance(v, bool)] *)
Definition as_bool (v : pyval) : option bool :=
  match v with
  | PBool b => Some b
  | _ => None
  end.

(** [bool(v)] *)
Definition truthy (v : pyval) : bool :=
  match v with
  | PInt z => negb (Z.eqb z 0)
  | PBool b => b
  | PStr s => negb (String.eqb s "")
  | PTuple l => negb (Nat.eqb (List.length l) 0)
  | PNone => false
  end.

(** [k, v = x]: a sequence of exactly two elements unpacks; a sequence of
    another length is a [ValueError], an object that is no sequence (an
    integer, [None]) a [TypeError]. *)
Definition unpack_pair (x : pyval) : res (pyval * pyval) :=
  match x with
  | PTuple [a; b] => Ok (a, b)
  | PTuple _ => Raise ValueError
  | PStr (String a (String b EmptyString)) =>
      Ok (PStr (String a EmptyString), PStr (String b EmptyString))
  | PStr _ => Raise ValueError
  | PInt _ | PBool _ | PNone => Raise TypeError
  end.

(** [f"{n}"] for an integer. *)
Definition str_of_int (n : Z) : string := NilZero.string_of_int (Z.to_int n).

(** 2**64 *)
Definition UINT64_LIMIT : Z := 18446744073709551616%Z.

Definition is_uint64 (z : Z) : Prop := (0 <= z < UINT64_LIMIT)%Z.

(** [np.uint64], the one NumPy function the segment code calls.  NumPy is
    not part of this repository, so the conversion is an interface: what
    every NumPy release guarantees is stated as laws, and what differs
    between releases (the treatment of an integer outside the range) is left
    to the instance. *)
Class NumpyUint64 : Type := {
  (** [np.uint64(z)] for a Python integer *)
  uint64_of_int : Z -> res Z;
  (** [np.uint64(s)] for a Python string *)
  uint64_of_str : string -> res Z;
  uint64_of_int_range :
    forall z k, uint64_of_int z = Ok k -> is_uint64 k;
  uint64_of_int_exact :
    forall z, is_uint64 z -> uint64_of_int z = Ok z;
  uint64_of_str_range :
    forall s k, uint64_of_str s = Ok k -> is_uint64 k;
  uint64_of_str_decimal :
    forall z, is_uint64 z -> uint64_of_str (str_of_int z) = Ok z
}.

(** [int(s)] on a decimal literal with an optional minus sign: the part of
    Python's [int] that NumPy applies to a string before it converts. *)
Definition int_of_str (s : string) : res Z :=
  match NilZero.int_of_string s with
  | Some d => Ok (Z.of_int d)
  | None => Raise ValueError
  end.

(** NumPy 2: a Python integer outside the range is an [OverflowError]. *)
Definition strict_uint64_of_int (z : Z) : res Z :=
  if ((0 <=? z) && (z <? UINT64_LIMIT))%Z then Ok z else Raise OverflowError.

(** NumPy 1: a negative integer that fits a C [long long] wraps around
    modulo 2**64; any other integer outside the range is an
    [OverflowError]. *)
Definition legacy_uint64_of_int (z : Z) : res Z :=
  if ((- 9223372036854775808 <=? z) && (z <? UINT64_LIMIT))%Z
  then Ok (z mod UINT64_LIMIT)%Z
  else Raise OverflowError.

(** What NumPy does with a string: parse it as a Python integer, then
    convert the integer. *)
Definition uint64_of_str_via (of_int : Z -> res Z) (s : string) : res Z :=
  bind (int_of_str s) of_int.

Lemma int_of_str_of_int (z : Z) : int_of_str (str_of_int z) = Ok z.
Proof.
  unfold int_of_str, str_of_int.
  rewrite NilZero.isi.
  - now rewrite DecimalZ.of_to.
  - destruct z as [|p|p]; simpl; try discriminate.
    intros [= E]. apply (f_equal Pos.of_uint) in E.
    rewrite DecimalPos.Unsigned.of_to in E. discriminate.
  - destruct z as [|p|p]; simpl; try discriminate.
    intros [= E]. apply (f_equal Pos.of_uint) in E.
    rewrite DecimalPos.Unsigned.of_to in E. discriminate.
Qed.

Lemma strict_uint64_of_int_range (z k : Z) :
  strict_uint64_of_int z = Ok k -> is_uint64 k.
Proof.
  unfold strict_uint64_of_int, is_uint64.
  destruct (0 <=? z)%Z eqn:E0; destruct (z <? UINT64_LIMIT)%Z eqn:E1;
    simpl; intros [= <-]; lia.
Qed.

Lemma strict_uint64_of_int_exact (z : Z) :
  is_uint64 z -> strict_uint64_of_int z = Ok z.
Proof.
  unfold strict_uint64_of_int, is_uint64. intros [H0 H1].
  apply Z.leb_le in H0. apply Z.ltb_lt in H1. now rewrite H0, H1.
Qed.

Lemma legacy_uint64_of_int_range (z k : Z) :
  legacy_uint64_of_int z = Ok k -> is_uint64 k.
Proof.
  unfold legacy_uint64_of_int, is_uint64.
  destruct (_ && _); intros [= <-].
  apply Z.mod_pos_bound. reflexivity.
Qed.

Lemma legacy_uint64_of_int_exact (z : Z) :
  is_uint64 z -> legacy_uint64_of_int z = Ok z.
Proof.
  unfold legacy_uint64_of_int, is_uint64. intros [H0 H1].
  replace (_ && _) with true.
  - now rewrite Z.mod_small.
  - symmetry. apply andb_true_iff. split; [apply Z.leb_le | apply Z.ltb_lt]; lia.
Qed.

Lemma uint64_of_str_via_range (of_int : Z -> res Z) :
  (forall z k, of_int z = Ok k -> is_uint64 k) ->
  forall s k, uint64_of_str_via of_int s = Ok k -> is_uint64 k.
Proof.
  intros Hr s k. unfold uint64_of_str_via.
  destruct (int_of_str s) as [z|e]; simpl; [apply Hr | discriminate].
Qed.

Lemma uint64_of_str_via_decimal (of_int : Z -> res Z) :
  (forall z, is_uint64 z -> of_int z = Ok z) ->
  forall z, is_uint64 z -> uint64_of_str_via of_int (str_of_int z) = Ok z.
Proof.
  intros He z Hz. unfold uint64_of_str_via.
  rewrite int_of_str_of_int. simpl. now apply He.
Qed.

(** [np.uint64] as NumPy 2 ships it. *)
Definition numpy_strict : NumpyUint64 :=
  {| uint64_of_int := strict_uint64_of_int;
     uint64_of_str := uint64_of_str_via strict_uint64_of_int;
     uint64_of_int_range := strict_uint64_of_int_range;
     uint64_of_int_exact := strict_uint64_of_int_exact;
     uint64_of_str_range := uint64_of_str_via_range _ strict_uint64_of_int_range;
     uint64_of_str_decimal :=
       uint64_of_str_via_decimal _ strict_uint64_of_int_exact |}.

(** [np.uint64] as NumPy 1 ships it. *)
Definition numpy_legacy : NumpyUint64 :=
  {| uint64_of_int := legacy_uint64_of_int;
     uint64_of_str := uint64_of_str_via legacy_uint64_of_int;
     uint64_of_int_range := legacy_uint64_of_int_range;
     uint64_of_int_exact := legacy_uint64_of_int_exact;
     uint64_of_str_range := uint64_of_str_via_range _ legacy_uint64_of_int_range;
     uint64_of_str_decimal :=
       uint64_of_str_via_decimal _ legacy_uint64_of_int_exact |}.

End Py.

(* ------------------------------------------------------------------ *)
(** * Facts about dictionaries *)
(* ------------------------------------------------------------------ *)

Module DictFacts.
Import Py.

Section Facts.
Context {K V : Type} `{Key K}.

Lemma key_eqb_refl (k : K) : key_eqb k k = true.
Proof. destruct (key_eqb_spec k k); congruence. Qed.

Lemma key_eqb_neq (k k' : K) : k <> k' -> key_eqb k k' = false.
Proof. intros N. destruct (key_eqb_spec k k'); congruence. Qed.

Lemma dict_get_set_eq (d : dict K V) (k : K) (v : V) :
  dict_get (dict_set d k v) k = Some v.
Proof.
  induction d as [|[k' v'] d IH]; simpl.
  - now rewrite key_eqb_refl.
  - destruct (key_eqb_spec k' k) as [->|N]; simpl.
    + now rewrite key_eqb_refl.
    + rewrite key_eqb_neq by exact N. exact IH.
Qed.

Lemma dict_get_set_neq (d : dict K V) (k k0 : K) (v : V) :
  k <> k0 -> dict_get (dict_set d k v) k0 = dict_get d k0.
Proof.
  intros N. induction d as [|[k' v'] d IH]; simpl.
  - now rewrite key_eqb_neq.
  - destruct (key_eqb_spec k' k) as [->|N']; simpl.
    + now rewrite key_eqb_neq.
    + destruct (key_eqb k' k0); [reflexivity | exact IH].
Qed.

Lemma dict_get_discard_eq (d : dict K V) (k : K) :
  dict_get (dict_discard d k) k = None.
Proof.
  induction d as [|[k' v'] d IH]; simpl; [reflexivity|].
  destruct (key_eqb k' k) eqn:E; simpl; [exact IH|].
  now rewrite E.
Qed.

Lemma dict_get_discard_neq (d : dict K V) (k k0 : K) :
  k <> k0 -> dict_get (dict_discard d k) k0 = dict_get d k0.
Proof.
  intros N. induction d as [|[k' v'] d IH]; simpl; [reflexivity|].
  destruct (key_eqb_spec k' k) as [->|N']; simpl.
  - rewrite key_eqb_neq by exact N. exact IH.
  - destruct (key_eqb k' k0); [reflexivity | exact IH].
Qed.

Lemma dict_discard_absent (d : dict K V) (k : K) :
  dict_get d k = None -> dict_discard d k = d.
Proof.
  induction d as [|[k' v'] d IH]; simpl; [reflexivity|].
  destruct (key_eqb k' k) eqn:E; simpl; [discriminate|].
  intros G. now rewrite IH.
Qed.

Lemma dict_get_In (d : dict K V) (k : K) (v : V) :
  dict_get d k = Some v -> In k (dict_keys d).
Proof.
  induction d as [|[k' v'] d IH]; simpl; [discriminate|].
  destruct (key_eqb_spec k' k) as [->|N]; [now left | right; auto].
Qed.

Lemma dict_keys_set (d : dict K V) (k k0 : K) (v : V) :
  In k0 (dict_keys (dict_set d k v)) -> k0 = k \/ In k0 (dict_keys d).
Proof.
  induction d as [|[k' v'] d IH]; simpl.
  - intros [E|[]]. now left.
  - destruct (key_eqb k' k); simpl; intros [E|I]; auto.
    destruct (IH I); auto.
Qed.

Lemma dict_update_nil (d : dict K V) : dict_update d [] = d.
Proof. reflexivity. Qed.

End Facts.
End DictFacts.

(* ------------------------------------------------------------------ *)
(** * StarredSegments *)
(* ------------------------------------------------------------------ *)

Module Segments.
Import Py DictFacts.

(** The three slots of a [StarredSegments] object. *)
Record StarredSegments : Type := {
  _readonly : bool;
  _data : dict Z bool;
  _visible : dict Z bool
}.

(** The argument of [_update]: another [StarredSegments], a mapping, or
    any other iterable of items. *)
Inductive source : Type :=
| SrcStarred (other : StarredSegments)
| SrcMapping (other : list (pyval * pyval))
| SrcIterable (other : list pyval).

(** [other.items()] of a mapping, or the iterable itself. *)
Definition items_of (m : list (pyval * pyval)) : list pyval :=
  map (fun kv => PTuple [fst kv; snd kv]) m.

Section WithNumpy.
Context `{NumpyUint64}.

(** The body of the loop of [_update] up to the two stores: the key and
    the visibility an item stands for. *)
Definition update_item (item : pyval) : res (Z * bool) :=
  match as_integral item with
  | Some n =>
      bind (uint64_of_int n) (fun k =>
      if negb (Z.eqb k n) then Raise ValueError else Ok (k, true))
  | None =>
      match item with
      | PStr s =>
          let (v, digits) :=
            match s with
            | String "!"%char rest => (false, rest)
            | _ => (true, s)
            end in
          bind (uint64_of_str digits) (fun k => Ok (k, v))
      | PTuple _ =>
          bind (unpack_pair item) (fun kv =>
          match as_integral (fst kv) with
          | None => Raise TypeError
          | Some n =>
              bind (uint64_of_int n) (fun k' =>
              if negb (Z.eqb k' n) then Raise TypeError
              else match as_bool (snd kv) with
                   | None => Raise TypeError
                   | Some v => bind (uint64_of_int n) (fun k => Ok (k, v))
                   end)
          end)
      | _ => Raise TypeError
      end
  end.

(** [data[k] = v], then [visible[k] = True] or [visible.pop(k, None)]. *)
Definition store (self : StarredSegments) (k : Z) (v : bool) : StarredSegments :=
  {| _readonly := _readonly self;
     _data := dict_set (_data self) k v;
     _visible := if v then dict_set (_visible self) k true
                 else dict_discard (_visible self) k |}.

(** [for item in items: ...] *)
Fixpoint update_items (items : list pyval) (self : StarredSegments)
  : effect StarredSegments :=
  match items with
  | [] => Done self
  | item :: rest =>
      match update_item item with
      | Raise e => Raised e self
      | Ok (k, v) => update_items rest (store self k v)
      end
  end.

(** [visible.pop(k, None)] for a key that is any Python object. *)
Definition pop_default (visible : dict Z bool) (k : pyval) : dict Z bool :=
  match as_integral k with
  | Some z => dict_discard visible z
  | None => visible
  end.

(** [for k, v in other._data: if not v: visible.pop(k, None)].  Iterating
    a dict yields its keys, and each key is unpacked into [k, v]. *)
Fixpoint prune_hidden (keys : list Z) (visible : dict Z bool)
  : effect (dict Z bool) :=
  match keys with
  | [] => Done visible
  | key :: rest =>
      match unpack_pair (PInt key) with
      | Raise e => Raised e visible
      | Ok (k, v) =>
          prune_hidden rest
            (if negb (truthy v) then pop_default visible k else visible)
      end
  end.

Definition _update (self : StarredSegments) (other : source)
  : effect StarredSegments :=
  match other with
  | SrcStarred o =>
      let data := dict_update (_data self) (_data o) in
      match prune_hidden (dict_keys (_data o)) (_visible self) with
      | Raised e visible =>
          Raised e {| _readonly := _readonly self;
                      _data := data; _visible := visible |}
      | Done visible =>
          Done {| _readonly := _readonly self;
                  _data := data;
                  _visible := dict_update visible (_visible o) |}
      end
  | SrcMapping m => update_items (items_of m) self
  | SrcIterable items => update_items items self
  end.

(** [StarredSegments(json_data, _readonly)]: an exception of [_update]
    leaves the constructor, and no object is returned. *)
Definition __init__ (json_data : option source) (readonly : bool)
  : res StarredSegments :=
  let self := {| _readonly := readonly; _data := []; _visible := [] |} in
  match json_data with
  | None => Ok self
  | Some other =>
      match _update self other with
      | Done s => Ok s
      | Raised e _ => Raise e
      end
  end.

Definition copy (self : StarredSegments) : res StarredSegments :=
  __init__ (Some (SrcStarred self)) false.

Definition update (self : StarredSegments) (other : source)
  : effect StarredSegments :=
  if _readonly self then Raised AttributeError self else _update self other.

(** The body of the loop of the [visible] setter. *)
Fixpoint visible_new_dict (segments : list Z) (new_dict : dict Z bool)
  : res (dict Z bool) :=
  match segments with
  | [] => Ok new_dict
  | k :: rest =>
      bind (uint64_of_int k) (fun num_k =>
      if negb (Z.eqb num_k k) then Raise ValueError
      else visible_new_dict rest (dict_set new_dict num_k true))
  end.

(** [self.visible = segments] *)
Definition set_visible (self : StarredSegments) (segments : list Z)
  : effect StarredSegments :=
  match visible_new_dict segments [] with
  | Raise e => Raised e self
  | Ok new_dict =>
      Done {| _readonly := _readonly self;
              _data := new_dict; _visible := new_dict |}
  end.

End WithNumpy.

Definition __len__ (self : StarredSegments) : nat := List.length (_data self).

Definition __contains__ (self : StarredSegments) (segment_id : Z) : bool :=
  dict_contains (_data self) segment_id.

Definition keys (self : StarredSegments) : list Z := dict_keys (_data self).

Definition items (self : StarredSegments) : list (Z * bool) := _data self.

Definition __iter__ (self : StarredSegments) : list Z := dict_keys (_data self).

(** [self == other] for another [StarredSegments]. *)
Definition __eq__ (self other : StarredSegments) : bool :=
  dict_eqb Bool.eqb (_data self) (_data other).

(** [self == other] for a plain dict. *)
Definition eq_dict (self : StarredSegments) (other : dict Z bool) : bool :=
  dict_eqb Bool.eqb (_data self) other.

(** [self.get(segment_id)], [None] when the segment is not starred. *)
Definition get (self : StarredSegments) (segment_id : Z) : option bool :=
  dict_get (_data self) segment_id.

Definition __getitem__ (self : StarredSegments) (segment_id : Z) : res bool :=
  dict_getitem (_data self) segment_id.

Definition __setitem__ (self : StarredSegments) (segment_id : Z) (visible : bool)
  : effect StarredSegments :=
  if _readonly self then Raised AttributeError self
  else Done {| _readonly := _readonly self;
               _data := dict_set (_data self) segment_id visible;
               _visible := if visible
                           then dict_set (_visible self) segment_id true
                           else dict_discard (_visible self) segment_id |}.

(** [MutableMapping.setdefault]: [try: self[key]], and on [KeyError]
    [self[key] = default]. *)
Definition setdefault (self : StarredSegments) (key : Z) (default : bool)
  : effect StarredSegments :=
  match __getitem__ self key with
  | Ok _ => Done self
  | Raise KeyError => __setitem__ self key default
  | Raise e => Raised e self
  end.

Definition add (self : StarredSegments) (segment_id : Z)
  : effect StarredSegments :=
  if _readonly self then Raised AttributeError self
  else setdefault self segment_id true.

Definition remove (self : StarredSegments) (segment_id : Z)
  : effect StarredSegments :=
  if _readonly self then Raised AttributeError self
  else
    match dict_delitem (_data self) segment_id with
    | Raise e => Raised e self
    | Ok data =>
        match dict_pop (_visible self) segment_id with
        | Raise e =>
            Raised e {| _readonly := _readonly self;
                        _data := data; _visible := _visible self |}
        | Ok visible =>
            Done {| _readonly := _readonly self;
                    _data := data; _visible := visible |}
        end
    end.

Definition discard (self : StarredSegments) (segment_id : Z)
  : effect StarredSegments :=
  Done {| _readonly := _readonly self;
          _data := dict_discard (_data self) segment_id;
          _visible := dict_discard (_visible self) segment_id |}.

Definition __delitem__ (self : StarredSegments) (segment_id : Z)
  : effect StarredSegments :=
  if _readonly self then Raised AttributeError self
  else
    match dict_delitem (_data self) segment_id with
    | Raise e => Raised e self
    | Ok data =>
        Done {| _readonly := _readonly self;
                _data := data;
                _visible := dict_discard (_visible self) segment_id |}
    end.

Definition clear (self : StarredSegments) : effect StarredSegments :=
  if _readonly self then Raised AttributeError self
  else Done {| _readonly := _readonly self; _data := []; _visible := [] |}.

Definition to_json (self : StarredSegments) : list string :=
  map (fun sv : Z * bool => if snd sv then str_of_int (fst sv)
                 else ("!" ++ str_of_int (fst sv))%string)
      (items self).

(** The invariant that ties the two dictionaries: [_visible] holds exactly
    the segments that [_data] maps to [True]. *)
Definition consistent (self : StarredSegments) : Prop :=
  forall k, dict_get (_visible self) k
            = match dict_get (_data self) k with
              | Some true => Some true
              | _ => None
              end.

End Segments.

(* ------------------------------------------------------------------ *)
(** * Properties of StarredSegments *)
(* ------------------------------------------------------------------ *)

Module SegmentsFacts.
Import Py DictFacts Segments.

Local Open Scope Z_scope.

(** The items of the bulk update [[1, "!2", (3, True)]]. *)
Definition asymmetry_items : list pyval :=
  [PInt 1; PStr "!2"; PTuple [PInt 3; PBool true]].

(** An empty, mutable container. *)
Definition empty_segments : StarredSegments :=
  {| _readonly := false; _data := []; _visible := [] |}.

(** The container [StarredSegments(["!2"])]: segment 2, starred and hidden. *)
Definition hidden_two : StarredSegments :=
  {| _readonly := false; _data := [(2, false)]; _visible := [] |}.

(** The container [StarredSegments([1], _readonly=True)]. *)
Definition readonly_one : StarredSegments :=
  {| _readonly := true; _data := [(1, true)]; _visible := [(1, true)] |}.

Section Generic.
Context `{NumpyUint64}.

Lemma update_item_int (n : Z) :
  is_uint64 n -> update_item (PInt n) = Ok (n, true).
Proof.
  intros Hn. unfold update_item. simpl.
  rewrite (uint64_of_int_exact Hn). simpl.
  now rewrite Z.eqb_refl.
Qed.

Lemma update_item_hidden_str (n : Z) :
  is_uint64 n ->
  update_item (PStr (String "!"%char (str_of_int n))) = Ok (n, false).
Proof.
  intros Hn. unfold update_item. simpl.
  now rewrite (uint64_of_str_decimal Hn).
Qed.

Lemma update_item_pair (n : Z) (v : bool) :
  is_uint64 n -> update_item (PTuple [PInt n; PBool v]) = Ok (n, v).
Proof.
  intros Hn. unfold update_item. simpl.
  rewrite (uint64_of_int_exact Hn). simpl.
  now rewrite Z.eqb_refl.
Qed.

Lemma small_is_uint64 (n : Z) : 0 <= n < 100 -> is_uint64 n.
Proof. unfold is_uint64, UINT64_LIMIT. lia. Qed.

Lemma update_asymmetry_items (s : StarredSegments) :
  update_items asymmetry_items s
  = Done (store (store (store s 1 true) 2 false) 3 true).
Proof.
  unfold asymmetry_items. cbn [update_items].
  rewrite update_item_int by (apply small_is_uint64; lia).
  change "!2"%string with (String "!"%char (str_of_int 2)).
  rewrite update_item_hidden_str by (apply small_is_uint64; lia).
  rewrite update_item_pair by (apply small_is_uint64; lia).
  reflexivity.
Qed.

Lemma set_visible_five (s : StarredSegments) :
  set_visible s [5]
  = Done {| _readonly := _readonly s;
            _data := [(5, true)]; _visible := [(5, true)] |}.
Proof.
  unfold set_visible. cbn [visible_new_dict].
  rewrite uint64_of_int_exact by (apply small_is_uint64; lia).
  reflexivity.
Qed.

(** C1. For every mutable [StarredSegments] [s], [s.update([1, "!2",
    (3, True)])] returns normally and afterwards [s[1] == True],
    [s[2] == False] and [s[3] == True]; then [s.visible = [5]] returns
    normally and leaves exactly the one binding [5: True], whatever was
    starred before: [s == {5: True}]. *)
Theorem update_then_visible_overwrites (s : StarredSegments) :
  _readonly s = false ->
  exists s1 s2,
    update s (SrcIterable asymmetry_items) = Done s1
    /\ __getitem__ s1 1 = Ok true
    /\ __getitem__ s1 2 = Ok false
    /\ __getitem__ s1 3 = Ok true
    /\ set_visible s1 [5] = Done s2
    /\ _data s2 = [(5, true)]
    /\ eq_dict s2 [(5, true)] = true.
Proof.
  intros Hrw.
  exists (store (store (store s 1 true) 2 false) 3 true).
  eexists.
  split.
  { unfold update. rewrite Hrw. cbn [_update]. apply update_asymmetry_items. }
  unfold __getitem__, dict_getitem, store. cbn [_data].
  repeat split.
  - rewrite !dict_get_set_neq by discriminate. now rewrite dict_get_set_eq.
  - rewrite dict_get_set_neq by discriminate. now rewrite dict_get_set_eq.
  - now rewrite dict_get_set_eq.
  - apply set_visible_five.
  - reflexivity.
  - reflexivity.
Qed.

End Generic.

Lemma update_then_visible_overwrites_witness :
  exists s1 s2,
    @update numpy_strict empty_segments (SrcIterable asymmetry_items) = Done s1
    /\ __getitem__ s1 1 = Ok true
    /\ __getitem__ s1 2 = Ok false
    /\ __getitem__ s1 3 = Ok true
    /\ @set_visible numpy_strict s1 [5] = Done s2
    /\ _data s2 = [(5, true)]
    /\ eq_dict s2 [(5, true)] = true.
Proof.
  apply (@update_then_visible_overwrites numpy_strict empty_segments).
  reflexivity.
Defined.

(** ** The invariant and the operations that keep it *)

Lemma consistent_store (s : StarredSegments) (k : Z) (v : bool) :
  consistent s -> consistent (store s k v).
Proof.
  intros C k0. unfold store. cbn [_data _visible].
  destruct (Z.eq_dec k k0) as [<-|N].
  - rewrite dict_get_set_eq. destruct v.
    + now rewrite dict_get_set_eq.
    + now rewrite dict_get_discard_eq.
  - rewrite (dict_get_set_neq _ _ N). rewrite <- C. destruct v.
    + now rewrite dict_get_set_neq.
    + now rewrite dict_get_discard_neq.
Qed.

Lemma consistent_discard (s : StarredSegments) (k : Z) :
  consistent s -> consistent (state_of (discard s k)).
Proof.
  intros C k0. cbn.
  destruct (Z.eq_dec k k0) as [<-|N].
  - now rewrite !dict_get_discard_eq.
  - rewrite !dict_get_discard_neq by exact N. apply C.
Qed.

Lemma consistent_remove (s : StarredSegments) (k : Z) :
  consistent s -> consistent (state_of (remove s k)).
Proof.
  intros C. unfold remove, dict_delitem, dict_pop.
  destruct (_readonly s); [exact C|].
  destruct (dict_contains (_data s) k) eqn:Ed; [|exact C].
  destruct (dict_contains (_visible s) k) eqn:Ev; intros k0; cbn.
  - destruct (Z.eq_dec k k0) as [<-|N].
    + now rewrite !dict_get_discard_eq.
    + rewrite !dict_get_discard_neq by exact N. apply C.
  - destruct (Z.eq_dec k k0) as [<-|N].
    + rewrite dict_get_discard_eq. unfold dict_contains in Ev.
      destruct (dict_get (_visible s) k); [discriminate | reflexivity].
    + rewrite dict_get_discard_neq by exact N. apply C.
Qed.

Lemma consistent_setitem (s : StarredSegments) (k : Z) (v : bool) :
  consistent s -> consistent (state_of (__setitem__ s k v)).
Proof.
  intros C. unfold __setitem__. destruct (_readonly s); [exact C|].
  exact (consistent_store k v C).
Qed.

Lemma consistent_delitem (s : StarredSegments) (k : Z) :
  consistent s -> consistent (state_of (__delitem__ s k)).
Proof.
  intros C. unfold __delitem__, dict_delitem.
  destruct (_readonly s); [exact C|].
  destruct (dict_contains (_data s) k); [|exact C].
  exact (consistent_discard k C).
Qed.

Lemma consistent_clear (s : StarredSegments) :
  consistent s -> consistent (state_of (clear s)).
Proof.
  intros C. unfold clear. destruct (_readonly s); [exact C|].
  intros k. reflexivity.
Qed.

Lemma consistent_empty_visible (s : StarredSegments) :
  consistent s -> _data s = [] -> _visible s = [].
Proof.
  intros C E. destruct (_visible s) as [|[k v] d] eqn:Ev; [reflexivity|].
  specialize (C k). rewrite Ev, E in C. cbn in C.
  rewrite Z.eqb_refl in C. discriminate.
Qed.

Section Bulk.
Context `{NumpyUint64}.

Lemma consistent_update_items (items : list pyval) (s : StarredSegments) :
  consistent s -> consistent (state_of (update_items items s)).
Proof.
  revert s. induction items as [|item rest IH]; intros s C; cbn [update_items].
  - exact C.
  - destruct (update_item item) as [[k v]|e]; [|exact C].
    apply IH. now apply consistent_store.
Qed.

Lemma update_item_range (item : pyval) (k : Z) (v : bool) :
  update_item item = Ok (k, v) -> is_uint64 k.
Proof.
  unfold update_item.
  destruct (as_integral item) as [n|] eqn:Ei.
  - destruct (uint64_of_int n) as [k'|e] eqn:Eu; cbn; [|discriminate].
    destruct (negb (k' =? n)); [discriminate|].
    intros [= <- _]. eapply uint64_of_int_range; eassumption.
  - destruct item as [z|b|s|l|]; try discriminate.
    + destruct s as [|c rest].
      * destruct (uint64_of_str "") as [k'|e] eqn:Eu; cbn; [|discriminate].
        intros [= <- _]. eapply uint64_of_str_range; eassumption.
      * set (p := match String c rest with
                  | String "!"%char rest0 => (false, rest0)
                  | _ => (true, String c rest)
                  end).
        destruct p as [v0 digits].
        destruct (uint64_of_str digits) as [k'|e] eqn:Eu; cbn; [|discriminate].
        intros [= <- _]. eapply uint64_of_str_range; eassumption.
    + destruct (unpack_pair (PTuple l)) as [[a b]|e]; cbn; [|discriminate].
      destruct (as_integral a) as [n|]; [|discriminate].
      destruct (uint64_of_int n) as [k'|e] eqn:Eu; cbn; [|discriminate].
      destruct (negb (k' =? n)); [discriminate|].
      destruct (as_bool b); [|discriminate].
      cbn. intros [= <- _]. eapply uint64_of_int_range; eassumption.
Qed.

Lemma update_items_range (items : list pyval) (s : StarredSegments) :
  Forall is_uint64 (keys s) ->
  Forall is_uint64 (keys (state_of (update_items items s))).
Proof.
  revert s. induction items as [|item rest IH]; intros s F; cbn [update_items].
  - exact F.
  - destruct (update_item item) as [[k v]|e] eqn:Ei; [|exact F].
    apply IH. apply Forall_forall. intros k0 I.
    apply dict_keys_set in I. destruct I as [->|I].
    + eapply update_item_range; eassumption.
    + revert k0 I. now apply Forall_forall.
Qed.

(** Every segment id that the constructor accepts from a list of items
    fits the unsigned 64-bit range. *)
Lemma accepted_ids_fit (items : list pyval) (ro : bool) (s : StarredSegments) :
  __init__ (Some (SrcIterable items)) ro = Ok s ->
  Forall is_uint64 (keys s).
Proof.
  unfold __init__. cbn [_update].
  pose proof (@update_items_range items
                {| _readonly := ro; _data := []; _visible := [] |}
                (Forall_nil _)) as F.
  destruct (update_items items _) as [s'|e s']; [|discriminate].
  now intros [= <-].
Qed.

(** An integer one past the range never yields a container: either
    [np.uint64] raises, or it returns a number inside the range, which then
    differs from the item. *)
Lemma too_large_int_fails (ro : bool) :
  exists e, __init__ (Some (SrcIterable [PInt UINT64_LIMIT])) ro = Raise e.
Proof.
  unfold __init__. cbn [_update update_items update_item as_integral].
  destruct (uint64_of_int UINT64_LIMIT) as [k|e] eqn:Eu; cbn.
  - apply uint64_of_int_range in Eu. unfold is_uint64 in Eu.
    destruct (Z.eqb_spec k UINT64_LIMIT) as [->|N]; [lia|].
    cbn. now exists ValueError.
  - now exists e.
Qed.

(** A string item is converted by [np.uint64] and stored; the loop makes
    no check of its own on it. *)
Lemma string_item_unchecked (digits : string) (ro : bool) :
  __init__ (Some (SrcIterable [PStr (String "-"%char digits)])) ro
  = match uint64_of_str (String "-"%char digits) with
    | Ok k => Ok {| _readonly := ro; _data := [(k, true)];
                    _visible := [(k, true)] |}
    | Raise e => Raise e
    end.
Proof.
  unfold __init__. cbn [_update update_items update_item as_integral].
  destruct (uint64_of_str (String "-"%char digits)); reflexivity.
Qed.

Lemma prune_hidden_raises (ks : list Z) (visible : dict Z bool) :
  ks <> [] -> prune_hidden ks visible = Raised TypeError visible.
Proof. destruct ks; [congruence | reflexivity]. Qed.

(** C5. Copying a [StarredSegments] that stars at least one segment
    raises [TypeError] and returns no copy: [_update] unpacks each key of
    [other._data] as a pair.  An [update] from such a source raises the same
    error after [_data] was merged and before [_visible] is touched. *)
Theorem copy_of_starred_raises (s : StarredSegments) :
  _data s <> [] ->
  copy s = Raise TypeError
  /\ forall t, _readonly t = false ->
       update t (SrcStarred s)
       = Raised TypeError
           {| _readonly := false;
              _data := dict_update (_data t) (_data s);
              _visible := _visible t |}.
Proof.
  intros Hne.
  assert (Hk : dict_keys (_data s) <> []).
  { destruct (_data s); [congruence | discriminate]. }
  split.
  - unfold copy, __init__. cbn [_update _visible _data _readonly].
    now rewrite (prune_hidden_raises _ Hk).
  - intros t Ht. unfold update. cbn [_update].
    rewrite (prune_hidden_raises _ Hk), Ht. reflexivity.
Qed.

(** The copy of a container that stars nothing is the empty container. *)
Lemma copy_of_empty (s : StarredSegments) :
  consistent s -> _data s = [] ->
  copy s = Ok {| _readonly := false; _data := []; _visible := [] |}.
Proof.
  intros C E. unfold copy, __init__. cbn [_update _visible _data _readonly].
  rewrite E, (consistent_empty_visible C E). reflexivity.
Qed.

End Bulk.

Lemma copy_of_starred_raises_witness :
  @copy numpy_strict hidden_two = Raise TypeError
  /\ forall t, _readonly t = false ->
       @update numpy_strict t (SrcStarred hidden_two)
       = Raised TypeError
           {| _readonly := false;
              _data := dict_update (_data t) (_data hidden_two);
              _visible := _visible t |}.
Proof.
  apply (@copy_of_starred_raises numpy_strict hidden_two).
  discriminate.
Defined.

Lemma consistent_add (s : StarredSegments) (k : Z) :
  consistent s -> consistent (state_of (add s k)).
Proof.
  intros C. unfold add, setdefault, __getitem__, dict_getitem.
  destruct (_readonly s) eqn:Er; [exact C|].
  destruct (dict_get (_data s) k); [exact C|].
  exact (consistent_setitem k true C).
Qed.

(** A dictionary all of whose values are [True]. *)
Definition all_true (d : dict Z bool) : Prop :=
  forall k v, dict_get d k = Some v -> v = true.

Lemma all_true_set (d : dict Z bool) (k : Z) :
  all_true d -> all_true (dict_set d k true).
Proof.
  intros A k0 v. destruct (Z.eq_dec k k0) as [<-|N].
  - rewrite dict_get_set_eq. now intros [= <-].
  - rewrite dict_get_set_neq by exact N. apply A.
Qed.

Section Setter.
Context `{NumpyUint64}.

Lemma visible_new_dict_all_true (segments : list Z) (d d' : dict Z bool) :
  all_true d -> visible_new_dict segments d = Ok d' -> all_true d'.
Proof.
  revert d. induction segments as [|k rest IH]; intros d A; cbn.
  - now intros [= <-].
  - destruct (uint64_of_int k) as [num_k|e]; cbn; [|discriminate].
    destruct (negb (num_k =? k)); [discriminate|].
    apply IH. now apply all_true_set.
Qed.

Lemma consistent_set_visible (s : StarredSegments) (segments : list Z) :
  consistent s -> consistent (state_of (set_visible s segments)).
Proof.
  intros C. unfold set_visible.
  destruct (visible_new_dict segments []) as [d|e] eqn:E; [|exact C].
  assert (A : all_true d).
  { eapply visible_new_dict_all_true; [|exact E]. intros k v. discriminate. }
  intros k. cbn. destruct (dict_get d k) as [v|] eqn:G; [|reflexivity].
  now rewrite (A _ _ G).
Qed.

(** The constructor, given items or a mapping, returns a consistent
    container. *)
Lemma consistent_init (items : list pyval) (ro : bool) (s : StarredSegments) :
  __init__ (Some (SrcIterable items)) ro = Ok s -> consistent s.
Proof.
  unfold __init__. cbn [_update].
  pose proof (@consistent_update_items _ items
                {| _readonly := ro; _data := []; _visible := [] |}) as C.
  destruct (update_items items _) as [s'|e s']; [|discriminate].
  intros [= <-]. apply C. intros k. reflexivity.
Qed.

End Setter.

(** The one operation that does not keep the invariant is an [update] from
    a non-empty [StarredSegments]: it raises after [_data] was merged and
    before [_visible] is brought up to date. *)
Lemma failed_update_breaks_consistency :
  let s := state_of (@update numpy_strict empty_segments
                       (SrcStarred readonly_one)) in
  consistent empty_segments /\ consistent readonly_one /\ ~ consistent s.
Proof.
  cbn. split; [|split].
  - intros k. reflexivity.
  - intros k. unfold readonly_one. cbn [_data _visible dict_get key_eqb Z_Key].
    destruct (1 =? k); reflexivity.
  - intros C. specialize (C 1). discriminate.
Qed.

(** ** Removing and discarding *)

(** Removing a starred, visible segment unstars it. *)
Lemma remove_visible_ok (s : StarredSegments) (k : Z) :
  consistent s -> _readonly s = false -> get s k = Some true ->
  remove s k
  = Done {| _readonly := false;
            _data := dict_discard (_data s) k;
            _visible := dict_discard (_visible s) k |}.
Proof.
  intros C Hrw Hk. unfold get in Hk.
  unfold remove, dict_delitem, dict_pop, dict_contains.
  rewrite Hrw, Hk, (C k), Hk. reflexivity.
Qed.

(** Removing a segment that is not starred raises [KeyError] and changes
    nothing. *)
Lemma remove_absent_unchanged (s : StarredSegments) (k : Z) :
  _readonly s = false -> get s k = None -> remove s k = Raised KeyError s.
Proof.
  intros Hrw Hk. unfold get in Hk.
  unfold remove, dict_delitem, dict_contains.
  now rewrite Hrw, Hk.
Qed.

(** Discarding a segment that is not starred changes nothing and raises
    nothing. *)
Lemma discard_absent_noop (s : StarredSegments) (k : Z) :
  consistent s -> get s k = None -> discard s k = Done s.
Proof.
  intros C Hk. unfold get in Hk. unfold discard.
  rewrite (dict_discard_absent _ _ Hk).
  rewrite dict_discard_absent by (rewrite (C k), Hk; reflexivity).
  now destruct s.
Qed.

(** C6. On a mutable container, removing a segment that is starred but
    hidden raises [KeyError]: [del self._data[segment_id]] succeeds and
    [self._visible.pop(segment_id)], called without a default, does not find
    the segment.  The exception leaves the segment already deleted from
    [_data].  [__delitem__], which pops with a default, succeeds on the same
    input. *)
Theorem remove_hidden_raises (s : StarredSegments) (k : Z) :
  consistent s -> _readonly s = false -> get s k = Some false ->
  remove s k
  = Raised KeyError {| _readonly := false;
                       _data := dict_discard (_data s) k;
                       _visible := _visible s |}
  /\ __delitem__ s k
     = Done {| _readonly := false;
               _data := dict_discard (_data s) k;
               _visible := dict_discard (_visible s) k |}.
Proof.
  intros C Hrw Hk. unfold get in Hk.
  assert (Hv : dict_get (_visible s) k = None) by (now rewrite (C k), Hk).
  split.
  - unfold remove, dict_delitem, dict_pop, dict_contains.
    now rewrite Hrw, Hk, Hv.
  - unfold __delitem__, dict_delitem, dict_contains.
    now rewrite Hrw, Hk.
Qed.

Lemma hidden_two_consistent : consistent hidden_two.
Proof.
  intros k. unfold hidden_two. cbn [_data _visible dict_get key_eqb Z_Key].
  destruct (2 =? k); reflexivity.
Qed.

Lemma remove_hidden_raises_witness :
  remove hidden_two 2
  = Raised KeyError {| _readonly := false;
                       _data := dict_discard (_data hidden_two) 2;
                       _visible := _visible hidden_two |}
  /\ __delitem__ hidden_two 2
     = Done {| _readonly := false;
               _data := dict_discard (_data hidden_two) 2;
               _visible := dict_discard (_visible hidden_two) 2 |}.
Proof.
  apply (@remove_hidden_raises hidden_two 2).
  - exact hidden_two_consistent.
  - reflexivity.
  - reflexivity.
Defined.

(** ** Read-only containers *)

(** The methods that test [_readonly] raise [AttributeError] on a read-only
    container and leave it as it was. *)
Lemma readonly_mutators_raise `{NumpyUint64} (s : StarredSegments) :
  _readonly s = true ->
  forall (k : Z) (v : bool) (other : source),
    add s k = Raised AttributeError s
    /\ __setitem__ s k v = Raised AttributeError s
    /\ remove s k = Raised AttributeError s
    /\ __delitem__ s k = Raised AttributeError s
    /\ clear s = Raised AttributeError s
    /\ update s other = Raised AttributeError s.
Proof.
  intros Hro k v other.
  unfold add, __setitem__, remove, __delitem__, clear, update.
  rewrite Hro. repeat split.
Qed.

(** Reading never raises the immutability error: [get], [__contains__],
    iteration and [to_json] raise nothing at all, and [__getitem__] raises
    [KeyError] only. *)
Lemma reads_never_raise_immutability (s : StarredSegments) (k : Z) :
  __getitem__ s k <> Raise AttributeError.
Proof.
  unfold __getitem__, dict_getitem.
  destruct (dict_get (_data s) k); discriminate.
Qed.

(** C7. [discard] does not test [_readonly]: on a read-only container that
    stars [k], [discard(k)] returns normally and the segment is gone. *)
Theorem discard_ignores_readonly (s : StarredSegments) (k : Z) :
  _readonly s = true -> __contains__ s k = true ->
  exists s',
    discard s k = Done s'
    /\ _readonly s' = true
    /\ __contains__ s' k = false
    /\ s' <> s.
Proof.
  intros Hro Hk. eexists. split; [reflexivity|].
  assert (Hgone : __contains__
                    {| _readonly := _readonly s;
                       _data := dict_discard (_data s) k;
                       _visible := dict_discard (_visible s) k |} k = false).
  { unfold __contains__, dict_contains. cbn [_data].
    now rewrite dict_get_discard_eq. }
  repeat split.
  - exact Hro.
  - exact Hgone.
  - intros E. rewrite E in Hgone. congruence.
Qed.

Lemma discard_ignores_readonly_witness :
  exists s',
    discard readonly_one 1 = Done s'
    /\ _readonly s' = true
    /\ __contains__ s' 1 = false
    /\ s' <> readonly_one.
Proof.
  apply (@discard_ignores_readonly readonly_one 1); reflexivity.
Defined.

(** ** Segment ids outside the unsigned 64-bit range *)

(** Under the wrap-around conversion of NumPy 1 a negative integer reaches
    the test [k != item] of the loop and is refused with [ValueError]. *)
Lemma negative_int_legacy :
  @__init__ numpy_legacy (Some (SrcIterable [PInt (-1)])) false
  = Raise ValueError.
Proof. reflexivity. Qed.

(** C8. [StarredSegments([2**64])] raises [OverflowError], not
    [ValueError], under both conversions NumPy has shipped: [np.uint64]
    raises before the loop can compare [k != item].  [StarredSegments(["-1"])]
    raises [OverflowError] under NumPy 2 and under NumPy 1 returns a
    container that stars segment 2**64 - 1. *)
Theorem out_of_range_is_not_value_error :
  @__init__ numpy_strict (Some (SrcIterable [PInt UINT64_LIMIT])) false
  = Raise OverflowError
  /\ @__init__ numpy_legacy (Some (SrcIterable [PInt UINT64_LIMIT])) false
     = Raise OverflowError
  /\ @__init__ numpy_strict (Some (SrcIterable [PStr "-1"])) false
     = Raise OverflowError
  /\ @__init__ numpy_legacy (Some (SrcIterable [PStr "-1"])) false
     = Ok {| _readonly := false;
             _data := [(UINT64_LIMIT - 1, true)];
             _visible := [(UINT64_LIMIT - 1, true)] |}.
Proof.
  split; [|split; [|split]].
  - reflexivity.
  - reflexivity.
  - rewrite string_item_unchecked. reflexivity.
  - rewrite string_item_unchecked. reflexivity.
Qed.

End SegmentsFacts.

(* ------------------------------------------------------------------ *)
(** * JSON values and the polymorphic factory *)
(* ------------------------------------------------------------------ *)

Module Json.
Import Py.

(** A JSON value as Python holds it. *)
Inductive json : Type :=
| JNull
| JBool (b : bool)
| JNum (q : Q)
| JStr (s : string)
| JList (l : list json)
| JDict (d : list (string * json)).

(** [bool(v)] *)
Definition json_truthy (v : json) : bool :=
  match v with
  | JNull => false
  | JBool b => b
  | JNum q => negb (Qeq_bool q 0)
  | JStr s => negb (String.eqb s "")
  | JList l => negb (Nat.eqb (List.length l) 0)
  | JDict d => negb (Nat.eqb (List.length d) 0)
  end.

(** The argument [obj] of a constructor: [None], a string, a dict, an
    instance of a wrapper class, or an object of another type. *)
Inductive pyobj (I : Type) : Type :=
| ONone
| OStr (s : string)
| ODict (d : dict string json)
| OInst (i : I)
| OOther.

Arguments ONone {I}.
Arguments OStr {I} s.
Arguments ODict {I} d.
Arguments OInst {I} i.
Arguments OOther {I}.

(** [registry[t]] for a registry keyed by strings: a list or a dict is
    unhashable ([TypeError]), any other key that is not registered is a
    [KeyError]. *)
Definition registry_getitem {C : Type} (registry : dict string C) (t : json)
  : res C :=
  match t with
  | JStr s => dict_getitem registry s
  | JList _ | JDict _ => Raise TypeError
  | JNull | JBool _ | JNum _ => Raise KeyError
  end.

(** [d.get("type")], [None] when the key is missing. *)
Definition get_or_none (d : dict string json) (k : string) : json :=
  match dict_get d k with
  | Some v => v
  | None => JNull
  end.

Section Factory.
(** The classes of one family, their instances, and the three operations
    of Python's object model that [_factory_new] uses on them. *)
Variables (C I : Type).
Variable class_is : C -> C -> bool.             (* [cls is base_class] *)
Variable issubclass : C -> C -> bool.
Variable type_of : I -> C.                      (* [type(obj)] *)
Variable type_call :                            (* [type.__call__(cls, ...)] *)
  C -> pyobj I -> bool -> dict string json -> res I.

Definition _factory_new (registry : dict string C) (base_class cls : C)
    (allow_str : bool) (obj : pyobj I) (_readonly : bool)
    (kwargs : dict string json) : res I :=
  bind
    (if class_is cls base_class then
       match obj with
       | OInst i =>
           if issubclass (type_of i) base_class then Ok (type_of i, obj)
           else Raise TypeError
       | OStr s =>
           if allow_str then
             bind (registry_getitem registry (JStr s)) (fun cls' =>
             Ok (cls', ODict [("type"%string, JStr s)]))
           else Raise TypeError
       | ODict d =>
           bind (registry_getitem registry (get_or_none d "type")) (fun cls' =>
           Ok (cls', obj))
       | ONone | OOther => Raise TypeError
       end
     else Ok (cls, obj))
    (fun co => type_call (fst co) (snd co) _readonly kwargs).

End Factory.
End Json.

(* ------------------------------------------------------------------ *)
(** * Tools *)
(* ------------------------------------------------------------------ *)

Module Tools.
Import Py Json.

(** The classes of the [Tool] family, in the order of the source. *)
Inductive tool_class : Type :=
| Tool
| LayerTool
| PlacePointTool
| PlaceLineTool
| PlaceBoundingBoxTool
| PlaceEllipsoidTool
| BlendTool
| OpacityTool
| VolumeRenderingTool
| VolumeRenderingGainTool
| VolumeRenderingDepthSamplesTool
| CrossSectionRenderScaleTool
| SelectedAlphaTool
| NotSelectedAlphaTool
| ObjectAlphaTool
| HideSegmentZeroTool
| HoverHighlightTool
| BaseSegmentColoringTool
| IgnoreNullVisibleSetTool
| ColorSeedTool
| SegmentDefaultColorTool
| MeshRenderScaleTool
| MeshSilhouetteRenderingTool
| SaturationTool
| SkeletonRenderingMode2dTool
| SkeletonRenderingMode3dTool
| SkeletonRenderingLineWidth2dTool
| SkeletonRenderingLineWidth3dTool
| ShaderControlTool
| MergeSegmentsTool
| SplitSegmentsTool
| SelectSegmentsTool
| DimensionTool.

Definition tool_class_eq_dec (a b : tool_class) : {a = b} + {a <> b}.
Proof. decide equality. Defined.

Definition tool_class_eqb (a b : tool_class) : bool :=
  if tool_class_eq_dec a b then true else false.

(** The class attribute [TOOL_TYPE]; [Tool] and [LayerTool] only annotate
    it and give it no value. *)
Definition TOOL_TYPE (c : tool_class) : option string :=
  match c with
  | Tool | LayerTool => None
  | PlacePointTool => Some "annotatePoint"
  | PlaceLineTool => Some "annotateLine"
  | PlaceBoundingBoxTool => Some "annotateBoundingBox"
  | PlaceEllipsoidTool => Some "annotateSphere"
  | BlendTool => Some "blend"
  | OpacityTool => Some "opacity"
  | VolumeRenderingTool => Some "volumeRendering"
  | VolumeRenderingGainTool => Some "volumeRenderingGain"
  | VolumeRenderingDepthSamplesTool => Some "volumeRenderingDepthSamples"
  | CrossSectionRenderScaleTool => Some "crossSectionRenderScale"
  | SelectedAlphaTool => Some "selectedAlpha"
  | NotSelectedAlphaTool => Some "notSelectedAlpha"
  | ObjectAlphaTool => Some "objectAlpha"
  | HideSegmentZeroTool => Some "hideSegmentZero"
  | HoverHighlightTool => Some "hoverHighlight"
  | BaseSegmentColoringTool => Some "baseSegmentColoring"
  | IgnoreNullVisibleSetTool => Some "ignoreNullVisibleSet"
  | ColorSeedTool => Some "colorSeed"
  | SegmentDefaultColorTool => Some "segmentDefaultColor"
  | MeshRenderScaleTool => Some "meshRenderScale"
  | MeshSilhouetteRenderingTool => Some "meshSilhouetteRendering"
  | SaturationTool => Some "saturation"
  | SkeletonRenderingMode2dTool => Some "skeletonRendering.mode2d"
  | SkeletonRenderingMode3dTool => Some "skeletonRendering.mode3d"
  | SkeletonRenderingLineWidth2dTool => Some "skeletonRendering.lineWidth2d"
  | SkeletonRenderingLineWidth3dTool => Some "skeletonRendering.lineWidth3d"
  | ShaderControlTool => Some "shaderControl"
  | MergeSegmentsTool => Some "mergeSegments"
  | SplitSegmentsTool => Some "splitSegments"
  | SelectSegmentsTool => Some "selectSegments"
  | DimensionTool => Some "dimension"
  end%string.

(** The direct base class; [None] for [Tool], whose base is outside the
    family. *)
Definition base_of (c : tool_class) : option tool_class :=
  match c with
  | Tool => None
  | LayerTool | PlacePointTool | PlaceLineTool | PlaceBoundingBoxTool
  | PlaceEllipsoidTool => Some Tool
  | _ => Some LayerTool
  end.

(** [issubclass(c, b)] *)
Definition issubclass (c b : tool_class) : bool :=
  tool_class_eqb c b
  || match base_of c with
     | None => false
     | Some p =>
         tool_class_eqb p b
         || match base_of p with
            | None => false
            | Some g => tool_class_eqb g b
            end
     end.

(** The classes decorated with [@export_tool], in the order of the source. *)
Definition exported_tools : list tool_class :=
  [PlacePointTool; PlaceLineTool; PlaceBoundingBoxTool; PlaceEllipsoidTool;
   BlendTool; OpacityTool; VolumeRenderingTool; VolumeRenderingGainTool;
   VolumeRenderingDepthSamplesTool; CrossSectionRenderScaleTool;
   SelectedAlphaTool; NotSelectedAlphaTool; ObjectAlphaTool;
   HideSegmentZeroTool; HoverHighlightTool; BaseSegmentColoringTool;
   IgnoreNullVisibleSetTool; ColorSeedTool; SegmentDefaultColorTool;
   MeshRenderScaleTool; MeshSilhouetteRenderingTool; SaturationTool;
   SkeletonRenderingMode2dTool; SkeletonRenderingMode3dTool;
   SkeletonRenderingLineWidth2dTool; SkeletonRenderingLineWidth3dTool;
   ShaderControlTool; MergeSegmentsTool; SplitSegmentsTool;
   SelectSegmentsTool; DimensionTool].

(** [tool_types[tool_class.TOOL_TYPE] = tool_class] *)
Definition export_tool (registry : dict string tool_class) (c : tool_class)
  : dict string tool_class :=
  match TOOL_TYPE c with
  | Some t => dict_set registry t c
  | None => registry
  end.

Definition tool_types : dict string tool_class :=
  fold_left export_tool exported_tools [].

(** An instance of a tool class: its class, its backing JSON object and
    its read-only flag. *)
Record instance : Type := {
  inst_class : tool_class;
  _json_data : dict string json;
  inst_readonly : bool
}.

(** The coercion of a declared field. *)
Inductive coercion : Type :=
| CStr              (* [str] *)
| COptionalStr.     (* [optional(str)] *)

(** The fields a class declares with [wrapped_property], own and
    inherited: attribute name, JSON key, coercion. *)
Definition declared_fields (c : tool_class)
  : list (string * (string * coercion)) :=
  (("type", ("type", CStr))
   :: (if issubclass c LayerTool then [("layer", ("layer", COptionalStr))]
       else [])
   ++ match c with
      | ShaderControlTool => [("control", ("control", CStr))]
      | DimensionTool => [("dimension", ("dimension", CStr))]
      | _ => []
      end)%string.

Section Wrapper.
(** [str(v)] for a value that is not a string already. *)
Variable repr_str : json -> string.

Definition py_str (v : json) : string :=
  match v with
  | JStr s => s
  | _ => repr_str v
  end.

(** Modelled from the spec: the setter of [wrapped_property], which is
    defined in [json_wrappers.py], outside the sources at hand.  Writing a
    declared field validates the value with the field's coercion and stores
    it under the field's JSON key; an optional field set to [None] is unset;
    an attribute that is not declared cannot be set ([__slots__ = ()]). *)
Definition set_field (c : tool_class) (data : dict string json)
    (name : string) (v : json) : res (dict string json) :=
  match dict_get (declared_fields c) name with
  | None => Raise AttributeError
  | Some (key, CStr) => Ok (dict_set data key (JStr (py_str v)))
  | Some (key, COptionalStr) =>
      match v with
      | JNull => Ok (dict_discard data key)
      | _ => Ok (dict_set data key (JStr (py_str v)))
      end
  end.

Fixpoint set_fields (c : tool_class) (data : dict string json)
    (kwargs : dict string json) : res (dict string json) :=
  match kwargs with
  | [] => Ok data
  | (name, v) :: rest =>
      bind (set_field c data name v) (fun data' => set_fields c data' rest)
  end.

(** Modelled from the spec: [JsonObjectWrapper.to_json], defined in
    [json_wrappers.py]; it emits the backing JSON object. *)
Definition to_json (t : instance) : dict string json := _json_data t.

(** Modelled from the spec: [JsonObjectWrapper.__init__], defined in
    [json_wrappers.py].  Construction accepts nothing (a fresh empty object),
    a plain JSON mapping, or another instance of a compatible type, whose
    serialized form is copied; the keyword arguments set fields after that. *)
Definition JsonObjectWrapper_init (c : tool_class) (json_data : pyobj instance)
    (_readonly : bool) (kwargs : dict string json) : res instance :=
  bind
    (match json_data with
     | ONone => Ok []
     | ODict d => Ok d
     | OInst i =>
         if issubclass (inst_class i) c then Ok (to_json i)
         else Raise TypeError
     | OStr _ | OOther => Raise TypeError
     end)
    (fun data =>
     bind (set_fields c data kwargs) (fun data' =>
     Ok {| inst_class := c; _json_data := data';
           inst_readonly := _readonly |})).

(** [Tool.__init__]: [kwargs.update(type=self.TOOL_TYPE)], then the base
    initialiser. *)
Definition Tool_init (c : tool_class) (json_data : pyobj instance)
    (_readonly : bool) (kwargs : dict string json) : res instance :=
  match TOOL_TYPE c with
  | None => Raise AttributeError
  | Some tool_type =>
      JsonObjectWrapper_init c json_data _readonly
        (dict_set kwargs "type"%string (JStr tool_type))
  end.

(** [_ToolMetaclass.__call__]: what [Tool(obj)], or [cls(obj)] for a
    subclass [cls], evaluates to. *)
Definition Tool_call (cls : tool_class) (obj : pyobj instance)
    (_readonly : bool) (kwargs : dict string json) : res instance :=
  _factory_new tool_class_eqb issubclass inst_class Tool_init
    tool_types Tool cls true obj _readonly kwargs.

(** The property [type]: [str] of the value under the key ["type"]. *)
Definition type_ (t : instance) : string :=
  py_str (get_or_none (_json_data t) "type").

End Wrapper.
End Tools.

(* ------------------------------------------------------------------ *)
(** * Properties of the Tool factory *)
(* ------------------------------------------------------------------ *)

Module ToolsFacts.
Import Py Json Tools.

Local Open Scope string_scope.

(** Each entry of the registry maps the [TOOL_TYPE] of its class to the
    class. *)
Lemma tool_types_sound :
  Forall (fun e => TOOL_TYPE (snd e) = Some (fst e)) tool_types.
Proof. unfold tool_types. cbn. repeat constructor. Qed.

Lemma registry_lookup_sound (s : string) (c : tool_class) :
  dict_get tool_types s = Some c -> TOOL_TYPE c = Some s.
Proof.
  pose proof tool_types_sound as F. revert F.
  generalize tool_types as d.
  induction d as [|[k v] d IH]; intros F; cbn; [discriminate|].
  inversion F as [|? ? Hhd Htl]; subst. cbn in Hhd.
  destruct (String.eqb_spec k s) as [->|N].
  - now intros [= <-].
  - now apply IH.
Qed.

Section Dispatch.
Variable repr_str : json -> string.

(** A mapping whose ["type"] is a string that no tool class registered
    fails with [KeyError], whatever else it holds. *)
Lemma unregistered_discriminant_raises (d : dict string json) (s : string)
    (ro : bool) (kwargs : dict string json) :
  dict_get d "type" = Some (JStr s) ->
  dict_get tool_types s = None ->
  Tool_call repr_str Tool (ODict d) ro kwargs = Raise KeyError.
Proof.
  intros Ht Hs. unfold Tool_call, _factory_new, get_or_none.
  rewrite Ht. change (tool_class_eqb Tool Tool) with true. cbv iota.
  unfold registry_getitem, dict_getitem. now rewrite Hs.
Qed.

(** A mapping whose ["type"] is registered yields an instance of the
    registered class, and the instance's [type] is the discriminant. *)
Lemma registered_discriminant_dispatches (s : string) (c : tool_class)
    (ro : bool) :
  dict_get tool_types s = Some c ->
  exists t,
    Tool_call repr_str Tool (OStr s) ro [] = Ok t
    /\ inst_class t = c /\ type_ repr_str t = s.
Proof.
  intros Hs. pose proof (registry_lookup_sound _ Hs) as Htt.
  unfold Tool_call, _factory_new.
  change (tool_class_eqb Tool Tool) with true. cbv iota.
  unfold registry_getitem, dict_getitem. rewrite Hs.
  cbn [bind fst snd]. unfold Tool_init. rewrite Htt.
  eexists. split; [reflexivity|]. split; reflexivity.
Qed.

(** C3. [Tool("blend")], where the bare string stands for
    [{"type": "blend"}], is an instance of the registered class [BlendTool]
    whose [type] is ["blend"]; [Tool({"type": "nonexistentTool"})] raises
    [KeyError], the error of the registry lookup, which is neither
    [TypeError] nor [ValueError]. *)
Theorem tool_discriminant_dispatch :
  (exists t,
     Tool_call repr_str Tool (OStr "blend") false [] = Ok t
     /\ inst_class t = BlendTool
     /\ type_ repr_str t = "blend")
  /\ Tool_call repr_str Tool (ODict [("type", JStr "nonexistentTool")])
       false []
     = Raise KeyError
  /\ KeyError <> TypeError /\ KeyError <> ValueError.
Proof.
  split; [|split; [|split]].
  - apply registered_discriminant_dispatches. reflexivity.
  - apply unregistered_discriminant_raises with (s := "nonexistentTool");
      reflexivity.
  - discriminate.
  - discriminate.
Qed.

End Dispatch.
End ToolsFacts.

(* ------------------------------------------------------------------ *)
(** * ManagedLayer *)
(* ------------------------------------------------------------------ *)

Module Managed.
Import Py Json DictFacts.

Local Open Scope string_scope.

(** The concrete layer classes of [layer_types]. *)
Inductive layer_class : Type :=
| ImageLayer
| SegmentationLayer
| PointAnnotationLayer
| AnnotationLayer
| SingleMeshLayer.

(** A layer: its class and its backing JSON object. *)
Record Layer : Type := {
  layer_type : layer_class;
  layer_data : dict string json
}.

(** Modelled from the spec: [JsonObjectWrapper.to_json] of the wrapped
    layer, defined in [json_wrappers.py]; it emits the backing JSON object,
    unknown keys included. *)
Definition Layer_to_json (l : Layer) : dict string json := layer_data l.

(** The two slots of a [ManagedLayer] and what it inherits from
    [JsonObjectWrapper]. *)
Record ManagedLayer : Type := {
  name : string;
  layer : Layer;
  _json_data : dict string json;
  _readonly : bool
}.

(** Modelled from the spec: the getter of [wrapped_property] for the
    coercion [optional(bool, default)], defined in [json_wrappers.py]: an
    absent or [None] value reads as the default, any other value as its
    [bool]. *)
Definition get_optional_bool (data : dict string json) (key : string)
  : option bool :=
  match dict_get data key with
  | None | Some JNull => None
  | Some v => Some (json_truthy v)
  end.

(** [_visible = wrapped_property("visible", optional(bool))] *)
Definition _visible (self : ManagedLayer) : option bool :=
  get_optional_bool (_json_data self) "visible".

(** [archived = wrapped_property("archived", optional(bool, False))] *)
Definition archived (self : ManagedLayer) : bool :=
  match get_optional_bool (_json_data self) "archived" with
  | None => false
  | Some b => b
  end.

(** [x is not False] *)
Definition is_not_False (x : option bool) : bool :=
  match x with
  | Some false => false
  | _ => true
  end.

(** The property [visible]:
    [not self.archived and self._visible is not False]. *)
Definition visible (self : ManagedLayer) : bool :=
  if negb (archived self) then is_not_False (_visible self) else false.

Definition to_json (self : ManagedLayer) : dict string json :=
  let r := Layer_to_json (layer self) in
  let r := dict_set r "name" (JStr (name self)) in
  let archived := archived self in
  let r := if negb archived then dict_discard r "archived"
           else dict_set r "archived" (JBool true) in
  let visible := visible self in
  if visible || archived then dict_discard r "visible"
  else dict_set r "visible" (JBool false).

(** C10. The property [visible] is [True] exactly when the layer is not
    archived and its stored flag is not [False]; an archived layer is never
    visible.  [to_json] has no ["visible"] key when the layer is visible or
    archived, and has ["visible": false] otherwise, that is, exactly for a
    hidden layer that is not archived. *)
Theorem archived_overrides_visibility (m : ManagedLayer) :
  (visible m = true <-> archived m = false /\ _visible m <> Some false)
  /\ (archived m = true -> visible m = false)
  /\ dict_get (to_json m) "visible"
     = (if visible m || archived m then None else Some (JBool false))
  /\ (dict_get (to_json m) "visible" = Some (JBool false)
      <-> archived m = false /\ visible m = false).
Proof.
  assert (Hjson : dict_get (to_json m) "visible"
                  = if visible m || archived m then None
                    else Some (JBool false)).
  { unfold to_json. destruct (visible m || archived m).
    - apply dict_get_discard_eq.
    - apply dict_get_set_eq. }
  split; [|split; [|split]].
  - unfold visible. destruct (archived m); cbn.
    + split; [discriminate | intros [E _]; discriminate].
    + destruct (_visible m) as [[|]|]; cbn; split; try discriminate;
        try (intros _; split; [reflexivity | discriminate]);
        try (intros [_ N]; congruence); auto.
  - unfold visible. intros ->. reflexivity.
  - exact Hjson.
  - rewrite Hjson.
    destruct (visible m), (archived m); cbn; split;
      try discriminate; try (intros [A B]; discriminate); auto.
Qed.

(** A layer stored as hidden and not archived, and the same layer
    archived. *)
Definition hidden_layer : ManagedLayer :=
  {| name := "seg";
     layer := {| layer_type := SegmentationLayer;
                 layer_data := [("type", JStr "segmentation");
                                ("visible", JBool false)] |};
     _json_data := [("type", JStr "segmentation"); ("visible", JBool false)];
     _readonly := false |}.

Definition archived_layer : ManagedLayer :=
  {| name := "seg";
     layer := {| layer_type := SegmentationLayer;
                 layer_data := [("type", JStr "segmentation");
                                ("visible", JBool false);
                                ("archived", JBool true)] |};
     _json_data := [("type", JStr "segmentation"); ("visible", JBool false);
                    ("archived", JBool true)];
     _readonly := false |}.

Example hidden_layer_to_json :
  to_json hidden_layer
  = [("type", JStr "segmentation"); ("visible", JBool false);
     ("name", JStr "seg")].
Proof. reflexivity. Qed.

Example archived_layer_to_json :
  visible archived_layer = false
  /\ to_json archived_layer
     = [("type", JStr "segmentation"); ("archived", JBool true);
        ("name", JStr "seg")].
Proof. split; reflexivity. Qed.

End Managed.

(* ------------------------------------------------------------------ *)
(** * Interpolation of numbers, vectors and quaternions *)
(* ------------------------------------------------------------------ *)

Module Numeric.
Import Py.

Local Open Scope R_scope.

(** A NumPy array of floats. *)
Definition vec : Type := list R.

(** A NumPy array of four floats ([array_wrapper(np.float32, 4)]). *)
Record quat : Type := Quat { qx : R; qy : R; qz : R; qw : R }.

Definition interpolate_linear (a b t : R) : R := a * (1 - t) + b * t.

(** [a * (1 - t) + b * t] on two arrays of one length. *)
Fixpoint vec_linear (a b : vec) (t : R) : vec :=
  match a, b with
  | x :: a', y :: b' => interpolate_linear x y t :: vec_linear a' b' t
  | _, _ => []
  end.

Definition interpolate_linear_optional_vectors (a b : option vec) (t : R)
  : option vec :=
  match a, b with
  | Some va, Some vb =>
      if Nat.eqb (List.length va) (List.length vb)
      then Some (vec_linear va vb t)
      else a
  | _, _ => a
  end.

Definition unit_quaternion : quat := Quat 0 0 0 1.

(** [np.dot(a, b)] *)
Definition dot (a b : quat) : R :=
  qx a * qx b + qy a * qy b + qz a * qz b + qw a * qw b.

(** [-b] *)
Definition qneg (b : quat) : quat :=
  Quat (- qx b) (- qy b) (- qz b) (- qw b).

(** [s * a] *)
Definition qscale (s : R) (a : quat) : quat :=
  Quat (s * qx a) (s * qy a) (s * qz a) (s * qw a).

(** [a + b] *)
Definition qadd (a b : quat) : quat :=
  Quat (qx a + qx b) (qy a + qy b) (qz a + qz b) (qw a + qw b).

(** [x / y] on floats: division by zero raises. *)
Definition py_div (x y : R) : res R :=
  if Req_dec_T y 0 then Raise ZeroDivisionError else Ok (x / y).

(** [math.acos(x)]: a domain error outside [-1, 1]. *)
Definition math_acos (x : R) : res R :=
  if Rlt_dec x (-1) then Raise ValueError
  else if Rlt_dec 1 x then Raise ValueError
  else Ok (acos x).

(** [math.log(x)]: a domain error unless [x] is positive. *)
Definition math_log (x : R) : res R :=
  if Rle_dec x 0 then Raise ValueError else Ok (ln x).

Definition quaternion_slerp (a b : option quat) (t : R) : res quat :=
  let a := match a with None => unit_quaternion | Some q => q end in
  let b := match b with None => unit_quaternion | Some q => q end in
  let cosom := dot a b in
  let cb := if Rlt_dec cosom 0 then (- cosom, qneg b) else (cosom, b) in
  let cosom := fst cb in
  let b := snd cb in
  bind
    (if Rgt_dec (1 - cosom) (1 / 1000000) then
       bind (math_acos cosom) (fun omega =>
       let sinom := sin omega in
       bind (py_div (sin ((1 - t) * omega)) sinom) (fun scale0 =>
       bind (py_div (sin (t * omega)) sinom) (fun scale1 =>
       Ok (scale0, scale1))))
     else Ok (1 - t, t))
    (fun scales => Ok (qadd (qscale (fst scales) a) (qscale (snd scales) b))).

Definition interpolate_zoom (a b : option R) (t : R) : res (option R) :=
  match a, b with
  | Some x, Some y =>
      bind (py_div y x) (fun ratio =>
      bind (math_log ratio) (fun scale_change =>
      Ok (Some (x * exp (scale_change * t)))))
  | _, _ => Ok a
  end.

(** [int(x)] on a float: truncation towards zero. *)
Definition py_int (x : R) : Z :=
  if Rle_dec 0 x then Int_part x else (- Int_part (- x))%Z.

End Numeric.

Module NumericFacts.
Import Py Numeric.

Local Open Scope R_scope.

Lemma quat_eq (a b : quat) :
  qx a = qx b -> qy a = qy b -> qz a = qz b -> qw a = qw b -> a = b.
Proof. destruct a, b; cbn; intros; subst; reflexivity. Qed.

Lemma dot_qneg_r (a b : quat) : dot a (qneg b) = - dot a b.
Proof. unfold dot, qneg; cbn. ring. Qed.

Lemma qneg_involutive (q : quat) : qneg (qneg q) = q.
Proof. apply quat_eq; cbn; ring. Qed.

Lemma linear_blend_same (q : quat) (t : R) :
  qadd (qscale (1 - t) q) (qscale t q) = q.
Proof. apply quat_eq; cbn; ring. Qed.

(** Identical unit operands take the linear branch, where nothing is
    divided, and the blend of [q] with itself is [q]. *)
Lemma slerp_same (q : quat) (t : R) :
  dot q q = 1 -> quaternion_slerp (Some q) (Some q) t = Ok q.
Proof.
  intros Hu. unfold quaternion_slerp. rewrite Hu.
  destruct (Rlt_dec 1 0) as [L|_]; [lra|]. cbn [fst snd].
  destruct (Rgt_dec (1 - 1) (1 / 1000000)) as [G|_]; [lra|].
  cbn [bind fst snd]. now rewrite linear_blend_same.
Qed.

(** The same holds when rounding leaves the squared norm of [q] within
    the threshold of the test. *)
Lemma slerp_same_near_unit (q : quat) (t : R) :
  1 - dot q q <= 1 / 1000000 ->
  quaternion_slerp (Some q) (Some q) t = Ok q.
Proof.
  intros Hn. unfold quaternion_slerp.
  assert (Hpos : 0 <= dot q q).
  { unfold dot. pose proof (Rle_0_sqr (qx q)). pose proof (Rle_0_sqr (qy q)).
    pose proof (Rle_0_sqr (qz q)). pose proof (Rle_0_sqr (qw q)).
    unfold Rsqr in *. lra. }
  destruct (Rlt_dec (dot q q) 0) as [L|_]; [lra|]. cbn [fst snd].
  destruct (Rgt_dec (1 - dot q q) (1 / 1000000)) as [G|_]; [lra|].
  cbn [bind fst snd]. now rewrite linear_blend_same.
Qed.

(** The shortest-path correction: when the dot product is negative, the
    result is that of interpolating towards [-b]. *)
Lemma slerp_negative_dot (a b : quat) (t : R) :
  dot a b < 0 ->
  quaternion_slerp (Some a) (Some b) t
  = quaternion_slerp (Some a) (Some (qneg b)) t.
Proof.
  intros Hneg. unfold quaternion_slerp. rewrite dot_qneg_r.
  destruct (Rlt_dec (dot a b) 0) as [_|N]; [|contradiction].
  destruct (Rlt_dec (- dot a b) 0) as [L|_]; [lra|].
  reflexivity.
Qed.

(** No pair of operands whose dot product lies in [-1, 1], as it does for
    unit quaternions, makes the function raise: in the slerp branch the
    angle is strictly between 0 and pi, so its sine is not zero. *)
Lemma slerp_never_raises (a b : quat) (t : R) :
  -1 <= dot a b <= 1 ->
  exists q, quaternion_slerp (Some a) (Some b) t = Ok q.
Proof.
  intros Hd. unfold quaternion_slerp.
  set (cb := if Rlt_dec (dot a b) 0 then (- dot a b, qneg b) else (dot a b, b)).
  assert (Hc : 0 <= fst cb <= 1).
  { unfold cb. destruct (Rlt_dec (dot a b) 0); cbn; lra. }
  destruct (Rgt_dec (1 - fst cb) (1 / 1000000)) as [G|_].
  - unfold math_acos.
    destruct (Rlt_dec (fst cb) (-1)) as [L|_]; [lra|].
    destruct (Rlt_dec 1 (fst cb)) as [L|_]; [lra|].
    cbn [bind].
    assert (Hs : 0 < sin (acos (fst cb))).
    { destruct (acos_bound_lt (fst cb)) as [H0 H1]; [lra|].
      now apply sin_gt_0. }
    unfold py_div.
    destruct (Req_dec_T (sin (acos (fst cb))) 0) as [E|_]; [lra|].
    cbn [bind]. eexists. reflexivity.
  - cbn [bind]. eexists. reflexivity.
Qed.

(** C2. For a unit quaternion [q] and [t] in [0, 1]:
    [quaternion_slerp(q, q, t)] returns [q], through the branch for nearly
    identical operands, which divides nothing; [quaternion_slerp(q, -q, 0.5)]
    equals the result of negating the second operand first, which is [q];
    and an operand that is [None] stands for the identity quaternion
    [0, 0, 0, 1]. *)
Theorem quaternion_slerp_boundary (q : quat) (t : R) :
  dot q q = 1 -> 0 <= t <= 1 ->
  quaternion_slerp (Some q) (Some q) t = Ok q
  /\ quaternion_slerp (Some q) (Some (qneg q)) (1 / 2)
     = quaternion_slerp (Some q) (Some (qneg (qneg q))) (1 / 2)
  /\ quaternion_slerp (Some q) (Some (qneg q)) (1 / 2) = Ok q
  /\ (forall b, quaternion_slerp None b t
                = quaternion_slerp (Some unit_quaternion) b t)
  /\ (forall a, quaternion_slerp a None t
                = quaternion_slerp a (Some unit_quaternion) t).
Proof.
  intros Hu Ht.
  assert (Hneg : dot q (qneg q) < 0) by (rewrite dot_qneg_r; lra).
  split; [|split; [|split; [|split]]].
  - now apply slerp_same.
  - now apply slerp_negative_dot.
  - rewrite (slerp_negative_dot _ Hneg), qneg_involutive.
    now apply slerp_same.
  - reflexivity.
  - reflexivity.
Qed.

Lemma unit_quaternion_is_unit : dot unit_quaternion unit_quaternion = 1.
Proof. unfold dot, unit_quaternion; cbn. ring. Qed.

Lemma quaternion_slerp_boundary_witness :
  quaternion_slerp (Some unit_quaternion) (Some unit_quaternion) (1 / 2)
  = Ok unit_quaternion
  /\ quaternion_slerp (Some unit_quaternion) (Some (qneg unit_quaternion))
       (1 / 2)
     = quaternion_slerp (Some unit_quaternion)
         (Some (qneg (qneg unit_quaternion))) (1 / 2)
  /\ quaternion_slerp (Some unit_quaternion) (Some (qneg unit_quaternion))
       (1 / 2)
     = Ok unit_quaternion
  /\ (forall b, quaternion_slerp None b (1 / 2)
                = quaternion_slerp (Some unit_quaternion) b (1 / 2))
  /\ (forall a, quaternion_slerp a None (1 / 2)
                = quaternion_slerp a (Some unit_quaternion) (1 / 2)).
Proof.
  apply (@quaternion_slerp_boundary unit_quaternion (1 / 2)).
  - exact unit_quaternion_is_unit.
  - lra.
Defined.

End NumericFacts.

(* ------------------------------------------------------------------ *)
(** * Linked navigation values, cross sections and data panels *)
(* ------------------------------------------------------------------ *)

Module LinkedType.
Import Py Numeric.

(** A value linked to another value of the viewer state: the link mode
    (["linked"] when the JSON gives none) and the optional payload. *)
Record t (T : Type) : Type := {
  link : string;
  value : option T
}.

Arguments link {T} _.
Arguments value {T} _.

Section Interpolate.
Context {T : Type}.
(** The class attribute [_interpolate_function]. *)
Variable _interpolate_function : option T -> option T -> R -> res (option T).

(** [c = copy.deepcopy(a); c.link = a.link], and the payload is
    interpolated when both sides have one link mode that is not
    ["linked"]. *)
Definition interpolate (a b : t T) (t' : R) : res (t T) :=
  let c := {| link := link a; value := value a |} in
  if String.eqb (link a) (link b) && negb (String.eqb (link a) "linked")
  then
    bind (_interpolate_function (value a) (value b) t') (fun v =>
    Ok {| link := link c; value := v |})
  else Ok c.

End Interpolate.

(** [make_linked_navigation_type(array_wrapper(np.float32),
    interpolate_linear_optional_vectors)] *)
Definition LinkedPosition_interpolate :=
  interpolate (fun a b t' => Ok (interpolate_linear_optional_vectors a b t')).

(** [make_linked_navigation_type(float, interpolate_zoom)], which is both
    [LinkedZoomFactor] and [LinkedDepthRange]. *)
Definition LinkedZoomFactor_interpolate := interpolate interpolate_zoom.

Definition LinkedDepthRange_interpolate := interpolate interpolate_zoom.

(** [make_linked_navigation_type(array_wrapper(np.float32, 4),
    quaternion_slerp)] *)
Definition LinkedOrientationState_interpolate :=
  interpolate (fun a b t' =>
    bind (quaternion_slerp a b t') (fun q => Ok (Some q))).

End LinkedType.

Module CrossSection.
Import Py Numeric.

Record t : Type := {
  width : Z;
  height : Z;
  position : LinkedType.t vec;
  orientation : LinkedType.t quat;
  scale : LinkedType.t R
}.

(** The setters of [width] and [height] coerce with [int]. *)
Definition interpolate (a b : t) (t' : R) : res t :=
  let c_width := py_int (interpolate_linear (IZR (width a)) (IZR (width b)) t') in
  let c_height :=
    py_int (interpolate_linear (IZR (height a)) (IZR (height b)) t') in
  bind (LinkedType.LinkedPosition_interpolate (position a) (position b) t')
    (fun c_position =>
  bind (LinkedType.LinkedOrientationState_interpolate
          (orientation a) (orientation b) t')
    (fun c_orientation =>
  bind (LinkedType.LinkedZoomFactor_interpolate (scale a) (scale b) t')
    (fun c_scale =>
  Ok {| width := c_width; height := c_height; position := c_position;
        orientation := c_orientation; scale := c_scale |}))).

End CrossSection.

Module CrossSectionMap.
Import Py.

(** [typed_map(str, CrossSection)] *)
Definition t : Type := dict string CrossSection.t.

(** [for k in a: if k in b: c[k] = CrossSection.interpolate(a[k], b[k], t)] *)
Fixpoint interpolate_keys (ks : list string) (a b c : t) (t' : R) : res t :=
  match ks with
  | [] => Ok c
  | k :: rest =>
      if dict_contains b k then
        bind (dict_getitem a k) (fun ak =>
        bind (dict_getitem b k) (fun bk =>
        bind (CrossSection.interpolate ak bk t') (fun ck =>
        interpolate_keys rest a b (dict_set c k ck) t')))
      else interpolate_keys rest a b c t'
  end.

Definition interpolate (a b : t) (t' : R) : res t :=
  interpolate_keys (dict_keys a) a b a t'.

End CrossSectionMap.

Module DataPanelLayout.
Import Py.

Record t : Type := {
  type : string;
  cross_sections : CrossSectionMap.t;
  orthographic_projection : bool
}.

Definition interpolate (a b : t) (t' : R) : res t :=
  if negb (String.eqb (type a) (type b))
     || Nat.eqb (List.length (cross_sections a)) 0
  then Ok a
  else
    bind (CrossSectionMap.interpolate (cross_sections a) (cross_sections b) t')
      (fun cs =>
    Ok {| type := type a; cross_sections := cs;
          orthographic_projection := orthographic_projection a |}).

End DataPanelLayout.

(* ------------------------------------------------------------------ *)
(** * LayerGroupViewer *)
(* ------------------------------------------------------------------ *)

Module LayerGroupViewer.
Import Py Numeric.

Local Open Scope string_scope.

Record DimensionPlaybackVelocity : Type := {
  dpv_velocity : R;
  at_boundary : string;
  paused : bool
}.

(** The fields declared with [wrapped_property], as typed values. *)
Record t : Type := {
  type : string;
  flex : R;
  layers : list string;
  layout : DataPanelLayout.t;
  position : LinkedType.t vec;
  velocity : dict string DimensionPlaybackVelocity;
  cross_section_orientation : LinkedType.t quat;
  cross_section_scale : LinkedType.t R;
  cross_section_depth : LinkedType.t R;
  projection_orientation : LinkedType.t quat;
  projection_scale : LinkedType.t R;
  projection_depth : LinkedType.t R;
  tool_bindings : dict string Tools.instance
}.

(** What an attribute of a [LayerGroupViewer] evaluates to, by the class
    of the value. *)
Inductive attr : Type :=
| AStr (s : string)
| AFloat (r : R)
| AStrList (l : list string)
| APanel (d : DataPanelLayout.t)
| APosition (p : LinkedType.t vec)
| AOrientation (o : LinkedType.t quat)
| AZoom (z : LinkedType.t R)
| ADepth (z : LinkedType.t R)
| AVelocity (v : dict string DimensionPlaybackVelocity)
| AToolBindings (b : dict string Tools.instance).

(** The data attributes of the class: each declared field under its
    snake_case name and, where the source gives one, its camelCase alias. *)
Definition attributes (self : t) : dict string attr :=
  [("type", AStr (type self));
   ("flex", AFloat (flex self));
   ("layers", AStrList (layers self));
   ("layout", APanel (layout self));
   ("position", APosition (position self));
   ("velocity", AVelocity (velocity self));
   ("cross_section_orientation", AOrientation (cross_section_orientation self));
   ("crossSectionOrientation", AOrientation (cross_section_orientation self));
   ("cross_section_scale", AZoom (cross_section_scale self));
   ("crossSectionScale", AZoom (cross_section_scale self));
   ("cross_section_depth", ADepth (cross_section_depth self));
   ("crossSectionDepth", ADepth (cross_section_depth self));
   ("projection_orientation", AOrientation (projection_orientation self));
   ("projectionOrientation", AOrientation (projection_orientation self));
   ("projection_scale", AZoom (projection_scale self));
   ("projectionScale", AZoom (projection_scale self));
   ("projection_depth", ADepth (projection_depth self));
   ("projectionDepth", ADepth (projection_depth self));
   ("tool_bindings", AToolBindings (tool_bindings self));
   ("toolBindings", AToolBindings (tool_bindings self))].

(** Modelled from the spec: [getattr(self, k)] on a class derived from
    [JsonObjectWrapper], which is defined in [json_wrappers.py], outside the
    sources at hand.  The base class gives access to the declared fields
    only and adds no fallback for other names, so a name that is not an
    attribute of the class raises [AttributeError]. *)
Definition getattr (self : t) (k : string) : res attr :=
  match dict_get (attributes self) k with
  | Some a => Ok a
  | None => Raise AttributeError
  end.

Definition with_type (self : t) (x : string) : t :=
  {| type := x;
     flex := flex self;
     layers := layers self;
     layout := layout self;
     position := position self;
     velocity := velocity self;
     cross_section_orientation := cross_section_orientation self;
     cross_section_scale := cross_section_scale self;
     cross_section_depth := cross_section_depth self;
     projection_orientation := projection_orientation self;
     projection_scale := projection_scale self;
     projection_depth := projection_depth self;
     tool_bindings := tool_bindings self |}.

Definition with_flex (self : t) (x : R) : t :=
  {| type := type self;
     flex := x;
     layers := layers self;
     layout := layout self;
     position := position self;
     velocity := velocity self;
     cross_section_orientation := cross_section_orientation self;
     cross_section_scale := cross_section_scale self;
     cross_section_depth := cross_section_depth self;
     projection_orientation := projection_orientation self;
     projection_scale := projection_scale self;
     projection_depth := projection_depth self;
     tool_bindings := tool_bindings self |}.

Definition with_layers (self : t) (x : list string) : t :=
  {| type := type self;
     flex := flex self;
     layers := x;
     layout := layout self;
     position := position self;
     velocity := velocity self;
     cross_section_orientation := cross_section_orientation self;
     cross_section_scale := cross_section_scale self;
     cross_section_depth := cross_section_depth self;
     projection_orientation := projection_orientation self;
     projection_scale := projection_scale self;
     projection_depth := projection_depth self;
     tool_bindings := tool_bindings self |}.

Definition with_layout (self : t) (x : DataPanelLayout.t) : t :=
  {| type := type self;
     flex := flex self;
     layers := layers self;
     layout := x;
     position := position self;
     velocity := velocity self;
     cross_section_orientation := cross_section_orientation self;
     cross_section_scale := cross_section_scale self;
     cross_section_depth := cross_section_depth self;
     projection_orientation := projection_orientation self;
     projection_scale := projection_scale self;
     projection_depth := projection_depth self;
     tool_bindings := tool_bindings self |}.

Definition with_position (self : t) (x : LinkedType.t vec) : t :=
  {| type := type self;
     flex := flex self;
     layers := layers self;
     layout := layout self;
     position := x;
     velocity := velocity self;
     cross_section_orientation := cross_section_orientation self;
     cross_section_scale := cross_section_scale self;
     cross_section_depth := cross_section_depth self;
     projection_orientation := projection_orientation self;
     projection_scale := projection_scale self;
     projection_depth := projection_depth self;
     tool_bindings := tool_bindings self |}.

Definition with_velocity (self : t) (x : dict string DimensionPlaybackVelocity) : t :=
  {| type := type self;
     flex := flex self;
     layers := layers self;
     layout := layout self;
     position := position self;
     velocity := x;
     cross_section_orientation := cross_section_orientation self;
     cross_section_scale := cross_section_scale self;
     cross_section_depth := cross_section_depth self;
     projection_orientation := projection_orientation self;
     projection_scale := projection_scale self;
     projection_depth := projection_depth self;
     tool_bindings := tool_bindings self |}.

Definition with_cross_section_orientation (self : t) (x : LinkedType.t quat) : t :=
  {| type := type self;
     flex := flex self;
     layers := layers self;
     layout := layout self;
     position := position self;
     velocity := velocity self;
     cross_section_orientation := x;
     cross_section_scale := cross_section_scale self;
     cross_section_depth := cross_section_depth self;
     projection_orientation := projection_orientation self;
     projection_scale := projection_scale self;
     projection_depth := projection_depth self;
     tool_bindings := tool_bindings self |}.

Definition with_cross_section_scale (self : t) (x : LinkedType.t R) : t :=
  {| type := type self;
     flex := flex self;
     layers := layers self;
     layout := layout self;
     position := position self;
     velocity := velocity self;
     cross_section_orientation := cross_section_orientation self;
     cross_section_scale := x;
     cross_section_depth := cross_section_depth self;
     projection_orientation := projection_orientation self;
     projection_scale := projection_scale self;
     projection_depth := projection_depth self;
     tool_bindings := tool_bindings self |}.

Definition with_cross_section_depth (self : t) (x : LinkedType.t R) : t :=
  {| type := type self;
     flex := flex self;
     layers := layers self;
     layout := layout self;
     position := position self;
     velocity := velocity self;
     cross_section_orientation := cross_section_orientation self;
     cross_section_scale := cross_section_scale self;
     cross_section_depth := x;
     projection_orientation := projection_orientation self;
     projection_scale := projection_scale self;
     projection_depth := projection_depth self;
     tool_bindings := tool_bindings self |}.

Definition with_projection_orientation (self : t) (x : LinkedType.t quat) : t :=
  {| type := type self;
     flex := flex self;
     layers := layers self;
     layout := layout self;
     position := position self;
     velocity := velocity self;
     cross_section_orientation := cross_section_orientation self;
     cross_section_scale := cross_section_scale self;
     cross_section_depth := cross_section_depth self;
     projection_orientation := x;
     projection_scale := projection_scale self;
     projection_depth := projection_depth self;
     tool_bindings := tool_bindings self |}.

Definition with_projection_scale (self : t) (x : LinkedType.t R) : t :=
  {| type := type self;
     flex := flex self;
     layers := layers self;
     layout := layout self;
     position := position self;
     velocity := velocity self;
     cross_section_orientation := cross_section_orientation self;
     cross_section_scale := cross_section_scale self;
     cross_section_depth := cross_section_depth self;
     projection_orientation := projection_orientation self;
     projection_scale := x;
     projection_depth := projection_depth self;
     tool_bindings := tool_bindings self |}.

Definition with_projection_depth (self : t) (x : LinkedType.t R) : t :=
  {| type := type self;
     flex := flex self;
     layers := layers self;
     layout := layout self;
     position := position self;
     velocity := velocity self;
     cross_section_orientation := cross_section_orientation self;
     cross_section_scale := cross_section_scale self;
     cross_section_depth := cross_section_depth self;
     projection_orientation := projection_orientation self;
     projection_scale := projection_scale self;
     projection_depth := x;
     tool_bindings := tool_bindings self |}.

Definition with_tool_bindings (self : t) (x : dict string Tools.instance) : t :=
  {| type := type self;
     flex := flex self;
     layers := layers self;
     layout := layout self;
     position := position self;
     velocity := velocity self;
     cross_section_orientation := cross_section_orientation self;
     cross_section_scale := cross_section_scale self;
     cross_section_depth := cross_section_depth self;
     projection_orientation := projection_orientation self;
     projection_scale := projection_scale self;
     projection_depth := projection_depth self;
     tool_bindings := x |}.

(** Modelled from the spec: [setattr(self, k, v)] through the setter of
    [wrapped_property] ([json_wrappers.py]).  The setter of the declared
    field named [k] stores a value of the field's type; any other name
    cannot be set. *)
Definition setattr (self : t) (k : string) (v : attr) : res t :=
  if String.eqb k "type" then
    match v with
    | AStr x => Ok (with_type self x)
    | _ => Raise TypeError
    end
  else if String.eqb k "flex" then
    match v with
    | AFloat x => Ok (with_flex self x)
    | _ => Raise TypeError
    end
  else if String.eqb k "layers" then
    match v with
    | AStrList x => Ok (with_layers self x)
    | _ => Raise TypeError
    end
  else if String.eqb k "layout" then
    match v with
    | APanel x => Ok (with_layout self x)
    | _ => Raise TypeError
    end
  else if String.eqb k "position" then
    match v with
    | APosition x => Ok (with_position self x)
    | _ => Raise TypeError
    end
  else if String.eqb k "velocity" then
    match v with
    | AVelocity x => Ok (with_velocity self x)
    | _ => Raise TypeError
    end
  else if String.eqb k "cross_section_orientation" || String.eqb k "crossSectionOrientation" then
    match v with
    | AOrientation x => Ok (with_cross_section_orientation self x)
    | _ => Raise TypeError
    end
  else if String.eqb k "cross_section_scale" || String.eqb k "crossSectionScale" then
    match v with
    | AZoom x => Ok (with_cross_section_scale self x)
    | _ => Raise TypeError
    end
  else if String.eqb k "cross_section_depth" || String.eqb k "crossSectionDepth" then
    match v with
    | ADepth x => Ok (with_cross_section_depth self x)
    | _ => Raise TypeError
    end
  else if String.eqb k "projection_orientation" || String.eqb k "projectionOrientation" then
    match v with
    | AOrientation x => Ok (with_projection_orientation self x)
    | _ => Raise TypeError
    end
  else if String.eqb k "projection_scale" || String.eqb k "projectionScale" then
    match v with
    | AZoom x => Ok (with_projection_scale self x)
    | _ => Raise TypeError
    end
  else if String.eqb k "projection_depth" || String.eqb k "projectionDepth" then
    match v with
    | ADepth x => Ok (with_projection_depth self x)
    | _ => Raise TypeError
    end
  else if String.eqb k "tool_bindings" || String.eqb k "toolBindings" then
    match v with
    | AToolBindings x => Ok (with_tool_bindings self x)
    | _ => Raise TypeError
    end
  else Raise AttributeError.

(** [type(a_attr).interpolate(a_attr, b_attr, t)]: the classes of the
    panel and of the linked values define [interpolate]; [str], [float],
    lists and maps do not. *)
Definition attr_interpolate (a_attr b_attr : attr) (t' : R) : res attr :=
  match a_attr, b_attr with
  | APanel a, APanel b =>
      bind (DataPanelLayout.interpolate a b t') (fun c => Ok (APanel c))
  | APosition a, APosition b =>
      bind (LinkedType.LinkedPosition_interpolate a b t') (fun c =>
      Ok (APosition c))
  | AOrientation a, AOrientation b =>
      bind (LinkedType.LinkedOrientationState_interpolate a b t') (fun c =>
      Ok (AOrientation c))
  | AZoom a, AZoom b =>
      bind (LinkedType.LinkedZoomFactor_interpolate a b t') (fun c =>
      Ok (AZoom c))
  | ADepth a, ADepth b =>
      bind (LinkedType.LinkedDepthRange_interpolate a b t') (fun c =>
      Ok (ADepth c))
  | _, _ => Raise AttributeError
  end.

(** The names the loop of [interpolate] goes through. *)
Definition interpolated_names : list string :=
  ["layout"; "position"; "cross_section_orientation"; "cross_section_zoom";
   "perspective_orientation"; "perspective_zoom"].

(** [for k in (...): setattr(c, k, type(a_attr).interpolate(a_attr, b_attr, t))] *)
Fixpoint interpolate_names (ks : list string) (a b c : t) (t' : R) : res t :=
  match ks with
  | [] => Ok c
  | k :: rest =>
      bind (getattr a k) (fun a_attr =>
      bind (getattr b k) (fun b_attr =>
      bind (attr_interpolate a_attr b_attr t') (fun v =>
      bind (setattr c k v) (fun c' =>
      interpolate_names rest a b c' t'))))
  end.

(** [c = copy.deepcopy(a)], then the loop. *)
Definition interpolate (a b : t) (t' : R) : res t :=
  interpolate_names interpolated_names a b a t'.

End LayerGroupViewer.

(* ------------------------------------------------------------------ *)
(** * The layout tree *)
(* ------------------------------------------------------------------ *)

Module Layout.
Import Py Numeric.

Local Open Scope string_scope.

(** A layout node: a [StackLayout] with its [type] (["row"] or
    ["column"]), [flex] and [children], a [LayerGroupViewer], or a
    [DataPanelLayout]. *)
Inductive layout : Type :=
| Stack (type : string) (flex : R) (children : list layout)
| Viewer (v : LayerGroupViewer.t)
| Panel (d : DataPanelLayout.t).

(** The concrete class of a node, [type(a)]. *)
Inductive layout_class : Type :=
| StackLayoutClass
| LayerGroupViewerClass
| DataPanelLayoutClass.

Definition type_of (a : layout) : layout_class :=
  match a with
  | Stack _ _ _ => StackLayoutClass
  | Viewer _ => LayerGroupViewerClass
  | Panel _ => DataPanelLayoutClass
  end.

(** [interpolate_layout], with the body of [StackLayout.interpolate] in
    the branch of two stacks: [type(a) is not type(b)] returns [a]; two
    stacks of different [type] or different numbers of children return [a];
    otherwise the children are interpolated pairwise, in order. *)
Fixpoint interpolate_layout (a b : layout) (t' : R) {struct a} : res layout :=
  match a, b with
  | Stack a_type a_flex a_children, Stack b_type _ b_children =>
      if negb (String.eqb a_type b_type)
         || negb (Nat.eqb (List.length a_children) (List.length b_children))
      then Ok a
      else
        bind
          ((fix pairwise (xs ys : list layout) {struct xs} : res (list layout) :=
              match xs, ys with
              | a_child :: xs', b_child :: ys' =>
                  bind (interpolate_layout a_child b_child t') (fun c_child =>
                  bind (pairwise xs' ys') (fun rest => Ok (c_child :: rest)))
              | _, _ => Ok []
              end) a_children b_children)
          (fun c_children => Ok (Stack a_type a_flex c_children))
  | Viewer a', Viewer b' =>
      bind (LayerGroupViewer.interpolate a' b' t') (fun c => Ok (Viewer c))
  | Panel a', Panel b' =>
      bind (DataPanelLayout.interpolate a' b' t') (fun c => Ok (Panel c))
  | _, _ => Ok a
  end.

(** [[interpolate_layout(a_child, b_child, t) for a_child, b_child in
    zip(a.children, b.children)]] *)
Fixpoint interpolate_children (xs ys : list layout) (t' : R)
  : res (list layout) :=
  match xs, ys with
  | a_child :: xs', b_child :: ys' =>
      bind (interpolate_layout a_child b_child t') (fun c_child =>
      bind (interpolate_children xs' ys' t') (fun rest =>
      Ok (c_child :: rest)))
  | _, _ => Ok []
  end.

(** [StackLayout.interpolate] on the fields of two stacks. *)
Definition StackLayout_interpolate (a_type : string) (a_flex : R)
    (a_children : list layout) (b_type : string) (b_children : list layout)
    (t' : R) : res layout :=
  if negb (String.eqb a_type b_type)
     || negb (Nat.eqb (List.length a_children) (List.length b_children))
  then Ok (Stack a_type a_flex a_children)
  else
    bind (interpolate_children a_children b_children t') (fun c_children =>
    Ok (Stack a_type a_flex c_children)).

(** [row_layout(children)] and [column_layout(children)]; [flex] reads as
    its default, 1. *)
Definition row_layout (children : list layout) : layout :=
  Stack "row" 1%R children.

Definition column_layout (children : list layout) : layout :=
  Stack "column" 1%R children.

(** [DataPanelLayout(name)] for a bare panel name. *)
Definition panel (name : string) : layout :=
  Panel {| DataPanelLayout.type := name;
           DataPanelLayout.cross_sections := [];
           DataPanelLayout.orthographic_projection := false |}.

(** [LayerGroupViewer()]: every field at its default. *)
Definition default_viewer : LayerGroupViewer.t :=
  let linked (T : Type) : LinkedType.t T :=
    {| LinkedType.link := "linked"; LinkedType.value := None |} in
  {| LayerGroupViewer.type := "viewer";
     LayerGroupViewer.flex := 1%R;
     LayerGroupViewer.layers := [];
     LayerGroupViewer.layout :=
       {| DataPanelLayout.type := "xy";
          DataPanelLayout.cross_sections := [];
          DataPanelLayout.orthographic_projection := false |};
     LayerGroupViewer.position := linked vec;
     LayerGroupViewer.velocity := [];
     LayerGroupViewer.cross_section_orientation := linked quat;
     LayerGroupViewer.cross_section_scale := linked R;
     LayerGroupViewer.cross_section_depth := linked R;
     LayerGroupViewer.projection_orientation := linked quat;
     LayerGroupViewer.projection_scale := linked R;
     LayerGroupViewer.projection_depth := linked R;
     LayerGroupViewer.tool_bindings := [] |}.

End Layout.

(* ------------------------------------------------------------------ *)
(** * Properties of layout interpolation *)
(* ------------------------------------------------------------------ *)

Module LayoutFacts.
Import Py Numeric Layout.

Local Open Scope string_scope.

(** The branch of two stacks in [interpolate_layout] is
    [StackLayout.interpolate]. *)
Lemma interpolate_layout_stack (a_type : string) (a_flex : R)
    (a_children : list layout) (b_type : string) (b_flex : R)
    (b_children : list layout) (t' : R) :
  interpolate_layout (Stack a_type a_flex a_children)
    (Stack b_type b_flex b_children) t'
  = StackLayout_interpolate a_type a_flex a_children b_type b_children t'.
Proof.
  unfold StackLayout_interpolate. cbn [interpolate_layout].
  destruct (negb (a_type =? b_type)
            || negb (Nat.eqb (List.length a_children) (List.length b_children)));
    [reflexivity|].
  f_equal. clear.
  revert b_children.
  induction a_children as [|x xs IH]; intros [|y ys]; cbn; try reflexivity.
  now rewrite IH.
Qed.

(** C4. If two layout nodes have different concrete classes, or are two
    stacks with different [type] or different numbers of children, then
    interpolating them returns the first operand as it is: no exception, no
    blend. *)
Theorem layout_interpolation_degrades (a b : layout) (t' : R) :
  type_of a <> type_of b
  \/ (exists a_type a_flex a_children b_type b_flex b_children,
        a = Stack a_type a_flex a_children
        /\ b = Stack b_type b_flex b_children
        /\ (a_type <> b_type
            \/ List.length a_children <> List.length b_children)) ->
  interpolate_layout a b t' = Ok a.
Proof.
  intros [Hclass | (ta & fa & ca & tb & fb & cb & -> & -> & Hdiff)].
  - destruct a, b; cbn in Hclass; try reflexivity; congruence.
  - rewrite interpolate_layout_stack. unfold StackLayout_interpolate.
    destruct Hdiff as [Ht | Hl].
    + apply String.eqb_neq in Ht. now rewrite Ht.
    + apply Nat.eqb_neq in Hl. rewrite Hl. now rewrite orb_true_r.
Qed.

(** A row of two panels and a column of two panels. *)
Definition two_panel_row : layout := row_layout [panel "xy"; panel "yz"].

Definition two_panel_column : layout := column_layout [panel "xy"; panel "yz"].

Lemma layout_interpolation_degrades_witness :
  interpolate_layout two_panel_row two_panel_column (1 / 2) = Ok two_panel_row.
Proof.
  apply (@layout_interpolation_degrades two_panel_row two_panel_column (1 / 2)).
  right. exists "row", 1%R, [panel "xy"; panel "yz"],
           "column", 1%R, [panel "xy"; panel "yz"].
  split; [reflexivity|]. split; [reflexivity|].
  left. discriminate.
Defined.

(** ** LayerGroupViewer.interpolate *)

(** The class has no attribute of the fourth name of the loop. *)
Lemma no_cross_section_zoom (a : LayerGroupViewer.t) :
  LayerGroupViewer.getattr a "cross_section_zoom" = Raise AttributeError.
Proof. reflexivity. Qed.

(** Nor of the fifth and the sixth. *)
Lemma no_perspective_attributes (a : LayerGroupViewer.t) :
  LayerGroupViewer.getattr a "perspective_orientation" = Raise AttributeError
  /\ LayerGroupViewer.getattr a "perspective_zoom" = Raise AttributeError.
Proof. split; reflexivity. Qed.

(** The attributes the class does declare for those values. *)
Lemma declared_navigation_attributes (a : LayerGroupViewer.t) :
  LayerGroupViewer.getattr a "cross_section_scale"
  = Ok (LayerGroupViewer.AZoom (LayerGroupViewer.cross_section_scale a))
  /\ LayerGroupViewer.getattr a "projection_orientation"
     = Ok (LayerGroupViewer.AOrientation
             (LayerGroupViewer.projection_orientation a))
  /\ LayerGroupViewer.getattr a "projection_scale"
     = Ok (LayerGroupViewer.AZoom (LayerGroupViewer.projection_scale a)).
Proof. repeat split. Qed.

(** A loop that has a name the class lacks among its names never
    completes. *)
Lemma interpolate_names_raises (ks : list string)
    (a b c : LayerGroupViewer.t) (t' : R) :
  In "cross_section_zoom" ks ->
  exists e, LayerGroupViewer.interpolate_names ks a b c t' = Raise e.
Proof.
  revert c. induction ks as [|k rest IH]; intros c Hin; [destruct Hin|].
  cbn [LayerGroupViewer.interpolate_names].
  destruct (string_dec k "cross_section_zoom") as [->|N].
  - rewrite no_cross_section_zoom. now exists AttributeError.
  - destruct Hin as [E|Hin]; [congruence|].
    destruct (LayerGroupViewer.getattr a k) as [x|e]; [|now exists e].
    destruct (LayerGroupViewer.getattr b k) as [y|e]; [|now exists e].
    cbn [bind].
    destruct (LayerGroupViewer.attr_interpolate x y t') as [v|e];
      [|now exists e].
    cbn [bind].
    destruct (LayerGroupViewer.setattr c k v) as [c'|e]; [|now exists e].
    cbn [bind]. now apply IH.
Qed.

(** C9. [LayerGroupViewer.interpolate(a, b, t)] returns no value for any
    [a], [b] and [t]: the loop asks for the attribute [cross_section_zoom],
    which the class does not have, so the call raises (an [AttributeError],
    unless interpolating one of the first three attributes raised before).
    On two default viewers the error is the [AttributeError]. *)
Theorem viewer_interpolate_always_raises (a b : LayerGroupViewer.t) (t' : R) :
  (exists e, LayerGroupViewer.interpolate a b t' = Raise e)
  /\ LayerGroupViewer.interpolate default_viewer default_viewer (1 / 2)
     = Raise AttributeError.
Proof.
  split.
  - apply interpolate_names_raises. cbn. tauto.
  - reflexivity.
Qed.

(** Hence interpolating two viewer nodes of a layout raises as well. *)
Lemma interpolate_layout_viewers_raises (a b : LayerGroupViewer.t) (t' : R) :
  exists e, interpolate_layout (Viewer a) (Viewer b) t' = Raise e.
Proof.
  destruct (@interpolate_names_raises LayerGroupViewer.interpolated_names
              a b a t') as [e He]; [cbn; tauto|].
  exists e. cbn [interpolate_layout].
  unfold LayerGroupViewer.interpolate. now rewrite He.
Qed.

End LayoutFacts.

(* ------------------------------------------------------------------ *)
(** * StarredSegments: invariants, bulk updates and round trips *)
(* ------------------------------------------------------------------ *)

Module SegmentsMore.
Import Py DictFacts Segments SegmentsFacts.

Local Open Scope Z_scope.

(** ** Appending to a dictionary *)

Lemma dict_get_absent (d : dict Z bool) (k : Z) :
  ~ In k (dict_keys d) -> dict_get d k = None.
Proof.
  induction d as [|[k' v'] d IH]; cbn; [reflexivity|].
  intros N. destruct (Z.eqb_spec k' k) as [->|Hne]; [tauto|].
  apply IH. tauto.
Qed.

Lemma dict_set_absent (d : dict Z bool) (k : Z) (v : bool) :
  ~ In k (dict_keys d) -> dict_set d k v = d ++ [(k, v)].
Proof.
  induction d as [|[k' v'] d IH]; cbn; [reflexivity|].
  intros N. destruct (Z.eqb_spec k' k) as [->|Hne]; [tauto|].
  rewrite IH by tauto. reflexivity.
Qed.

Lemma dict_set_keys_present (d : dict Z bool) (k : Z) (v : bool) :
  In k (dict_keys d) -> dict_keys (dict_set d k v) = dict_keys d.
Proof.
  induction d as [|[k' v'] d IH]; cbn; [tauto|].
  intros I. destruct (Z.eqb_spec k' k) as [->|Hne]; cbn; [reflexivity|].
  f_equal. apply IH. destruct I; [contradiction | assumption].
Qed.

Section Bulk.
Context `{NumpyUint64}.

(** X1. A bulk update from a list of items or from a mapping keeps every
    starred id inside the unsigned 64-bit range, whether the update returns
    or raises half way. *)
Theorem bulk_update_keeps_range (s : StarredSegments)
    (items : list pyval) (m : list (pyval * pyval)) :
  Forall is_uint64 (keys s) ->
  Forall is_uint64 (keys (state_of (update s (SrcIterable items))))
  /\ Forall is_uint64 (keys (state_of (update s (SrcMapping m)))).
Proof.
  intros F. unfold update.
  destruct (_readonly s); [split; exact F|].
  cbn [_update]. split; now apply update_items_range.
Qed.

(** X2. Every mutator keeps [_visible] equal to the set of segments that
    [_data] maps to [True], provided the container was so before: [add],
    [__setitem__], [remove], [discard], [__delitem__], [clear], the [visible]
    setter, and [update] from items or from a mapping, also when the call
    raises. *)
Theorem mutators_keep_consistency (s : StarredSegments) :
  consistent s ->
  forall (k : Z) (v : bool) (items : list pyval) (m : list (pyval * pyval))
         (segments : list Z),
    consistent (state_of (add s k))
    /\ consistent (state_of (__setitem__ s k v))
    /\ consistent (state_of (remove s k))
    /\ consistent (state_of (discard s k))
    /\ consistent (state_of (__delitem__ s k))
    /\ consistent (state_of (clear s))
    /\ consistent (state_of (set_visible s segments))
    /\ consistent (state_of (update s (SrcIterable items)))
    /\ consistent (state_of (update s (SrcMapping m))).
Proof.
  intros C k v items m segments.
  repeat split.
  - now apply consistent_add.
  - now apply consistent_setitem.
  - now apply consistent_remove.
  - now apply consistent_discard.
  - now apply consistent_delitem.
  - now apply consistent_clear.
  - now apply consistent_set_visible.
  - unfold update. destruct (_readonly s); [exact C|].
    now apply consistent_update_items.
  - unfold update. destruct (_readonly s); [exact C|].
    now apply consistent_update_items.
Qed.

Lemma update_items_app (pre post : list pyval) (s s1 : StarredSegments) :
  update_items pre s = Done s1 ->
  update_items (pre ++ post) s = update_items post s1.
Proof.
  revert s. induction pre as [|item rest IH]; intros s; cbn [update_items app].
  - now intros [= <-].
  - destruct (update_item item) as [[k v]|e]; [apply IH | discriminate].
Qed.

(** X3. A bulk update is not atomic: when an item is refused, the items
    before it stay stored and the items after it are never looked at. *)
Theorem bulk_update_keeps_prefix (s s1 : StarredSegments)
    (pre post : list pyval) (bad : pyval) (e : exn) :
  _readonly s = false ->
  update s (SrcIterable pre) = Done s1 ->
  update_item bad = Raise e ->
  update s (SrcIterable (pre ++ bad :: post)) = Raised e s1.
Proof.
  intros Hrw. unfold update. rewrite Hrw. cbn [_update].
  intros Hpre Hbad.
  erewrite update_items_app by exact Hpre. cbn [update_items].
  now rewrite Hbad.
Qed.

End Bulk.

Lemma bulk_update_keeps_range_witness :
  Forall is_uint64
    (keys (state_of (@update numpy_strict hidden_two
                       (SrcIterable asymmetry_items))))
  /\ Forall is_uint64
       (keys (state_of (@update numpy_strict hidden_two
                          (SrcMapping [(PInt 7, PBool true)])))).
Proof.
  apply (@bulk_update_keeps_range numpy_strict hidden_two).
  repeat constructor; vm_compute; congruence.
Defined.

Lemma mutators_keep_consistency_witness :
  consistent (state_of (add hidden_two 2))
  /\ consistent (state_of (__setitem__ hidden_two 2 true))
  /\ consistent (state_of (remove hidden_two 2))
  /\ consistent (state_of (discard hidden_two 2))
  /\ consistent (state_of (__delitem__ hidden_two 2))
  /\ consistent (state_of (clear hidden_two))
  /\ consistent (state_of (@set_visible numpy_strict hidden_two [5; 2]))
  /\ consistent (state_of (@update numpy_strict hidden_two
                             (SrcIterable asymmetry_items)))
  /\ consistent (state_of (@update numpy_strict hidden_two
                             (SrcMapping [(PInt 7, PBool true)]))).
Proof.
  apply (@mutators_keep_consistency numpy_strict hidden_two
           hidden_two_consistent 2 true asymmetry_items
           [(PInt 7, PBool true)] [5; 2]).
Defined.

Lemma bulk_update_keeps_prefix_witness :
  @update numpy_strict empty_segments
    (SrcIterable ([PInt 1; PStr "!2"] ++ PStr "x" :: [PInt 3]))
  = Raised ValueError
      {| _readonly := false;
         _data := [(1, true); (2, false)];
         _visible := [(1, true)] |}.
Proof.
  apply (@bulk_update_keeps_prefix numpy_strict empty_segments).
  - reflexivity.
  - reflexivity.
  - reflexivity.
Defined.

(** ** Serialization round trip *)

(** The string of a displayed segment: [to_json] on one binding. *)
Definition encode (sv : Z * bool) : string :=
  if snd sv then str_of_int (fst sv)
  else ("!" ++ str_of_int (fst sv))%string.

Definition starts_with_bang (s : string) : bool :=
  match s with
  | String c _ => Ascii.eqb c "!"
  | EmptyString => false
  end.

Lemma string_of_uint_no_bang (d : Decimal.uint) :
  starts_with_bang (NilZero.string_of_uint d) = false.
Proof. destruct d; reflexivity. Qed.

Lemma str_of_int_no_bang (n : Z) :
  0 <= n -> starts_with_bang (str_of_int n) = false.
Proof.
  intros Hn. unfold str_of_int.
  destruct n as [|p|p]; [reflexivity| |lia].
  cbn [Z.to_int NilZero.string_of_int]. apply string_of_uint_no_bang.
Qed.

Lemma split_bang_plain (s : string) :
  starts_with_bang s = false ->
  match s with
  | String "!"%char rest => (false, rest)
  | _ => (true, s)
  end = (true, s).
Proof.
  destruct s as [|c rest]; [reflexivity|].
  destruct c as [[] [] [] [] [] [] [] []]; cbn; intros E;
    first [reflexivity | discriminate].
Qed.

Section RoundTrip.
Context `{NumpyUint64}.

Lemma update_item_visible_str (n : Z) :
  is_uint64 n -> update_item (PStr (str_of_int n)) = Ok (n, true).
Proof.
  intros Hn. unfold update_item. cbn [as_integral].
  rewrite split_bang_plain by (apply str_of_int_no_bang; apply Hn).
  now rewrite (uint64_of_str_decimal Hn).
Qed.

Lemma update_item_encode (sv : Z * bool) :
  is_uint64 (fst sv) -> update_item (PStr (encode sv)) = Ok sv.
Proof.
  destruct sv as [k [|]]; unfold encode; cbn [fst snd]; intros Hk.
  - now apply update_item_visible_str.
  - now apply update_item_hidden_str.
Qed.

Lemma to_json_encode (s : StarredSegments) : to_json s = map encode (_data s).
Proof. reflexivity. Qed.

Lemma rebuild_from_strings (d : dict Z bool) (s : StarredSegments) :
  NoDup (dict_keys (_data s ++ d)) ->
  Forall is_uint64 (dict_keys d) ->
  exists s', update_items (map PStr (map encode d)) s = Done s'
             /\ _data s' = _data s ++ d
             /\ _readonly s' = _readonly s.
Proof.
  revert s. induction d as [|[k v] d IH]; intros s ND F; cbn [map update_items].
  - exists s. now rewrite app_nil_r.
  - inversion F as [|? ? Hk Hd]; subst. cbn [fst] in Hk.
    rewrite (update_item_encode (k, v)) by exact Hk.
    assert (Hfresh : ~ In k (dict_keys (_data s))).
    { unfold dict_keys in *. rewrite map_app in ND. cbn [map fst] in ND.
      apply NoDup_remove_2 in ND. intros I. apply ND.
      apply in_or_app. now left. }
    destruct (IH (store s k v)) as (s' & Hs' & Hdata & Hro).
    + unfold store. cbn [_data]. rewrite (@dict_set_absent (_data s) k v Hfresh).
      now rewrite <- app_assoc.
    + exact Hd.
    + exists s'. split; [exact Hs'|]. split; [|exact Hro].
      rewrite Hdata. unfold store. cbn [_data].
      rewrite (@dict_set_absent (_data s) k v Hfresh). now rewrite <- app_assoc.
Qed.

(** X4. Round trip through the wire format: for a container whose ids fit
    the unsigned 64-bit range, constructing a [StarredSegments] from
    [to_json()] returns a container with the same bindings in the same order,
    and with the same visible segments. *)
Theorem to_json_round_trip (s : StarredSegments) (ro : bool) :
  NoDup (keys s) -> Forall is_uint64 (keys s) -> consistent s ->
  exists s',
    __init__ (Some (SrcIterable (map PStr (to_json s)))) ro = Ok s'
    /\ _data s' = _data s
    /\ (forall k, dict_get (_visible s') k = dict_get (_visible s) k)
    /\ to_json s' = to_json s.
Proof.
  intros ND F C. unfold __init__. cbn [_update]. rewrite to_json_encode.
  destruct (@rebuild_from_strings (_data s)
              {| _readonly := ro; _data := []; _visible := [] |})
    as (s' & Hs' & Hdata & _); [exact ND | exact F |].
  cbn [_data app] in Hdata.
  pose proof (@consistent_update_items _ (map PStr (map encode (_data s)))
                {| _readonly := ro; _data := []; _visible := [] |}) as C'.
  rewrite Hs' in *. cbn [state_of] in C'.
  exists s'. split; [reflexivity|]. split; [exact Hdata|]. split.
  - intros k. rewrite C' by (intros k0; reflexivity).
    now rewrite (C k), Hdata.
  - now rewrite !to_json_encode, Hdata.
Qed.

(** ** The [visible] setter *)

Lemma visible_new_dict_fold (segments : list Z) (acc : dict Z bool) :
  Forall is_uint64 segments ->
  visible_new_dict segments acc
  = Ok (fold_left (fun d k => dict_set d k true) segments acc).
Proof.
  revert acc. induction segments as [|k rest IH]; intros acc F; cbn.
  - reflexivity.
  - inversion F as [|? ? Hk Hrest]; subst.
    rewrite (uint64_of_int_exact Hk). cbn [bind].
    rewrite Z.eqb_refl. cbn [negb]. now apply IH.
Qed.

Lemma fold_set_true_get (segments : list Z) (acc : dict Z bool) (k : Z) :
  dict_get (fold_left (fun d k => dict_set d k true) segments acc) k
  = if existsb (Z.eqb k) segments then Some true else dict_get acc k.
Proof.
  revert acc. induction segments as [|k0 rest IH]; intros acc; cbn.
  - reflexivity.
  - rewrite IH. destruct (existsb (Z.eqb k) rest).
    + now rewrite orb_true_r.
    + rewrite orb_false_r. destruct (Z.eqb_spec k k0) as [->|N].
      * now rewrite dict_get_set_eq.
      * rewrite dict_get_set_neq by congruence. reflexivity.
Qed.

Lemma visible_new_dict_refuses (segments : list Z) (acc : dict Z bool) :
  Exists (fun k => ~ is_uint64 k) segments ->
  exists e, visible_new_dict segments acc = Raise e.
Proof.
  revert acc. induction segments as [|k rest IH]; intros acc E; cbn.
  - inversion E.
  - destruct (uint64_of_int k) as [num_k|e] eqn:Eu; cbn [bind];
      [|now exists e].
    destruct (Z.eqb_spec num_k k) as [->|N]; cbn [negb].
    + inversion E as [? ? Hk|? ? Hrest]; subst.
      * exfalso. apply Hk. eapply uint64_of_int_range; eassumption.
      * now apply IH.
    + now exists ValueError.
Qed.

(** X5. The [visible] setter is all or nothing.  If every given id fits the
    unsigned 64-bit range, the container afterwards stars exactly the given
    ids, all visible, whatever it held before; if one id does not fit, the
    setter raises and the container is as it was. *)
Theorem visible_setter_all_or_nothing (s : StarredSegments)
    (segments : list Z) :
  (Forall is_uint64 segments ->
   exists s',
     set_visible s segments = Done s'
     /\ _visible s' = _data s'
     /\ forall k, get s' k
                  = if existsb (Z.eqb k) segments then Some true else None)
  /\ (Exists (fun k => ~ is_uint64 k) segments ->
      exists e, set_visible s segments = Raised e s).
Proof.
  split.
  - intros F. unfold set_visible. rewrite (visible_new_dict_fold [] F).
    eexists. split; [reflexivity|]. split; [reflexivity|].
    intros k. unfold get. cbn [_data]. now rewrite fold_set_true_get.
  - intros E. unfold set_visible.
    destruct (visible_new_dict_refuses [] E) as [e He].
    rewrite He. now exists e.
Qed.

End RoundTrip.

(** The container [StarredSegments([1, "!2", (3, True)])]. *)
Definition three_segments : StarredSegments :=
  {| _readonly := false;
     _data := [(1, true); (2, false); (3, true)];
     _visible := [(1, true); (3, true)] |}.

Lemma three_segments_consistent : consistent three_segments.
Proof.
  intros k. unfold three_segments.
  cbn [_data _visible dict_get key_eqb Z_Key].
  destruct (1 =? k); [reflexivity|].
  destruct (2 =? k) eqn:E2.
  - apply Z.eqb_eq in E2. subst k. reflexivity.
  - destruct (3 =? k); reflexivity.
Qed.

Lemma to_json_round_trip_witness :
  exists s',
    @__init__ numpy_strict
      (Some (SrcIterable (map PStr (to_json three_segments)))) false = Ok s'
    /\ _data s' = _data three_segments
    /\ (forall k, dict_get (_visible s') k
                  = dict_get (_visible three_segments) k)
    /\ to_json s' = to_json three_segments.
Proof.
  apply (@to_json_round_trip numpy_strict three_segments false).
  - repeat constructor; cbn; intuition congruence.
  - repeat constructor; vm_compute; congruence.
  - exact three_segments_consistent.
Defined.

(** ** Single segments *)

(** X6. [add] stars a segment that is not starred and marks it visible;
    on a segment that is starred already, hidden or visible, it changes
    nothing, so a hidden segment stays hidden. *)
Theorem add_keeps_starred_state (s : StarredSegments) (k : Z) :
  _readonly s = false ->
  (get s k = None ->
   exists s', add s k = Done s' /\ get s' k = Some true
              /\ dict_get (_visible s') k = Some true)
  /\ (get s k <> None -> add s k = Done s).
Proof.
  intros Hrw. unfold add, setdefault, __getitem__, dict_getitem, get.
  rewrite Hrw. split.
  - intros Hk. rewrite Hk. unfold __setitem__. rewrite Hrw.
    eexists. split; [reflexivity|]. cbn [_data _visible get].
    now rewrite !dict_get_set_eq.
  - intros Hk. destruct (dict_get (_data s) k); [reflexivity | congruence].
Qed.

Lemma add_keeps_starred_state_witness :
  (get hidden_two 2 = None ->
   exists s', add hidden_two 2 = Done s' /\ get s' 2 = Some true
              /\ dict_get (_visible s') 2 = Some true)
  /\ (get hidden_two 2 <> None -> add hidden_two 2 = Done hidden_two).
Proof.
  apply (@add_keeps_starred_state hidden_two 2). reflexivity.
Defined.

(** X7. [s[k] = v] followed by a lookup of [k] gives [v], and no other
    segment changes its state; the segment is in the visible set exactly
    when [v] is [True]; and [del s[k]] afterwards leaves [k] unstarred and
    out of the visible set. *)
Theorem setitem_then_lookup (s : StarredSegments) (k : Z) (v : bool) :
  _readonly s = false ->
  exists s1 s2,
    __setitem__ s k v = Done s1
    /\ __getitem__ s1 k = Ok v
    /\ (forall k0, k0 <> k -> get s1 k0 = get s k0)
    /\ dict_contains (_visible s1) k = v
    /\ __delitem__ s1 k = Done s2
    /\ __contains__ s2 k = false
    /\ dict_contains (_visible s2) k = false.
Proof.
  intros Hrw. unfold __setitem__. rewrite Hrw.
  eexists. eexists. split; [reflexivity|].
  unfold __getitem__, dict_getitem, get, __delitem__, dict_delitem,
    __contains__, dict_contains.
  cbn [_data _visible _readonly]. rewrite dict_get_set_eq.
  split; [reflexivity|]. split.
  { intros k0 N. now rewrite dict_get_set_neq by congruence. }
  split.
  { destruct v.
    - now rewrite dict_get_set_eq.
    - now rewrite dict_get_discard_eq. }
  split; [reflexivity|].
  cbn [_data _visible]. now rewrite !dict_get_discard_eq.
Qed.

Lemma setitem_then_lookup_witness :
  exists s1 s2,
    __setitem__ hidden_two 9 true = Done s1
    /\ __getitem__ s1 9 = Ok true
    /\ (forall k0, k0 <> 9 -> get s1 k0 = get hidden_two k0)
    /\ dict_contains (_visible s1) 9 = true
    /\ __delitem__ s1 9 = Done s2
    /\ __contains__ s2 9 = false
    /\ dict_contains (_visible s2) 9 = false.
Proof.
  apply (@setitem_then_lookup hidden_two 9 true). reflexivity.
Defined.

End SegmentsMore.

(* ------------------------------------------------------------------ *)
(** * The factory: laws of the dispatch *)
(* ------------------------------------------------------------------ *)

Module FactoryMore.
Import Py Json Tools ToolsFacts.

Local Open Scope string_scope.

Section AnyFamily.
(** A family of classes as [_factory_new] sees it. *)
Variables (C I : Type).
Variable class_is : C -> C -> bool.
Variable issubclass : C -> C -> bool.
Variable type_of : I -> C.
Variable type_call : C -> pyobj I -> bool -> dict string json -> res I.
Variable registry : dict string C.
Variable base_class : C.
Hypothesis class_is_refl : class_is base_class base_class = true.

(** X8. In every family, calling the base class with a bare string is,
    when the family allows strings, the same as calling it with the mapping
    [{"type": s}], for a registered and for an unregistered [s] alike; when
    the family does not allow strings it is a [TypeError], as it is for
    [None]. *)
Theorem bare_string_is_type_mapping (s : string) (ro : bool)
    (kwargs : dict string json) :
  _factory_new class_is issubclass type_of type_call registry base_class
    base_class true (OStr s) ro kwargs
  = _factory_new class_is issubclass type_of type_call registry base_class
      base_class true (ODict [("type", JStr s)]) ro kwargs
  /\ _factory_new class_is issubclass type_of type_call registry base_class
       base_class false (OStr s) ro kwargs
     = Raise TypeError
  /\ forall allow_str,
       _factory_new class_is issubclass type_of type_call registry base_class
         base_class allow_str ONone ro kwargs
       = Raise TypeError.
Proof.
  unfold _factory_new. rewrite class_is_refl.
  split; [|split].
  - replace (get_or_none [("type", JStr s)] "type") with (JStr s)
      by reflexivity.
    destruct (registry_getitem registry (JStr s)); reflexivity.
  - reflexivity.
  - intros allow_str. reflexivity.
Qed.

End AnyFamily.

Lemma bare_string_is_type_mapping_witness :
  Tool_call (fun _ => "") Tool (OStr "opacity") false []
  = Tool_call (fun _ => "") Tool (ODict [("type", JStr "opacity")]) false []
  /\ _factory_new tool_class_eqb issubclass inst_class
       (Tool_init (fun _ => "")) tool_types Tool Tool false
       (OStr "opacity") false []
     = Raise TypeError
  /\ forall allow_str,
       _factory_new tool_class_eqb issubclass inst_class
         (Tool_init (fun _ => "")) tool_types Tool Tool allow_str
         ONone false []
       = Raise TypeError.
Proof.
  apply (@bare_string_is_type_mapping tool_class instance tool_class_eqb
           issubclass inst_class (Tool_init (fun _ => "")) tool_types Tool).
  reflexivity.
Defined.

Section ToolFamily.
Variable repr_str : json -> string.

(** Each exported class is registered under its own [TOOL_TYPE]: no later
    class overwrote the entry of an earlier one. *)
Lemma exported_tools_registered :
  Forall (fun c => exists t, TOOL_TYPE c = Some t
                             /\ dict_get tool_types t = Some c)
    exported_tools.
Proof.
  unfold exported_tools.
  repeat (constructor; [eexists; split; reflexivity|]).
  constructor.
Qed.

(** X9. For every tool class decorated with [@export_tool], [Tool(t)]
    with [t] the class's [TOOL_TYPE] is an instance of exactly that class,
    and its [type] is [t]: no two exported classes share a discriminant. *)
Theorem tool_type_round_trip (c : tool_class) (ro : bool) :
  In c exported_tools ->
  exists t i,
    TOOL_TYPE c = Some t
    /\ Tool_call repr_str Tool (OStr t) ro [] = Ok i
    /\ inst_class i = c
    /\ type_ repr_str i = t.
Proof.
  intros Hin.
  pose proof exported_tools_registered as F.
  rewrite Forall_forall in F. destruct (F c Hin) as (t & Ht & Hreg).
  destruct (@registered_discriminant_dispatches repr_str t c ro Hreg)
    as (i & Hi & Hc & Hty).
  exists t, i. repeat split; assumption.
Qed.

Lemma set_fields_type (c : tool_class) (data : dict string json) (t : string) :
  set_fields repr_str c data [("type", JStr t)]
  = Ok (dict_set data "type" (JStr t)).
Proof. reflexivity. Qed.

(** X10. A concrete tool class called directly fixes the discriminant:
    for every exported class [c] and every mapping [d], [c(d)] is an
    instance of [c] whose [type] is the [TOOL_TYPE] of [c], whatever ["type"]
    the mapping names, and the registry is not consulted. *)
Theorem subclass_call_fixes_type (c : tool_class) (d : dict string json)
    (ro : bool) :
  In c exported_tools ->
  exists t i,
    TOOL_TYPE c = Some t
    /\ Tool_call repr_str c (ODict d) ro [] = Ok i
    /\ inst_class i = c
    /\ type_ repr_str i = t
    /\ forall k, k <> "type" ->
         dict_get (Tools._json_data i) k = dict_get d k.
Proof.
  intros Hin.
  pose proof exported_tools_registered as F.
  rewrite Forall_forall in F. destruct (F c Hin) as (t & Ht & _).
  assert (Hnb : tool_class_eqb c Tool = false).
  { destruct c; try reflexivity. cbn in Ht. discriminate. }
  exists t. eexists. split; [exact Ht|].
  unfold Tool_call, _factory_new. rewrite Hnb. cbn [bind fst snd].
  unfold Tool_init. rewrite Ht.
  unfold JsonObjectWrapper_init. cbn [bind dict_set].
  rewrite set_fields_type. cbn [bind].
  split; [reflexivity|]. split; [reflexivity|]. split.
  - unfold type_, get_or_none. cbn [Tools._json_data].
    now rewrite DictFacts.dict_get_set_eq.
  - intros k Hk. cbn [Tools._json_data].
    apply DictFacts.dict_get_set_neq. congruence.
Qed.

End ToolFamily.

Lemma tool_type_round_trip_witness :
  exists t i,
    TOOL_TYPE DimensionTool = Some t
    /\ Tool_call (fun _ => "") Tool (OStr t) false [] = Ok i
    /\ inst_class i = DimensionTool
    /\ type_ (fun _ => "") i = t.
Proof.
  apply (@tool_type_round_trip (fun _ => "") DimensionTool false).
  unfold exported_tools. cbn. tauto.
Defined.

Lemma subclass_call_fixes_type_witness :
  exists t i,
    TOOL_TYPE BlendTool = Some t
    /\ Tool_call (fun _ => "") BlendTool
         (ODict [("type", JStr "opacity"); ("layer", JStr "a")]) false []
       = Ok i
    /\ inst_class i = BlendTool
    /\ type_ (fun _ => "") i = t
    /\ forall k, k <> "type" ->
         dict_get (Tools._json_data i) k
         = dict_get [("type", JStr "opacity"); ("layer", JStr "a")] k.
Proof.
  apply (@subclass_call_fixes_type (fun _ => "") BlendTool
           [("type", JStr "opacity"); ("layer", JStr "a")] false).
  unfold exported_tools. cbn. tauto.
Defined.

End FactoryMore.

(* ------------------------------------------------------------------ *)
(** * make_layer, the constructor of ManagedLayer, and Layers *)
(* ------------------------------------------------------------------ *)

Module LayerList.
Import Py Json DictFacts.

Local Open Scope string_scope.
Local Open Scope list_scope.
Local Open Scope Z_scope.

(** The exceptions of this part of the code: those of [Py.exn], and
    [IndexError], which indexing a Python list raises. *)
Inductive error : Type :=
| Std (e : exn)
| IndexError.

Inductive outcome (A : Type) : Type :=
| Return (a : A)
| Throw (e : error).

Arguments Return {A} a.
Arguments Throw {A} e.

(** A method that mutates its receiver, as [Py.effect] with the wider
    exceptions. *)
Inductive step (S : Type) : Type :=
| Fine (s : S)
| Failed (e : error) (s : S).

Arguments Fine {S} s.
Arguments Failed {S} e s.

Definition after {S : Type} (r : step S) : S :=
  match r with
  | Fine s => s
  | Failed _ s => s
  end.

Definition lift {A : Type} (r : res A) : outcome A :=
  match r with
  | Ok a => Return a
  | Raise e => Throw (Std e)
  end.

(** ** make_layer *)

(** The discriminant a concrete layer class passes to its base
    initialiser as the keyword argument [type]. *)
Definition layer_type_name (c : Managed.layer_class) : string :=
  match c with
  | Managed.ImageLayer => "image"
  | Managed.SegmentationLayer => "segmentation"
  | Managed.PointAnnotationLayer => "pointAnnotation"
  | Managed.AnnotationLayer => "annotation"
  | Managed.SingleMeshLayer => "mesh"
  end.

Definition layer_types : dict string Managed.layer_class :=
  [("image", Managed.ImageLayer);
   ("segmentation", Managed.SegmentationLayer);
   ("pointAnnotation", Managed.PointAnnotationLayer);
   ("annotation", Managed.AnnotationLayer);
   ("mesh", Managed.SingleMeshLayer)].

(** [registry.get(t)]: [None] for a key that is not registered, a
    [TypeError] for a list or a dict, which cannot be hashed. *)
Definition registry_get {C : Type} (registry : dict string C) (t : json)
  : res (option C) :=
  match t with
  | JStr s => Ok (dict_get registry s)
  | JList _ | JDict _ => Raise TypeError
  | JNull | JBool _ | JNum _ => Ok None
  end.

(** What is passed where a layer is expected: nothing, a JSON mapping, a
    [Layer], a [ManagedLayer], or an object of another class.  Objects of
    the class [LocalVolume], which is defined outside these sources, are not
    among the inputs. *)
Inductive layer_arg : Type :=
| ArgNone
| ArgDict (d : dict string json)
| ArgLayer (l : Managed.Layer)
| ArgManaged (m : Managed.ManagedLayer)
| ArgOther.

(** Modelled from the spec: the constructor of a concrete layer class on
    a JSON mapping, which runs [JsonObjectWrapper.__init__] of
    [json_wrappers.py]: the mapping backs the layer, and the keyword argument
    [type] is written to it. *)
Definition Layer_init (c : Managed.layer_class) (d : dict string json)
  : Managed.Layer :=
  {| Managed.layer_type := c;
     Managed.layer_data := dict_set d "type" (JStr (layer_type_name c)) |}.

Definition make_layer (json_data : layer_arg) (_readonly : bool)
  : res Managed.Layer :=
  match json_data with
  | ArgLayer l => Ok l
  | ArgDict d =>
      bind (registry_get layer_types (get_or_none d "type")) (fun layer_type =>
      match layer_type with
      | Some c => Ok (Layer_init c d)
      | None => Raise ValueError
      end)
  | ArgNone | ArgManaged _ | ArgOther => Raise TypeError
  end.

(** ** ManagedLayer.__init__ *)

(** The first argument of the constructor: a name or a [ManagedLayer]. *)
Inductive name_arg : Type :=
| NameStr (s : string)
| NameManaged (m : Managed.ManagedLayer).

(** [ManagedLayer(name, layer, _readonly)], without keyword arguments
    (they are handled by [JsonObjectWrapper.__init__]). *)
Definition ManagedLayer_init (name : name_arg) (layer : layer_arg)
    (_readonly : bool) : res Managed.ManagedLayer :=
  bind
    (match name with
     | NameManaged m =>
         match layer with
         | ArgNone => Ok (Managed.name m, ArgDict (Managed.to_json m))
         | _ => Raise ValueError
         end
     | NameStr s => Ok (s, layer)
     end)
    (fun nl =>
     let name := fst nl in
     match snd nl with
     | ArgLayer l =>
         Ok {| Managed.name := name; Managed.layer := l;
               Managed._json_data := []; Managed._readonly := _readonly |}
     | ArgNone =>
         bind (make_layer (ArgDict []) _readonly) (fun l =>
         Ok {| Managed.name := name; Managed.layer := l;
               Managed._json_data := []; Managed._readonly := _readonly |})
     | ArgDict d =>
         bind (make_layer (ArgDict d) _readonly) (fun l =>
         Ok {| Managed.name := name; Managed.layer := l;
               Managed._json_data := d; Managed._readonly := _readonly |})
     | ArgManaged m =>
         bind (make_layer (ArgManaged m) _readonly) (fun _ => Raise TypeError)
     | ArgOther =>
         bind (make_layer ArgOther _readonly) (fun _ => Raise TypeError)
     end).

(** ** Python lists *)

Section Lists.
Context {A : Type}.

(** The position an index denotes: a negative index counts from the end;
    [None] when it is out of range. *)
Definition position (l : list A) (i : Z) : option nat :=
  let n := Z.of_nat (List.length l) in
  let j := if i <? 0 then i + n else i in
  if (0 <=? j) && (j <? n) then Some (Z.to_nat j) else None.

(** [l[i]] *)
Definition list_getitem (l : list A) (i : Z) : outcome A :=
  match position l i with
  | Some j =>
      match nth_error l j with
      | Some x => Return x
      | None => Throw IndexError
      end
  | None => Throw IndexError
  end.

(** [l[i] = x] *)
Definition list_setitem (l : list A) (i : Z) (x : A) : outcome (list A) :=
  match position l i with
  | Some j => Return (firstn j l ++ x :: skipn (S j) l)
  | None => Throw IndexError
  end.

(** [del l[i]] *)
Definition list_delitem (l : list A) (i : Z) : outcome (list A) :=
  match position l i with
  | Some j => Return (firstn j l ++ skipn (S j) l)
  | None => Throw IndexError
  end.

(** A bound of a slice without a step, clamped to the list. *)
Definition slice_bound (l : list A) (b : option Z) (default : Z) : Z :=
  let n := Z.of_nat (List.length l) in
  match b with
  | None => default
  | Some i => Z.max 0 (Z.min n (if i <? 0 then i + n else i))
  end.

Definition slice_start (l : list A) (lo : option Z) : nat :=
  Z.to_nat (slice_bound l lo 0).

Definition slice_stop (l : list A) (lo hi : option Z) : nat :=
  Z.to_nat (Z.max (slice_bound l lo 0)
                  (slice_bound l hi (Z.of_nat (List.length l)))).

(** [l[lo:hi]] *)
Definition list_getslice (l : list A) (lo hi : option Z) : list A :=
  firstn (slice_stop l lo hi - slice_start l lo) (skipn (slice_start l lo) l).

(** [l[lo:hi] = values] *)
Definition list_setslice (l : list A) (lo hi : option Z) (values : list A)
  : list A :=
  firstn (slice_start l lo) l ++ values ++ skipn (slice_stop l lo hi) l.

(** [del l[lo:hi]] *)
Definition list_delslice (l : list A) (lo hi : option Z) : list A :=
  firstn (slice_start l lo) l ++ skipn (slice_stop l lo hi) l.

End Lists.

(** ** Layers *)

Record Layers : Type := {
  _layers : list Managed.ManagedLayer;
  _readonly : bool
}.

(** A subscript: a layer name, an integer, or a slice without a step. *)
Inductive key : Type :=
| KName (k : string)
| KIndex (i : Z)
| KSlice (lo hi : option Z).

(** What a subscription evaluates to: one layer, or a list for a slice. *)
Inductive item : Type :=
| One (m : Managed.ManagedLayer)
| Many (l : list Managed.ManagedLayer).

(** What is assigned or appended: a [Layer], a [ManagedLayer], an iterable
    with its elements, or an object that is none of these. *)
Inductive value : Type :=
| VLayer (l : Managed.Layer)
| VManaged (m : Managed.ManagedLayer)
| VList (xs : list value)
| VOther.

Definition isinstance_ManagedLayer (v : value) : bool :=
  match v with
  | VManaged _ => true
  | _ => false
  end.

(** [for i, u in enumerate(self._layers): if u.name == k: return i] *)
Fixpoint index_from (i : Z) (l : list Managed.ManagedLayer) (k : string)
  : Z :=
  match l with
  | [] => -1
  | u :: rest =>
      if String.eqb (Managed.name u) k then i else index_from (i + 1) rest k
  end.

Definition index (self : Layers) (k : string) : Z :=
  index_from 0 (_layers self) k.

Definition __contains__ (self : Layers) (k : string) : bool :=
  negb (index self k =? -1).

Definition __getitem__ (self : Layers) (k : key) : outcome item :=
  match k with
  | KName s =>
      match list_getitem (_layers self) (index self s) with
      | Return m => Return (One m)
      | Throw e => Throw e
      end
  | KIndex i =>
      match list_getitem (_layers self) i with
      | Return m => Return (One m)
      | Throw e => Throw e
      end
  | KSlice lo hi => Return (Many (list_getslice (_layers self) lo hi))
  end.

(** The loop of the slice branch of [__setitem__]:
    [for x in v: if not isinstance(v, ManagedLayer): raise TypeError;
    values.append(x)].  The test is on [v], the iterable, not on [x]. *)
Fixpoint checked_values (v : value) (xs : list value) : res (list value) :=
  match xs with
  | [] => Ok []
  | x :: rest =>
      if negb (isinstance_ManagedLayer v) then Raise TypeError
      else bind (checked_values v rest) (fun values => Ok (x :: values))
  end.

(** The [ManagedLayer] objects among the collected values. *)
Definition managed_of (values : list value) : list Managed.ManagedLayer :=
  flat_map (fun x => match x with
                     | VManaged m => [m]
                     | _ => []
                     end) values.

Definition with_layers (self : Layers) (l : list Managed.ManagedLayer)
  : Layers :=
  {| _layers := l; _readonly := _readonly self |}.

Definition __setitem__ (self : Layers) (k : key) (v : value) : step Layers :=
  if _readonly self then Failed (Std AttributeError) self
  else
    match k with
    | KName s =>
        let i := index self s in
        match (match v with
               | VLayer l =>
                   lift (ManagedLayer_init (NameStr s) (ArgLayer l) false)
               | VManaged m => Return m
               | VList _ | VOther => Throw (Std TypeError)
               end) with
        | Throw e => Failed e self
        | Return m =>
            if i =? -1 then Fine (with_layers self (_layers self ++ [m]))
            else
              match list_setitem (_layers self) i m with
              | Return l => Fine (with_layers self l)
              | Throw e => Failed e self
              end
        end
    | KSlice lo hi =>
        match v with
        | VList xs =>
            match checked_values v xs with
            | Ok values =>
                Fine (with_layers self
                        (list_setslice (_layers self) lo hi
                           (managed_of values)))
            | Raise e => Failed (Std e) self
            end
        | VLayer _ | VManaged _ | VOther => Failed (Std TypeError) self
        end
    | KIndex i =>
        match v with
        | VManaged m =>
            match list_setitem (_layers self) i m with
            | Return l => Fine (with_layers self l)
            | Throw e => Failed e self
            end
        | _ => Failed (Std TypeError) self
        end
    end.

Definition __delitem__ (self : Layers) (k : key) : step Layers :=
  if _readonly self then Failed (Std AttributeError) self
  else
    match k with
    | KName s =>
        match list_delitem (_layers self) (index self s) with
        | Return l => Fine (with_layers self l)
        | Throw e => Failed e self
        end
    | KIndex i =>
        match list_delitem (_layers self) i with
        | Return l => Fine (with_layers self l)
        | Throw e => Failed e self
        end
    | KSlice lo hi => Fine (with_layers self (list_delslice (_layers self) lo hi))
    end.

(** [del self[:]] *)
Definition clear (self : Layers) : step Layers :=
  __delitem__ self (KSlice None None).

(** The arguments of [append]: one [ManagedLayer], or the arguments of the
    constructor of [ManagedLayer]. *)
Inductive append_args : Type :=
| AppendManaged (m : Managed.ManagedLayer)
| AppendNew (name : string) (layer : layer_arg).

Definition append (self : Layers) (args : append_args) : step Layers :=
  if _readonly self then Failed (Std AttributeError) self
  else
    match args with
    | AppendManaged m => Fine (with_layers self (_layers self ++ [m]))
    | AppendNew name layer =>
        match ManagedLayer_init (NameStr name) layer false with
        | Ok m => Fine (with_layers self (_layers self ++ [m]))
        | Raise e => Failed (Std e) self
        end
    end.

(** An element given to [extend]: a [ManagedLayer], or a string, which
    [append] hands to the constructor as a name without a layer. *)
Inductive element : Type :=
| ElemManaged (m : Managed.ManagedLayer)
| ElemName (name : string).

Fixpoint extend (self : Layers) (elements : list element) : step Layers :=
  match elements with
  | [] => Fine self
  | x :: rest =>
      match append self (match x with
                         | ElemManaged m => AppendManaged m
                         | ElemName n => AppendNew n ArgNone
                         end) with
      | Fine self' => extend self' rest
      | Failed e self' => Failed e self'
      end
  end.

Definition __len__ (self : Layers) : nat := List.length (_layers self).

Definition to_json (self : Layers) : list (dict string json) :=
  map Managed.to_json (_layers self).

End LayerList.

(* ------------------------------------------------------------------ *)
(** * Properties of make_layer, ManagedLayer and Layers *)
(* ------------------------------------------------------------------ *)

Module LayerListFacts.
Import Py Json DictFacts LayerList.

Local Open Scope string_scope.
Local Open Scope list_scope.
Local Open Scope Z_scope.

(** ** Lists *)

Lemma position_last {A : Type} (l : list A) (x : A) :
  position (l ++ [x]) (-1) = Some (List.length l).
Proof.
  unfold position. rewrite length_app. cbn [List.length Z.ltb Z.compare].
  replace (-1 + Z.of_nat (List.length l + 1)) with (Z.of_nat (List.length l))
    by lia.
  rewrite Nat2Z.id.
  replace ((0 <=? Z.of_nat (List.length l))
           && (Z.of_nat (List.length l) <? Z.of_nat (List.length l + 1)))
    with true; [reflexivity|].
  symmetry. apply andb_true_iff. split; [apply Z.leb_le | apply Z.ltb_lt]; lia.
Qed.

Lemma position_at {A : Type} (l1 l2 : list A) (x : A) :
  position (l1 ++ x :: l2) (Z.of_nat (List.length l1))
  = Some (List.length l1).
Proof.
  unfold position. rewrite length_app. cbn [List.length].
  replace (Z.of_nat (List.length l1) <? 0) with false
    by (symmetry; apply Z.ltb_ge; lia).
  rewrite Nat2Z.id.
  replace ((0 <=? Z.of_nat (List.length l1))
           && (Z.of_nat (List.length l1)
               <? Z.of_nat (List.length l1 + S (List.length l2))))
    with true; [reflexivity|].
  symmetry. apply andb_true_iff. split; [apply Z.leb_le | apply Z.ltb_lt]; lia.
Qed.

Lemma nth_error_middle {A : Type} (l1 l2 : list A) (x : A) :
  nth_error (l1 ++ x :: l2) (List.length l1) = Some x.
Proof.
  rewrite nth_error_app2 by lia. now rewrite Nat.sub_diag.
Qed.

Lemma firstn_middle {A : Type} (l1 l2 : list A) :
  firstn (List.length l1) (l1 ++ l2) = l1.
Proof.
  rewrite firstn_app, Nat.sub_diag, firstn_all. cbn. apply app_nil_r.
Qed.

Lemma skipn_middle {A : Type} (l1 l2 : list A) (x : A) :
  skipn (S (List.length l1)) (l1 ++ x :: l2) = l2.
Proof.
  rewrite skipn_app.
  replace (S (List.length l1) - List.length l1)%nat with 1%nat by lia.
  rewrite skipn_all2 by lia. reflexivity.
Qed.

Lemma position_empty {A : Type} (i : Z) : position (@nil A) i = None.
Proof.
  unfold position. cbn [List.length Z.of_nat].
  destruct (i <? 0) eqn:E.
  - apply Z.ltb_lt in E.
    replace (0 <=? i + 0) with false; [reflexivity|].
    symmetry. apply Z.leb_gt. lia.
  - replace (i <? 0) with false in *.
    rewrite andb_false_r. reflexivity.
Qed.

(** ** index *)

Lemma index_from_absent (l : list Managed.ManagedLayer) (i : Z) (k : string) :
  (forall u, In u l -> Managed.name u <> k) -> index_from i l k = -1.
Proof.
  revert i. induction l as [|u rest IH]; intros i Hno; cbn; [reflexivity|].
  destruct (String.eqb_spec (Managed.name u) k) as [E|N].
  - exfalso. apply (Hno u); [now left | exact E].
  - apply IH. intros u' I. apply Hno. now right.
Qed.

Lemma index_from_at (l1 l2 : list Managed.ManagedLayer)
    (m : Managed.ManagedLayer) (i : Z) (k : string) :
  (forall u, In u l1 -> Managed.name u <> k) ->
  Managed.name m = k ->
  index_from i (l1 ++ m :: l2) k = i + Z.of_nat (List.length l1).
Proof.
  revert i. induction l1 as [|u rest IH]; intros i Hno Hm; cbn [app index_from].
  - rewrite Hm, String.eqb_refl. cbn. lia.
  - destruct (String.eqb_spec (Managed.name u) k) as [E|N].
    + exfalso. apply (Hno u); [now left | exact E].
    + rewrite IH; [cbn [List.length]; lia | | exact Hm].
      intros u' I. apply Hno. now right.
Qed.

Lemma index_from_split (l : list Managed.ManagedLayer) (i : Z) (k : string) :
  (index_from i l k = -1 /\ forall u, In u l -> Managed.name u <> k)
  \/ (exists l1 m l2,
        l = l1 ++ m :: l2
        /\ Managed.name m = k
        /\ forall u, In u l1 -> Managed.name u <> k).
Proof.
  revert i. induction l as [|u rest IH]; intros i; cbn [index_from].
  - left. split; [reflexivity | intros u []].
  - destruct (String.eqb_spec (Managed.name u) k) as [E|N].
    + right. exists [], u, rest. split; [reflexivity|].
      split; [exact E | intros u' []].
    + destruct (IH (i + 1)) as [[Hi Hno] | (l1 & m & l2 & -> & Hm & Hno)].
      * left. split; [exact Hi|]. intros u' [<-|I]; [exact N | now apply Hno].
      * right. exists (u :: l1), m, l2. split; [reflexivity|].
        split; [exact Hm|]. intros u' [<-|I]; [exact N | now apply Hno].
Qed.

(** X11. [index(k)] is the position of the first layer named [k], and -1
    exactly when no layer has that name; names need not be unique, and
    [k in layers] says whether a layer has the name. *)
Theorem index_is_first_match (self : Layers) (k : string) :
  (index self k = -1 /\ __contains__ self k = false
   /\ forall u, In u (_layers self) -> Managed.name u <> k)
  \/ (exists l1 m l2,
        _layers self = l1 ++ m :: l2
        /\ Managed.name m = k
        /\ (forall u, In u l1 -> Managed.name u <> k)
        /\ index self k = Z.of_nat (List.length l1)
        /\ __contains__ self k = true
        /\ __getitem__ self (KName k) = Return (One m)).
Proof.
  unfold index, __contains__, __getitem__, index.
  destruct (index_from_split (_layers self) 0 k)
    as [[Hi Hno] | (l1 & m & l2 & Hl & Hm & Hno)].
  - left. rewrite Hi. split; [reflexivity|]. split; [reflexivity | exact Hno].
  - right. exists l1, m, l2.
    rewrite Hl, (@index_from_at l1 l2 m 0 k Hno Hm). cbn [Z.add].
    repeat split; try assumption.
    + destruct (Z.eqb_spec (Z.of_nat (List.length l1)) (-1)); [lia | reflexivity].
    + unfold list_getitem. now rewrite position_at, nth_error_middle.
Qed.

(** The last layer of a list, with the layers before it. *)
Definition split_last (l : list Managed.ManagedLayer)
  : option (list Managed.ManagedLayer * Managed.ManagedLayer) :=
  match rev l with
  | [] => None
  | m :: r => Some (rev r, m)
  end.

Lemma split_last_app (l : list Managed.ManagedLayer) :
  match split_last l with
  | None => l = []
  | Some (front, m) => l = front ++ [m]
  end.
Proof.
  unfold split_last. destruct (rev l) as [|m r] eqn:E.
  - apply (f_equal (@rev _)) in E. now rewrite rev_involutive in E.
  - apply (f_equal (@rev _)) in E. now rewrite rev_involutive in E.
Qed.

(** X12. Subscripting with a name that no layer has does not raise
    [KeyError]: [index] returns -1 and the list is indexed with it, so
    [layers[k]] is the last layer, and [del layers[k]] deletes the last
    layer; only on an empty list do both raise, with [IndexError]. *)
Theorem missing_name_hits_last_layer (self : Layers) (k : string) :
  (forall u, In u (_layers self) -> Managed.name u <> k) ->
  match split_last (_layers self) with
  | None =>
      __getitem__ self (KName k) = Throw IndexError
      /\ (_readonly self = false ->
          __delitem__ self (KName k) = Failed IndexError self)
  | Some (front, m) =>
      __getitem__ self (KName k) = Return (One m)
      /\ (_readonly self = false ->
          __delitem__ self (KName k) = Fine (with_layers self front))
  end.
Proof.
  intros Hno.
  pose proof (split_last_app (_layers self)) as Hs.
  unfold __getitem__, __delitem__, index.
  rewrite (@index_from_absent (_layers self) 0 k Hno).
  destruct (split_last (_layers self)) as [[front m]|].
  - rewrite Hs. unfold list_getitem, list_delitem.
    rewrite position_last, nth_error_middle.
    split; [reflexivity|]. intros ->.
    now rewrite firstn_middle, skipn_middle, app_nil_r.
  - rewrite Hs. unfold list_getitem, list_delitem.
    rewrite position_empty. split; [reflexivity|]. now intros ->.
Qed.

(** ** make_layer *)

Lemma layer_types_sound (s : string) (c : Managed.layer_class) :
  dict_get layer_types s = Some c -> layer_type_name c = s.
Proof.
  unfold layer_types. cbn [dict_get key_eqb string_Key].
  repeat match goal with
         | |- context [String.eqb ?a s] =>
             destruct (String.eqb a s) eqn:E;
               [apply String.eqb_eq in E; subst s; now intros [= <-]
               | clear E]
         end.
  discriminate.
Qed.

Lemma dict_set_same {K V : Type} `{Key K} (d : dict K V) (k : K) (v : V) :
  dict_get d k = Some v -> dict_set d k v = d.
Proof.
  induction d as [|[k' v'] d IH]; cbn; [discriminate|].
  destruct (key_eqb k' k).
  - now intros [= ->].
  - intros G. now rewrite IH.
Qed.

Lemma make_layer_registered (d : dict string json) (ro : bool) (s : string)
    (c : Managed.layer_class) :
  dict_get d "type" = Some (JStr s) -> dict_get layer_types s = Some c ->
  make_layer (ArgDict d) ro
  = Ok {| Managed.layer_type := c; Managed.layer_data := d |}.
Proof.
  intros Ht Hc. unfold make_layer, get_or_none. rewrite Ht.
  cbn [registry_get bind]. rewrite Hc.
  unfold Layer_init. rewrite (layer_types_sound _ Hc).
  now rewrite (dict_set_same _ _ Ht).
Qed.


(** ** ManagedLayer.to_json, key by key *)

Lemma to_json_lookup (m : Managed.ManagedLayer) (k : string) :
  dict_get (Managed.to_json m) k
  = if String.eqb k "visible" then
      if Managed.visible m || Managed.archived m then None
      else Some (JBool false)
    else if String.eqb k "archived" then
      if Managed.archived m then Some (JBool true) else None
    else if String.eqb k "name" then Some (JStr (Managed.name m))
    else dict_get (Managed.layer_data (Managed.layer m)) k.
Proof.
  unfold Managed.to_json, Managed.Layer_to_json.
  set (r := Managed.layer_data (Managed.layer m)).
  destruct (String.eqb_spec k "visible") as [->|Nv].
  - destruct (Managed.visible m || Managed.archived m).
    + apply dict_get_discard_eq.
    + apply dict_get_set_eq.
  - assert (Hv : forall r' : dict string json,
               dict_get (if Managed.visible m || Managed.archived m
                         then dict_discard r' "visible"
                         else dict_set r' "visible" (JBool false)) k
               = dict_get r' k).
    { intros r'. destruct (Managed.visible m || Managed.archived m).
      - apply dict_get_discard_neq. congruence.
      - apply dict_get_set_neq. congruence. }
    rewrite Hv.
    destruct (String.eqb_spec k "archived") as [->|Na].
    + destruct (Managed.archived m); cbn [negb].
      * apply dict_get_set_eq.
      * apply dict_get_discard_eq.
    + assert (Ha : forall r' : dict string json,
                 dict_get (if negb (Managed.archived m)
                           then dict_discard r' "archived"
                           else dict_set r' "archived" (JBool true)) k
                 = dict_get r' k).
      { intros r'. destruct (Managed.archived m); cbn [negb].
        - apply dict_get_set_neq. congruence.
        - apply dict_get_discard_neq. congruence. }
      rewrite Ha.
      destruct (String.eqb_spec k "name") as [->|Nn].
      * apply dict_get_set_eq.
      * apply dict_get_set_neq. congruence.
Qed.

(** X14. [ManagedLayer.to_json] is the JSON of the wrapped layer with
    exactly three keys decided by the wrapper: ["name"] is the layer's name,
    ["archived"] is [true] or absent, ["visible"] is [false] or absent; every
    other key of the layer, known or not, passes through unchanged. *)
Theorem to_json_overrides_three_keys (m : Managed.ManagedLayer) :
  dict_get (Managed.to_json m) "name" = Some (JStr (Managed.name m))
  /\ dict_get (Managed.to_json m) "archived"
     = (if Managed.archived m then Some (JBool true) else None)
  /\ dict_get (Managed.to_json m) "visible"
     = (if Managed.visible m || Managed.archived m then None
        else Some (JBool false))
  /\ forall k, k <> "name" -> k <> "archived" -> k <> "visible" ->
       dict_get (Managed.to_json m) k
       = dict_get (Managed.layer_data (Managed.layer m)) k.
Proof.
  split; [|split; [|split]].
  - now rewrite to_json_lookup.
  - now rewrite to_json_lookup.
  - now rewrite to_json_lookup.
  - intros k Nn Na Nv. rewrite to_json_lookup.
    apply String.eqb_neq in Nn, Na, Nv. now rewrite Nv, Na, Nn.
Qed.

(** ** Rebuilding a ManagedLayer from its JSON *)

Lemma get_optional_bool_archived (m : Managed.ManagedLayer) :
  Managed.get_optional_bool (Managed.to_json m) "archived"
  = if Managed.archived m then Some true else None.
Proof.
  unfold Managed.get_optional_bool. rewrite to_json_lookup. cbn.
  destruct (Managed.archived m); reflexivity.
Qed.

Lemma get_optional_bool_visible (m : Managed.ManagedLayer) :
  Managed.get_optional_bool (Managed.to_json m) "visible"
  = if Managed.visible m || Managed.archived m then None else Some false.
Proof.
  unfold Managed.get_optional_bool. rewrite to_json_lookup. cbn.
  destruct (Managed.visible m || Managed.archived m); reflexivity.
Qed.

Lemma to_json_idempotent (m : Managed.ManagedLayer) (c : Managed.layer_class)
    (s : string) (ro : bool) :
  dict_get (Managed.layer_data (Managed.layer m)) "type" = Some (JStr s) ->
  dict_get layer_types s = Some c ->
  let m' := {| Managed.name := Managed.name m;
               Managed.layer := {| Managed.layer_type := c;
                                   Managed.layer_data := Managed.to_json m |};
               Managed._json_data := Managed.to_json m;
               Managed._readonly := ro |} in
  Managed.archived m' = Managed.archived m
  /\ Managed.visible m' = Managed.visible m
  /\ Managed.to_json m' = Managed.to_json m.
Proof.
  intros Ht Hc m'.
  assert (Ha : Managed.archived m' = Managed.archived m).
  { unfold Managed.archived at 1. cbn [Managed._json_data m'].
    rewrite get_optional_bool_archived.
    destruct (Managed.archived m); reflexivity. }
  assert (Hvis : Managed.visible m' = Managed.visible m).
  { unfold Managed.visible at 1. rewrite Ha.
    unfold Managed._visible. cbn [Managed._json_data m'].
    rewrite get_optional_bool_visible.
    unfold Managed.visible.
    destruct (Managed.archived m); cbn [negb]; [reflexivity|].
    rewrite orb_false_r.
    destruct (Managed.is_not_False (Managed._visible m)); reflexivity. }
  split; [exact Ha|]. split; [exact Hvis|].
  unfold Managed.to_json at 1. rewrite Ha, Hvis.
  cbn [Managed.layer m' Managed.Layer_to_json Managed.layer_data
       Managed.name].
  unfold Managed.Layer_to_json. cbn [Managed.layer_data].
  rewrite (@dict_set_same _ _ _ (Managed.to_json m) "name"
             (JStr (Managed.name m)))
    by (now rewrite to_json_lookup).
  assert (Hstep : (if negb (Managed.archived m)
                   then dict_discard (Managed.to_json m) "archived"
                   else dict_set (Managed.to_json m) "archived" (JBool true))
                  = Managed.to_json m).
  { destruct (Managed.archived m) eqn:E; cbn [negb].
    - apply dict_set_same. rewrite to_json_lookup. cbn. now rewrite E.
    - apply dict_discard_absent. rewrite to_json_lookup. cbn. now rewrite E. }
  rewrite Hstep.
  destruct (Managed.visible m || Managed.archived m) eqn:E.
  - apply dict_discard_absent. rewrite to_json_lookup. cbn. now rewrite E.
  - apply dict_set_same. rewrite to_json_lookup. cbn. now rewrite E.
Qed.

Lemma rebuild_managed (m : Managed.ManagedLayer) (c : Managed.layer_class)
    (s : string) (ro : bool) :
  dict_get (Managed.layer_data (Managed.layer m)) "type" = Some (JStr s) ->
  dict_get layer_types s = Some c ->
  ManagedLayer_init (NameStr (Managed.name m))
    (ArgDict (Managed.to_json m)) ro
  = Ok {| Managed.name := Managed.name m;
          Managed.layer := {| Managed.layer_type := c;
                              Managed.layer_data := Managed.to_json m |};
          Managed._json_data := Managed.to_json m;
          Managed._readonly := ro |}.
Proof.
  intros Ht Hc. unfold ManagedLayer_init. cbn [bind fst snd].
  assert (Ht' : dict_get (Managed.to_json m) "type" = Some (JStr s)).
  { rewrite to_json_lookup. cbn. exact Ht. }
  now rewrite (@make_layer_registered (Managed.to_json m) ro s c Ht' Hc).
Qed.

(** X15. Copy-constructing a [ManagedLayer] from another one,
    [ManagedLayer(m)], goes through [m.to_json()]: when the layer's type is
    registered the copy has the same name, the same [visible] and [archived],
    and the same [to_json()]; a second argument besides [m] is a
    [ValueError]. *)
Theorem copy_construct_keeps_state (m : Managed.ManagedLayer)
    (c : Managed.layer_class) (s : string) (ro : bool) :
  dict_get (Managed.layer_data (Managed.layer m)) "type" = Some (JStr s) ->
  dict_get layer_types s = Some c ->
  (exists m',
     ManagedLayer_init (NameManaged m) ArgNone ro = Ok m'
     /\ Managed.name m' = Managed.name m
     /\ Managed.archived m' = Managed.archived m
     /\ Managed.visible m' = Managed.visible m
     /\ Managed.to_json m' = Managed.to_json m)
  /\ forall d, ManagedLayer_init (NameManaged m) (ArgDict d) ro
               = Raise ValueError.
Proof.
  intros Ht Hc. split; [|reflexivity].
  pose proof (rebuild_managed m ro Ht Hc) as Hinit.
  destruct (to_json_idempotent m ro Ht Hc) as (Ha & Hv & Hj).
  eexists. split.
  - unfold ManagedLayer_init in *. cbn [bind fst snd] in *. exact Hinit.
  - repeat split; assumption.
Qed.

(** ** Sample layers *)

Definition image_layer (n : string) : Managed.ManagedLayer :=
  {| Managed.name := n;
     Managed.layer := {| Managed.layer_type := Managed.ImageLayer;
                         Managed.layer_data := [("type", JStr "image")] |};
     Managed._json_data := [("type", JStr "image")];
     Managed._readonly := false |}.

Definition two_layers : Layers :=
  {| _layers := [image_layer "a"; image_layer "b"]; _readonly := false |}.

Lemma missing_name_hits_last_layer_witness :
  match split_last (_layers two_layers) with
  | None =>
      __getitem__ two_layers (KName "c") = Throw IndexError
      /\ (_readonly two_layers = false ->
          __delitem__ two_layers (KName "c") = Failed IndexError two_layers)
  | Some (front, m) =>
      __getitem__ two_layers (KName "c") = Return (One m)
      /\ (_readonly two_layers = false ->
          __delitem__ two_layers (KName "c")
          = Fine (with_layers two_layers front))
  end.
Proof.
  apply (@missing_name_hits_last_layer two_layers "c").
  cbn. intros u [<-|[<-|[]]]; discriminate.
Defined.

Lemma copy_construct_keeps_state_witness :
  (exists m',
     ManagedLayer_init (NameManaged Managed.hidden_layer) ArgNone false = Ok m'
     /\ Managed.name m' = Managed.name Managed.hidden_layer
     /\ Managed.archived m' = Managed.archived Managed.hidden_layer
     /\ Managed.visible m' = Managed.visible Managed.hidden_layer
     /\ Managed.to_json m' = Managed.to_json Managed.hidden_layer)
  /\ forall d, ManagedLayer_init (NameManaged Managed.hidden_layer)
                 (ArgDict d) false
               = Raise ValueError.
Proof.
  apply (@copy_construct_keeps_state Managed.hidden_layer
           Managed.SegmentationLayer "segmentation" false); reflexivity.
Defined.

(** ** Assignment *)

(** X16. Assigning to a slice of [Layers] raises [TypeError] for every
    value but an empty iterable: the loop tests the iterable itself, not its
    elements, for being a [ManagedLayer].  Assigning an empty iterable
    deletes the slice. *)
Theorem slice_assignment_refuses_layers (self : Layers) (lo hi : option Z)
    (v : value) :
  _readonly self = false ->
  (v <> VList [] ->
   __setitem__ self (KSlice lo hi) v = Failed (Std TypeError) self)
  /\ __setitem__ self (KSlice lo hi) (VList [])
     = __delitem__ self (KSlice lo hi).
Proof.
  intros Hrw. unfold __setitem__, __delitem__. rewrite Hrw. split.
  - intros Hv. destruct v as [l|m|xs|]; try reflexivity.
    destruct xs as [|x rest]; [congruence | reflexivity].
  - cbn [checked_values managed_of flat_map].
    unfold list_setslice, list_delslice. reflexivity.
Qed.

Lemma slice_assignment_refuses_layers_witness :
  (VList [VManaged (image_layer "c")] <> VList [] ->
   __setitem__ two_layers (KSlice None None)
     (VList [VManaged (image_layer "c")])
   = Failed (Std TypeError) two_layers)
  /\ __setitem__ two_layers (KSlice None None) (VList [])
     = __delitem__ two_layers (KSlice None None).
Proof.
  apply (@slice_assignment_refuses_layers two_layers None None
           (VList [VManaged (image_layer "c")])).
  reflexivity.
Defined.

(** X17. On a read-only [Layers], [__setitem__], [__delitem__], [append]
    and [clear] raise [AttributeError] and change nothing; [extend] raises
    it as soon as there is a first element, and does nothing, without an
    error, for no elements. *)
Theorem readonly_layers_refuse (self : Layers) :
  _readonly self = true ->
  forall (k : key) (v : value) (args : append_args) (x : element)
         (rest : list element),
    __setitem__ self k v = Failed (Std AttributeError) self
    /\ __delitem__ self k = Failed (Std AttributeError) self
    /\ append self args = Failed (Std AttributeError) self
    /\ clear self = Failed (Std AttributeError) self
    /\ extend self (x :: rest) = Failed (Std AttributeError) self
    /\ extend self [] = Fine self.
Proof.
  intros Hro k v args x rest.
  unfold clear, __setitem__, __delitem__. cbn [extend]. unfold append.
  rewrite Hro. repeat split.
Qed.

Lemma readonly_layers_refuse_witness :
  let self := {| _layers := [image_layer "a"]; _readonly := true |} in
  __setitem__ self (KName "a") (VManaged (image_layer "b"))
  = Failed (Std AttributeError) self
  /\ __delitem__ self (KIndex 0) = Failed (Std AttributeError) self
  /\ append self (AppendManaged (image_layer "b"))
     = Failed (Std AttributeError) self
  /\ clear self = Failed (Std AttributeError) self
  /\ extend self (ElemManaged (image_layer "b") :: [])
     = Failed (Std AttributeError) self
  /\ extend self [] = Fine self.
Proof.
  apply (@readonly_layers_refuse
           {| _layers := [image_layer "a"]; _readonly := true |}
           eq_refl (KName "a") (VManaged (image_layer "b"))
           (AppendManaged (image_layer "b"))
           (ElemManaged (image_layer "b")) []).
Defined.

(** X18. [layers[k] = layer] with a [Layer] wraps it in a [ManagedLayer]
    named [k]; it replaces the first layer of that name where it stands, or
    is appended when there is none.  Afterwards [layers[k]] is the new
    layer, and the number of layers grew by one exactly when the name was
    new. *)
Theorem setitem_by_name (self : Layers) (k : string) (l : Managed.Layer) :
  _readonly self = false ->
  exists m self',
    __setitem__ self (KName k) (VLayer l) = Fine self'
    /\ Managed.name m = k /\ Managed.layer m = l
    /\ __getitem__ self' (KName k) = Return (One m)
    /\ __len__ self'
       = (if __contains__ self k then __len__ self else S (__len__ self))
    /\ (forall before u after,
          _layers self = before ++ u :: after ->
          Managed.name u = k ->
          (forall x, In x before -> Managed.name x <> k) ->
          _layers self' = before ++ m :: after).
Proof.
  intros Hrw.
  set (m := {| Managed.name := k; Managed.layer := l;
               Managed._json_data := []; Managed._readonly := false |}).
  exists m.
  unfold __setitem__. rewrite Hrw.
  cbn [ManagedLayer_init bind fst snd lift].
  fold m.
  assert (Hcases :
    (index self k = -1 /\ __contains__ self k = false
     /\ forall u, In u (_layers self) -> Managed.name u <> k)
    \/ (exists l1 u l2,
          _layers self = l1 ++ u :: l2
          /\ Managed.name u = k
          /\ (forall x, In x l1 -> Managed.name x <> k)
          /\ index self k = Z.of_nat (List.length l1)
          /\ __contains__ self k = true)).
  { unfold __contains__, index.
    destruct (index_from_split (_layers self) 0 k)
      as [[Hi Hno] | (l1 & u & l2 & Hl & Hu & Hno)].
    - left. rewrite Hi. split; [reflexivity|]. split; [reflexivity|exact Hno].
    - right. exists l1, u, l2.
      rewrite Hl, (@index_from_at l1 l2 u 0 k Hno Hu). cbn [Z.add].
      repeat split; try assumption.
      destruct (Z.eqb_spec (Z.of_nat (List.length l1)) (-1));
        [lia | reflexivity]. }
  destruct Hcases
    as [(Hi & Hc & Hno) | (l1 & u & l2 & Hl & Hu & Hno & Hi & Hc)].
  - rewrite Hi, Hc. cbn [Z.eqb Pos.eqb].
    eexists. split; [reflexivity|].
    split; [reflexivity|]. split; [reflexivity|].
    split; [|split].
    + unfold __getitem__, index, with_layers. cbn [_layers].
      rewrite (@index_from_at (_layers self) [] m 0 k Hno eq_refl).
      cbn [Z.add]. unfold list_getitem.
      now rewrite position_at, nth_error_middle.
    + unfold __len__, with_layers. cbn [_layers].
      rewrite length_app. cbn [List.length]. lia.
    + intros before u' after Hsplit Hname _. exfalso.
      apply (Hno u'); [|exact Hname].
      rewrite Hsplit. apply in_or_app. right. now left.
  - rewrite Hi, Hc.
    replace (Z.of_nat (List.length l1) =? -1) with false
      by (symmetry; apply Z.eqb_neq; lia).
    unfold list_setitem. rewrite Hl, position_at.
    rewrite <- Hl.
    assert (Hnew : firstn (List.length l1) (_layers self)
                   ++ m :: skipn (S (List.length l1)) (_layers self)
                   = l1 ++ m :: l2).
    { rewrite Hl. now rewrite firstn_middle, skipn_middle. }
    rewrite Hnew.
    eexists. split; [reflexivity|].
    split; [reflexivity|]. split; [reflexivity|].
    split; [|split].
    + unfold __getitem__, index, with_layers. cbn [_layers].
      rewrite (@index_from_at l1 l2 m 0 k Hno eq_refl).
      cbn [Z.add]. unfold list_getitem.
      now rewrite position_at, nth_error_middle.
    + unfold __len__, with_layers. cbn [_layers].
      rewrite Hl, !length_app. reflexivity.
    + intros before u' after Hsplit Hname Hbefore.
      unfold with_layers. cbn [_layers].
      rewrite Hl in Hsplit.
      assert (Hlen : Z.of_nat (List.length l1) = Z.of_nat (List.length before)).
      { rewrite <- (Z.add_0_l (Z.of_nat (List.length l1))).
        rewrite <- (Z.add_0_l (Z.of_nat (List.length before))).
        rewrite <- (@index_from_at l1 l2 u 0 k Hno Hu).
        rewrite <- (@index_from_at before after u' 0 k Hbefore Hname).
        now rewrite Hsplit. }
      apply Nat2Z.inj in Hlen.
      assert (E1 : l1 = before).
      { rewrite <- (firstn_middle l1 (u :: l2)), Hsplit, Hlen.
        apply firstn_middle. }
      subst before. apply app_inv_head in Hsplit.
      injection Hsplit as _ <-. reflexivity.
Qed.

Lemma setitem_by_name_witness :
  exists m self',
    __setitem__ two_layers (KName "b")
      (VLayer {| Managed.layer_type := Managed.SegmentationLayer;
                 Managed.layer_data := [] |})
    = Fine self'
    /\ Managed.name m = "b"
    /\ Managed.layer m = {| Managed.layer_type := Managed.SegmentationLayer;
                            Managed.layer_data := [] |}
    /\ __getitem__ self' (KName "b") = Return (One m)
    /\ __len__ self'
       = (if __contains__ two_layers "b" then __len__ two_layers
          else S (__len__ two_layers))
    /\ (forall before u after,
          _layers two_layers = before ++ u :: after ->
          Managed.name u = "b" ->
          (forall x, In x before -> Managed.name x <> "b") ->
          _layers self' = before ++ m :: after).
Proof.
  apply (@setitem_by_name two_layers "b"
           {| Managed.layer_type := Managed.SegmentationLayer;
              Managed.layer_data := [] |}).
  reflexivity.
Defined.

(** ** The constructor of Layers *)

(** An element of the list given to [Layers]: a [ManagedLayer], a JSON
    mapping, or an object of another class. *)
Inductive init_element : Type :=
| EManaged (m : Managed.ManagedLayer)
| EDict (d : dict string json)
| EOther.

(** The argument of [Layers]: [None], a mapping from names to layers, or
    an iterable of elements. *)
Inductive init_arg : Type :=
| InitNone
| InitMapping (items : list (string * layer_arg))
| InitList (elements : list init_element).

Section Constructor.
(** [str(v)] for a value that is not a string already. *)
Variable repr_str : json -> string.

(** The [ManagedLayer] built for one element of the list. *)
Definition init_one (x : init_element) (ro : bool)
  : res Managed.ManagedLayer :=
  match x with
  | EManaged layer =>
      ManagedLayer_init (NameStr (Managed.name layer)) (ArgManaged layer) ro
  | EDict d =>
      bind (dict_getitem d "name") (fun n =>
      ManagedLayer_init (NameStr (Tools.py_str repr_str n)) (ArgDict d) ro)
  | EOther => Raise TypeError
  end.

Fixpoint init_list (elements : list init_element) (ro : bool)
    (acc : list Managed.ManagedLayer) : res (list Managed.ManagedLayer) :=
  match elements with
  | [] => Ok acc
  | x :: rest =>
      bind (init_one x ro) (fun m => init_list rest ro (acc ++ [m]))
  end.

Fixpoint init_mapping (items : list (string * layer_arg)) (ro : bool)
    (acc : list Managed.ManagedLayer) : res (list Managed.ManagedLayer) :=
  match items with
  | [] => Ok acc
  | (k, v) :: rest =>
      bind (ManagedLayer_init (NameStr k) v ro) (fun m =>
      init_mapping rest ro (acc ++ [m]))
  end.

(** [Layers(json_data, _readonly)] *)
Definition Layers_init (json_data : init_arg) (ro : bool) : res Layers :=
  bind
    (match json_data with
     | InitNone => Ok []
     | InitMapping items => init_mapping items ro []
     | InitList elements => init_list elements ro []
     end)
    (fun l => Ok {| _layers := l; _readonly := ro |}).

(** The layers whose type [make_layer] knows. *)
Definition registered (m : Managed.ManagedLayer) : Prop :=
  exists s c,
    dict_get (Managed.layer_data (Managed.layer m)) "type" = Some (JStr s)
    /\ dict_get layer_types s = Some c.

Lemma init_one_to_json (m : Managed.ManagedLayer) (ro : bool) :
  registered m ->
  exists m',
    init_one (EDict (Managed.to_json m)) ro = Ok m'
    /\ Managed.name m' = Managed.name m
    /\ Managed.to_json m' = Managed.to_json m.
Proof.
  intros (s & c & Ht & Hc). unfold init_one, dict_getitem.
  rewrite to_json_lookup. cbn [String.eqb Ascii.eqb Bool.eqb bind Tools.py_str].
  rewrite (rebuild_managed m ro Ht Hc).
  destruct (to_json_idempotent m ro Ht Hc) as (_ & _ & Hj).
  eexists. split; [reflexivity|]. split; [reflexivity | exact Hj].
Qed.

Lemma init_list_to_json (l acc : list Managed.ManagedLayer) (ro : bool) :
  Forall registered l ->
  exists l',
    init_list (map EDict (map Managed.to_json l)) ro acc = Ok (acc ++ l')
    /\ map Managed.name l' = map Managed.name l
    /\ map Managed.to_json l' = map Managed.to_json l.
Proof.
  revert acc. induction l as [|m rest IH]; intros acc F; cbn [map init_list].
  - exists []. rewrite app_nil_r. repeat split.
  - inversion F as [|? ? Hm Hrest]; subst.
    destruct (init_one_to_json ro Hm) as (m' & Hinit & Hn & Hj).
    rewrite Hinit. cbn [bind].
    destruct (IH (acc ++ [m']) Hrest) as (l' & Hl & Hns & Hjs).
    exists (m' :: l'). rewrite Hl, <- app_assoc. cbn [app map].
    rewrite Hn, Hj, Hns, Hjs. repeat split.
Qed.

(** X19. Round trip of the layer list: when the type of every layer is
    registered, [Layers(layers.to_json())] succeeds and gives the same names
    in the same order and the same [to_json()]. *)
Theorem layers_round_trip (self : Layers) (ro : bool) :
  Forall registered (_layers self) ->
  exists self',
    Layers_init (InitList (map EDict (to_json self))) ro = Ok self'
    /\ map Managed.name (_layers self') = map Managed.name (_layers self)
    /\ to_json self' = to_json self
    /\ _readonly self' = ro.
Proof.
  intros F. unfold Layers_init, to_json.
  destruct (init_list_to_json [] ro F) as (l' & Hl & Hn & Hj).
  rewrite Hl. cbn [bind app _layers _readonly].
  eexists. split; [reflexivity|]. cbn [_layers _readonly].
  repeat split; assumption.
Qed.

Lemma init_list_managed_raises (pre post : list init_element)
    (m : Managed.ManagedLayer) (ro : bool)
    (acc : list Managed.ManagedLayer) :
  exists e, init_list (pre ++ EManaged m :: post) ro acc = Raise e.
Proof.
  revert acc. induction pre as [|x rest IH]; intros acc; cbn [app init_list].
  - exists TypeError. reflexivity.
  - destruct (init_one x ro) as [m'|e]; cbn [bind]; [apply IH | now exists e].
Qed.

(** X20. [Layers] cannot be built from [ManagedLayer] objects, and so not
    from another non-empty [Layers]: each such element is handed to
    [make_layer], which takes only a [Layer] or a mapping.  A list that
    starts with a [ManagedLayer] raises [TypeError], and a list that has one
    anywhere raises. *)
Theorem layers_of_managed_raises (other : Layers) (ro : bool) :
  _layers other <> [] ->
  Layers_init (InitList (map EManaged (_layers other))) ro = Raise TypeError
  /\ forall pre post m,
       exists e,
         Layers_init (InitList (pre ++ EManaged m :: post)) ro = Raise e.
Proof.
  intros Hne. split.
  - unfold Layers_init. destruct (_layers other) as [|m rest]; [congruence|].
    reflexivity.
  - intros pre post m. unfold Layers_init.
    destruct (init_list_managed_raises pre post m ro []) as [e He].
    exists e. now rewrite He.
Qed.

End Constructor.

Lemma two_layers_registered : Forall registered (_layers two_layers).
Proof.
  repeat constructor; exists "image", Managed.ImageLayer; split; reflexivity.
Qed.

Lemma layers_round_trip_witness :
  exists self',
    Layers_init (fun _ => "") (InitList (map EDict (to_json two_layers)))
      false = Ok self'
    /\ map Managed.name (_layers self') = map Managed.name (_layers two_layers)
    /\ to_json self' = to_json two_layers
    /\ _readonly self' = false.
Proof.
  apply (@layers_round_trip (fun _ => "") two_layers false).
  exact two_layers_registered.
Defined.

Lemma layers_of_managed_raises_witness :
  Layers_init (fun _ => "") (InitList (map EManaged (_layers two_layers)))
    false = Raise TypeError
  /\ forall pre post m,
       exists e,
         Layers_init (fun _ => "")
           (InitList (pre ++ EManaged m :: post)) false = Raise e.
Proof.
  apply (@layers_of_managed_raises (fun _ => "") two_layers false).
  discriminate.
Defined.

End LayerListFacts.

(* ------------------------------------------------------------------ *)
(** * Interpolation: end points, errors and what is preserved *)
(* ------------------------------------------------------------------ *)

Module NumericMore.
Import Py Numeric NumericFacts.

Local Open Scope R_scope.

(** ** interpolate_zoom *)

(** X21. [interpolate_zoom] runs from [a] at [t = 0] to [b] at [t = 1]
    when the two zooms are non-zero and of one sign; it raises
    [ZeroDivisionError] when [a] is zero and [ValueError] when [b / a] is
    not positive (a zero [b], or zooms of opposite signs); and when either
    zoom is absent it returns [a] as it is. *)
Theorem interpolate_zoom_ends_and_errors (a b t : R) :
  (0 < b / a -> a <> 0 ->
   interpolate_zoom (Some a) (Some b) 0 = Ok (Some a)
   /\ interpolate_zoom (Some a) (Some b) 1 = Ok (Some b)
   /\ exists z, interpolate_zoom (Some a) (Some b) t = Ok (Some z)
                /\ 0 < z / a)
  /\ interpolate_zoom (Some 0) (Some b) t = Raise ZeroDivisionError
  /\ (a <> 0 -> b / a <= 0 ->
      interpolate_zoom (Some a) (Some b) t = Raise ValueError)
  /\ interpolate_zoom None (Some b) t = Ok None
  /\ interpolate_zoom (Some a) None t = Ok (Some a).
Proof.
  unfold interpolate_zoom, py_div, math_log.
  split; [|split; [|split; [|split]]].
  - intros Hpos Ha.
    destruct (Req_dec_T a 0) as [E|_]; [contradiction|]. cbn [bind].
    destruct (Rle_dec (b / a) 0) as [L|_]; [lra|]. cbn [bind].
    split; [|split].
    + rewrite Rmult_0_r, exp_0. now rewrite Rmult_1_r.
    + rewrite Rmult_1_r, exp_ln by exact Hpos.
      f_equal. f_equal. field. exact Ha.
    + eexists. split; [reflexivity|].
      replace (a * exp (ln (b / a) * t) / a) with (exp (ln (b / a) * t))
        by (field; exact Ha).
      apply exp_pos.
  - destruct (Req_dec_T 0 0) as [_|N]; [reflexivity | contradiction].
  - intros Ha Hneg.
    destruct (Req_dec_T a 0) as [E|_]; [contradiction|]. cbn [bind].
    destruct (Rle_dec (b / a) 0) as [_|N]; [reflexivity | contradiction].
  - reflexivity.
  - reflexivity.
Qed.

(** ** quaternion_slerp *)

Lemma cosom_range (a b : quat) :
  -1 <= dot a b <= 1 ->
  0 <= fst (if Rlt_dec (dot a b) 0 then (- dot a b, qneg b) else (dot a b, b))
    <= 1.
Proof. intros Hd. destruct (Rlt_dec (dot a b) 0); cbn; lra. Qed.

Lemma sin_acos_pos (c : R) : 0 <= c -> c < 1 -> 0 < sin (acos c).
Proof.
  intros H0 H1. destruct (acos_bound_lt c) as [Ha Hb]; [lra|].
  now apply sin_gt_0.
Qed.

(** X22. End points of [quaternion_slerp], for operands whose dot product
    lies in [-1, 1] as it does for unit quaternions: at [t = 0] the result
    is [a]; at [t = 1] it is [b] when the dot product is not negative and
    [-b], the same rotation, when it is negative. *)
Theorem quaternion_slerp_end_points (a b : quat) :
  -1 <= dot a b <= 1 ->
  quaternion_slerp (Some a) (Some b) 0 = Ok a
  /\ quaternion_slerp (Some a) (Some b) 1
     = Ok (if Rlt_dec (dot a b) 0 then qneg b else b).
Proof.
  intros Hd. unfold quaternion_slerp.
  pose proof (cosom_range Hd) as Hc.
  set (cb := if Rlt_dec (dot a b) 0 then (- dot a b, qneg b) else (dot a b, b))
    in *.
  assert (Hb : snd cb = if Rlt_dec (dot a b) 0 then qneg b else b).
  { unfold cb. destruct (Rlt_dec (dot a b) 0); reflexivity. }
  rewrite <- Hb.
  destruct (Rgt_dec (1 - fst cb) (1 / 1000000)) as [G|_].
  - unfold math_acos.
    destruct (Rlt_dec (fst cb) (-1)) as [L|_]; [lra|].
    destruct (Rlt_dec 1 (fst cb)) as [L|_]; [lra|].
    cbn [bind].
    assert (Hs : 0 < sin (acos (fst cb))) by (apply sin_acos_pos; lra).
    unfold py_div.
    destruct (Req_dec_T (sin (acos (fst cb))) 0) as [E|_]; [lra|].
    cbn [bind fst snd]. split.
    + f_equal. apply quat_eq; cbn;
        rewrite Rminus_0_r, Rmult_1_l, Rmult_0_l, sin_0; field; lra.
    + f_equal. apply quat_eq; cbn;
        rewrite Rminus_diag, Rmult_1_l, Rmult_0_l, sin_0; field; lra.
  - cbn [bind fst snd]. split.
    + f_equal. apply quat_eq; cbn; ring.
    + f_equal. apply quat_eq; cbn; ring.
Qed.

Lemma quaternion_slerp_end_points_witness :
  quaternion_slerp (Some unit_quaternion) (Some (qneg unit_quaternion)) 0
  = Ok unit_quaternion
  /\ quaternion_slerp (Some unit_quaternion) (Some (qneg unit_quaternion)) 1
     = Ok (if Rlt_dec (dot unit_quaternion (qneg unit_quaternion)) 0
           then qneg (qneg unit_quaternion) else qneg unit_quaternion).
Proof.
  apply (@quaternion_slerp_end_points unit_quaternion (qneg unit_quaternion)).
  unfold dot, qneg, unit_quaternion; cbn. lra.
Defined.

Lemma dot_blend (s0 s1 : R) (a b : quat) :
  dot (qadd (qscale s0 a) (qscale s1 b)) (qadd (qscale s0 a) (qscale s1 b))
  = s0 * s0 * dot a a + 2 * (s0 * s1) * dot a b + s1 * s1 * dot b b.
Proof. unfold dot, qadd, qscale; cbn. ring. Qed.

Lemma dot_qneg_qneg (b : quat) : dot (qneg b) (qneg b) = dot b b.
Proof. unfold dot, qneg; cbn. ring. Qed.

Lemma sine_sum_identity (x y : R) :
  sin x * sin x + 2 * (sin x * sin y) * cos (x + y) + sin y * sin y
  = sin (x + y) * sin (x + y).
Proof.
  rewrite sin_plus, cos_plus.
  pose proof (sin2_cos2 x) as Hx. pose proof (sin2_cos2 y) as Hy.
  unfold Rsqr in Hx, Hy.
  assert (Hcx : cos x * cos x = 1 - sin x * sin x) by lra.
  assert (Hcy : cos y * cos y = 1 - sin y * sin y) by lra.
  transitivity
    (sin x * sin x * (cos y * cos y) + sin y * sin y * (cos x * cos x)
     + 2 * (sin x * sin y) * (cos x * cos y)).
  - rewrite Hcx, Hcy. ring.
  - ring.
Qed.

(** The dot product of two unit quaternions lies in [-1, 1]. *)
Lemma unit_dot_range (a b : quat) :
  dot a a = 1 -> dot b b = 1 -> -1 <= dot a b <= 1.
Proof.
  unfold dot. intros Ha Hb.
  pose proof (Rle_0_sqr (qx a - qx b)) as H1.
  pose proof (Rle_0_sqr (qy a - qy b)) as H2.
  pose proof (Rle_0_sqr (qz a - qz b)) as H3.
  pose proof (Rle_0_sqr (qw a - qw b)) as H4.
  pose proof (Rle_0_sqr (qx a + qx b)) as H5.
  pose proof (Rle_0_sqr (qy a + qy b)) as H6.
  pose proof (Rle_0_sqr (qz a + qz b)) as H7.
  pose proof (Rle_0_sqr (qw a + qw b)) as H8.
  unfold Rsqr in *. lra.
Qed.

(** X23. In the branch that interpolates on the sphere, the result of
    [quaternion_slerp] on two unit quaternions is a unit quaternion, for
    every [t]. *)
Theorem quaternion_slerp_keeps_unit_norm (a b : quat) (t : R) :
  dot a a = 1 -> dot b b = 1 ->
  1 - Rabs (dot a b) > 1 / 1000000 ->
  exists q, quaternion_slerp (Some a) (Some b) t = Ok q /\ dot q q = 1.
Proof.
  intros Ha Hb Hfar.
  pose proof (unit_dot_range Ha Hb) as Hd.
  unfold quaternion_slerp.
  pose proof (cosom_range Hd) as Hc.
  set (cb := if Rlt_dec (dot a b) 0 then (- dot a b, qneg b) else (dot a b, b))
    in *.
  assert (Hfst : fst cb = Rabs (dot a b)).
  { unfold cb. destruct (Rlt_dec (dot a b) 0) as [L|N]; cbn.
    - now rewrite Rabs_left.
    - rewrite Rabs_right; [reflexivity | lra]. }
  assert (Hsnd : dot (snd cb) (snd cb) = 1 /\ dot a (snd cb) = fst cb).
  { unfold cb. destruct (Rlt_dec (dot a b) 0); cbn.
    - now rewrite dot_qneg_qneg, dot_qneg_r.
    - now split. }
  destruct Hsnd as [Hbb Hab].
  destruct (Rgt_dec (1 - fst cb) (1 / 1000000)) as [_|N]; [|lra].
  unfold math_acos.
  destruct (Rlt_dec (fst cb) (-1)) as [L|_]; [lra|].
  destruct (Rlt_dec 1 (fst cb)) as [L|_]; [lra|].
  cbn [bind].
  assert (Hs : 0 < sin (acos (fst cb))) by (apply sin_acos_pos; lra).
  unfold py_div.
  destruct (Req_dec_T (sin (acos (fst cb))) 0) as [E|_]; [lra|].
  cbn [bind fst snd]. eexists. split; [reflexivity|].
  rewrite dot_blend, Ha, Hbb, Hab.
  set (w := acos (fst cb)) in *.
  assert (Hcos : fst cb = cos w) by (unfold w; rewrite cos_acos; lra).
  rewrite Hcos.
  pose proof (sine_sum_identity ((1 - t) * w) (t * w)) as Hid.
  replace ((1 - t) * w + t * w) with w in Hid by ring.
  set (sa := sin ((1 - t) * w)) in *. set (sb := sin (t * w)) in *.
  set (sw := sin w) in *.
  replace (sa / sw * (sa / sw) * 1 + 2 * (sa / sw * (sb / sw)) * cos w
           + sb / sw * (sb / sw) * 1)
    with ((sa * sa + 2 * (sa * sb) * cos w + sb * sb) / (sw * sw))
    by (field; lra).
  rewrite Hid. field. lra.
Qed.

Lemma quaternion_slerp_keeps_unit_norm_witness :
  exists q,
    quaternion_slerp (Some unit_quaternion) (Some (Quat 1 0 0 0)) (1 / 3)
    = Ok q
    /\ dot q q = 1.
Proof.
  apply (@quaternion_slerp_keeps_unit_norm unit_quaternion (Quat 1 0 0 0)
           (1 / 3)).
  - unfold dot, unit_quaternion; cbn. lra.
  - unfold dot; cbn. lra.
  - unfold dot, unit_quaternion; cbn.
    replace (0 * 1 + 0 * 0 + 0 * 0 + 1 * 0) with 0 by ring.
    rewrite Rabs_R0. lra.
Defined.

(** ** Vectors *)

Lemma vec_linear_length (va vb : vec) (t : R) :
  List.length va = List.length vb ->
  List.length (vec_linear va vb t) = List.length va.
Proof.
  revert vb. induction va as [|x va IH]; intros [|y vb]; cbn;
    try discriminate; [reflexivity|].
  intros [= E]. now rewrite IH.
Qed.

Lemma vec_linear_ends (va vb : vec) :
  List.length va = List.length vb ->
  vec_linear va vb 0 = va /\ vec_linear va vb 1 = vb.
Proof.
  revert vb. induction va as [|x va IH]; intros [|y vb]; cbn;
    try discriminate; [now split|].
  intros [= E]. destruct (IH vb E) as [H0 H1]. rewrite H0, H1.
  unfold interpolate_linear. split; f_equal; ring.
Qed.

(** X24. [interpolate_linear_optional_vectors] blends two vectors of one
    length into a vector of that length, which is [a] at [t = 0] and [b] at
    [t = 1]; when the lengths differ, or a vector is absent, it returns [a]
    as it is and raises nothing. *)
Theorem optional_vectors_blend_or_keep (a b : option vec) (t : R) :
  (forall va vb,
     a = Some va -> b = Some vb -> List.length va = List.length vb ->
     exists v,
       interpolate_linear_optional_vectors a b t = Some v
       /\ List.length v = List.length va
       /\ interpolate_linear_optional_vectors a b 0 = a
       /\ interpolate_linear_optional_vectors a b 1 = b)
  /\ ((a = None \/ b = None
       \/ exists va vb, a = Some va /\ b = Some vb
                        /\ List.length va <> List.length vb) ->
      interpolate_linear_optional_vectors a b t = a).
Proof.
  split.
  - intros va vb -> -> Hlen. unfold interpolate_linear_optional_vectors.
    rewrite (proj2 (Nat.eqb_eq _ _) Hlen).
    destruct (vec_linear_ends va vb Hlen) as [H0 H1].
    exists (vec_linear va vb t). rewrite H0, H1.
    repeat split. now apply vec_linear_length.
  - intros [-> | [-> | (va & vb & -> & -> & Hlen)]].
    + reflexivity.
    + destruct a; reflexivity.
    + unfold interpolate_linear_optional_vectors.
      now rewrite (proj2 (Nat.eqb_neq _ _) Hlen).
Qed.

End NumericMore.

(* ------------------------------------------------------------------ *)
(** * Linked values, cross-section maps and the shape of layouts *)
(* ------------------------------------------------------------------ *)

Module LayoutMore.
Import Py Numeric DictFacts Layout.

Local Open Scope string_scope.
Local Open Scope list_scope.

(** X25. A linked value is never interpolated when its link mode is
    ["linked"] or differs from the mode of the other side: the result is
    [a], whatever the payloads are and whatever the interpolation function
    of the payload would do with them.  A result always has the link mode
    of [a]. *)
Theorem linked_value_stays (T : Type)
    (f : option T -> option T -> R -> res (option T))
    (a b : LinkedType.t T) (t' : R) :
  (LinkedType.link a = "linked" \/ LinkedType.link a <> LinkedType.link b ->
   LinkedType.interpolate f a b t' = Ok a)
  /\ forall c, LinkedType.interpolate f a b t' = Ok c ->
               LinkedType.link c = LinkedType.link a.
Proof.
  unfold LinkedType.interpolate. split.
  - intros [Hl | Hd].
    + rewrite Hl. rewrite (String.eqb_refl "linked"). cbn [negb].
      rewrite andb_false_r. destruct a; cbn in *; now subst.
    + apply String.eqb_neq in Hd. rewrite Hd. cbn [andb].
      now destruct a.
  - intros c.
    destruct (String.eqb (LinkedType.link a) (LinkedType.link b)
              && negb (String.eqb (LinkedType.link a) "linked")).
    + destruct (f (LinkedType.value a) (LinkedType.value b) t');
        cbn [bind]; [|discriminate].
      now intros [= <-].
    + now intros [= <-].
Qed.

(** ** CrossSectionMap.interpolate *)

Lemma dict_set_keys {V : Type} (d : dict string V) (k : string) (v : V) :
  In k (dict_keys d) -> dict_keys (dict_set d k v) = dict_keys d.
Proof.
  induction d as [|[k' v'] d IH]; cbn; [tauto|].
  intros I. destruct (String.eqb_spec k' k) as [->|Hne]; cbn; [reflexivity|].
  f_equal. apply IH. destruct I; [contradiction | assumption].
Qed.

Lemma contains_In {V : Type} (d : dict string V) (k : string) :
  dict_contains d k = true -> In k (dict_keys d).
Proof.
  unfold dict_contains. destruct (dict_get d k) as [v|] eqn:G; [|discriminate].
  intros _. exact (dict_get_In _ _ G).
Qed.

Lemma interpolate_keys_keeps (ks : list string)
    (a b c0 c : CrossSectionMap.t) (t' : R) :
  (forall k, In k ks -> In k (dict_keys c0)) ->
  CrossSectionMap.interpolate_keys ks a b c0 t' = Ok c ->
  dict_keys c = dict_keys c0
  /\ forall k, dict_contains b k = false -> dict_get c k = dict_get c0 k.
Proof.
  revert c0. induction ks as [|k rest IH]; intros c0 Hin;
    cbn [CrossSectionMap.interpolate_keys].
  - intros [= <-]. now split.
  - destruct (dict_contains b k) eqn:Eb.
    + destruct (dict_getitem a k) as [ak|e]; cbn [bind]; [|discriminate].
      destruct (dict_getitem b k) as [bk|e]; cbn [bind]; [|discriminate].
      destruct (CrossSection.interpolate ak bk t') as [ck|e]; cbn [bind];
        [|discriminate].
      intros Hc.
      assert (Hk : In k (dict_keys c0)) by (apply Hin; now left).
      destruct (IH (dict_set c0 k ck)) as [Hkeys Hget].
      * intros k0 I. rewrite (@dict_set_keys _ c0 k ck Hk). apply Hin. now right.
      * exact Hc.
      * split.
        -- rewrite Hkeys. now apply dict_set_keys.
        -- intros k0 Hk0. rewrite (Hget k0 Hk0).
           apply dict_get_set_neq. intros ->. congruence.
    + apply IH. intros k0 I. apply Hin. now right.
Qed.

(** X26. When [CrossSectionMap.interpolate(a, b, t)] returns, the result
    has the keys of [a], in the order of [a]; a cross section of [a] that [b]
    has no key for is in the result as it was, and a key that only [b] has is
    not in it. *)
Theorem cross_section_map_keeps_keys (a b c : CrossSectionMap.t) (t' : R) :
  CrossSectionMap.interpolate a b t' = Ok c ->
  dict_keys c = dict_keys a
  /\ forall k, dict_contains b k = false -> dict_get c k = dict_get a k.
Proof.
  unfold CrossSectionMap.interpolate. apply interpolate_keys_keeps. tauto.
Qed.

(** A cross section with every value linked. *)
Definition linked_cross_section : CrossSection.t :=
  {| CrossSection.width := 1000;
     CrossSection.height := 1000;
     CrossSection.position :=
       {| LinkedType.link := "linked"; LinkedType.value := None |};
     CrossSection.orientation :=
       {| LinkedType.link := "linked"; LinkedType.value := None |};
     CrossSection.scale :=
       {| LinkedType.link := "linked"; LinkedType.value := None |} |}.

Lemma cross_section_map_keeps_keys_witness :
  dict_keys [("a", linked_cross_section)]
  = dict_keys [("a", linked_cross_section)]
  /\ forall k, dict_contains [("b", linked_cross_section)] k = false ->
       dict_get [("a", linked_cross_section)] k
       = dict_get [("a", linked_cross_section)] k.
Proof.
  apply (@cross_section_map_keeps_keys
           [("a", linked_cross_section)] [("b", linked_cross_section)]
           [("a", linked_cross_section)] (1 / 2)%R).
  reflexivity.
Defined.

(** ** The shape of an interpolated layout *)

Lemma interpolate_children_length (xs ys cs : list layout) (t' : R) :
  List.length xs = List.length ys ->
  interpolate_children xs ys t' = Ok cs ->
  List.length cs = List.length xs.
Proof.
  revert ys cs. induction xs as [|x xs IH]; intros [|y ys] cs; cbn;
    try discriminate.
  - intros _ [= <-]. reflexivity.
  - intros [= Hlen].
    destruct (interpolate_layout x y t') as [c|e]; cbn [bind]; [|discriminate].
    destruct (interpolate_children xs ys t') as [rest|e] eqn:E; cbn [bind];
      [|discriminate].
    intros [= <-]. cbn. f_equal. now apply (IH ys).
Qed.

(** X27. Interpolation never changes the shape of a layout: when
    [interpolate_layout(a, b, t)] returns, the result has the class of [a];
    a stack keeps its [type], its [flex] and its number of children; a data
    panel keeps its [type], its projection flag and the keys of its cross
    sections. *)
Theorem interpolate_layout_keeps_shape (a b c : layout) (t' : R) :
  interpolate_layout a b t' = Ok c ->
  type_of c = type_of a
  /\ match a, c with
     | Stack a_type a_flex a_children, Stack c_type c_flex c_children =>
         c_type = a_type /\ c_flex = a_flex
         /\ List.length c_children = List.length a_children
     | Panel pa, Panel pc =>
         DataPanelLayout.type pc = DataPanelLayout.type pa
         /\ DataPanelLayout.orthographic_projection pc
            = DataPanelLayout.orthographic_projection pa
         /\ dict_keys (DataPanelLayout.cross_sections pc)
            = dict_keys (DataPanelLayout.cross_sections pa)
     | _, _ => True
     end.
Proof.
  destruct a as [ta fa ca | va | pa]; destruct b as [tb fb cb | vb | pb];
    try (cbn; intros [= <-]; repeat split; reflexivity).
  - rewrite LayoutFacts.interpolate_layout_stack.
    unfold StackLayout_interpolate.
    destruct (negb (ta =? tb)
              || negb (Nat.eqb (List.length ca) (List.length cb))) eqn:E.
    + intros [= <-]. repeat split; reflexivity.
    + apply orb_false_iff in E. destruct E as [_ El].
      apply negb_false_iff, Nat.eqb_eq in El.
      destruct (interpolate_children ca cb t') as [cs|e] eqn:Ec;
        cbn [bind]; [|discriminate].
      intros [= <-]. repeat split.
      exact (@interpolate_children_length ca cb cs t' El Ec).
  - cbn [interpolate_layout].
    destruct (LayerGroupViewer.interpolate va vb t'); cbn [bind];
      [|discriminate].
    intros [= <-]. now split.
  - cbn [interpolate_layout]. unfold DataPanelLayout.interpolate.
    destruct (negb (DataPanelLayout.type pa =? DataPanelLayout.type pb)
              || Nat.eqb (List.length (DataPanelLayout.cross_sections pa)) 0).
    + cbn [bind]. intros [= <-]. repeat split; reflexivity.
    + destruct (CrossSectionMap.interpolate
                  (DataPanelLayout.cross_sections pa)
                  (DataPanelLayout.cross_sections pb) t') as [cs|e] eqn:Ecs;
        cbn [bind]; [|discriminate].
      intros [= <-]. cbn. repeat split.
      unfold CrossSectionMap.interpolate in Ecs.
      refine (proj1 (@interpolate_keys_keeps _ _ _ _ _ _ _ Ecs)). tauto.
Qed.

Lemma interpolate_layout_keeps_shape_witness :
  type_of (row_layout [panel "xy"; panel "3d"])
  = type_of (row_layout [panel "xy"; panel "3d"])
  /\ match row_layout [panel "xy"; panel "3d"],
           row_layout [panel "xy"; panel "3d"] with
     | Stack a_type a_flex a_children, Stack c_type c_flex c_children =>
         c_type = a_type /\ c_flex = a_flex
         /\ List.length c_children = List.length a_children
     | Panel pa, Panel pc =>
         DataPanelLayout.type pc = DataPanelLayout.type pa
         /\ DataPanelLayout.orthographic_projection pc
            = DataPanelLayout.orthographic_projection pa
         /\ dict_keys (DataPanelLayout.cross_sections pc)
            = dict_keys (DataPanelLayout.cross_sections pa)
     | _, _ => True
     end.
Proof.
  apply (@interpolate_layout_keeps_shape
           (row_layout [panel "xy"; panel "3d"])
           (row_layout [panel "yz"; panel "3d"])
           (row_layout [panel "xy"; panel "3d"]) (1 / 2)%R).
  reflexivity.
Defined.

End LayoutMore.

(* ------------------------------------------------------------------ *)
(** * Interpolating a list of layers *)
(* ------------------------------------------------------------------ *)

Module LayersInterpolate.
Import Py Json Numeric LayerList.

Local Open Scope string_scope.
Local Open Scope list_scope.
Local Open Scope Z_scope.

(** [ManagedLayer.__deepcopy__]:
    [ManagedLayer(self.name, copy.deepcopy(self.to_json(), memo))]. *)
Definition ManagedLayer_deepcopy (self : Managed.ManagedLayer)
  : res Managed.ManagedLayer :=
  ManagedLayer_init (NameStr (Managed.name self))
    (ArgDict (Managed.to_json self)) false.

(** [copy.deepcopy] of the list in [_layers], one element after the
    other. *)
Fixpoint deepcopy_list (l : list Managed.ManagedLayer)
  : res (list Managed.ManagedLayer) :=
  match l with
  | [] => Ok []
  | m :: rest =>
      bind (ManagedLayer_deepcopy m) (fun m' =>
      bind (deepcopy_list rest) (fun rest' => Ok (m' :: rest')))
  end.

(** [copy.deepcopy(a)] of a [Layers]: the class has no [__deepcopy__], so
    a new object gets a deep copy of each of the two slots. *)
Definition Layers_deepcopy (a : Layers) : res Layers :=
  bind (deepcopy_list (_layers a)) (fun l =>
  Ok {| _layers := l; _readonly := _readonly a |}).

(** [self.layer = value] through [ManagedLayer.__setattr__]: refused on a
    read-only wrapper, otherwise [object.__setattr__(self, "layer", value)]. *)
Definition ManagedLayer_set_layer (self : Managed.ManagedLayer)
    (value : Managed.Layer) : res Managed.ManagedLayer :=
  if Managed._readonly self then Raise AttributeError
  else Ok {| Managed.name := Managed.name self;
             Managed.layer := value;
             Managed._json_data := Managed._json_data self;
             Managed._readonly := Managed._readonly self |}.

(** [type(x) is type(y)] on layer classes. *)
Definition layer_class_eqb (c d : Managed.layer_class) : bool :=
  match c, d with
  | Managed.ImageLayer, Managed.ImageLayer
  | Managed.SegmentationLayer, Managed.SegmentationLayer
  | Managed.PointAnnotationLayer, Managed.PointAnnotationLayer
  | Managed.AnnotationLayer, Managed.AnnotationLayer
  | Managed.SingleMeshLayer, Managed.SingleMeshLayer => true
  | _, _ => false
  end.

Definition and_then {A B : Type} (r : outcome A) (f : A -> outcome B)
  : outcome B :=
  match r with
  | Return a => f a
  | Throw e => Throw e
  end.

Section Accessors.

(** Reading and writing an attribute of a layer goes through the
    accessors of [json_wrappers.py], which are outside the sources at hand:
    they are the interface the interpolation code is written against, for
    an attribute that holds an optional vector and for one that holds a
    number. *)
Variable getattr_vector : Managed.Layer -> string -> res (option vec).
Variable setattr_vector
  : Managed.Layer -> string -> option vec -> res Managed.Layer.
Variable getattr_float : Managed.Layer -> string -> res R.
Variable setattr_float : Managed.Layer -> string -> R -> res Managed.Layer.

(** [Layer.interpolate]: [c = copy.deepcopy(a)], then
    [c.layer_position = interpolate_linear_optional_vectors(
       a.layer_position, b.layer_position, t)]. *)
Definition Layer_interpolate (a b : Managed.Layer) (t' : R)
  : res Managed.Layer :=
  let c := a in
  bind (getattr_vector a "layer_position") (fun a_position =>
  bind (getattr_vector b "layer_position") (fun b_position =>
  setattr_vector c "layer_position"
    (interpolate_linear_optional_vectors a_position b_position t'))).

(** [ImageLayer.interpolate] *)
Definition ImageLayer_interpolate (a b : Managed.Layer) (t' : R)
  : res Managed.Layer :=
  bind (Layer_interpolate a b t') (fun c =>
  bind (getattr_float a "opacity") (fun a_opacity =>
  bind (getattr_float b "opacity") (fun b_opacity =>
  setattr_float c "opacity" (interpolate_linear a_opacity b_opacity t')))).

(** [for k in [...]: setattr(c, k, interpolate_linear(getattr(a, k),
    getattr(b, k), t))] *)
Fixpoint interpolate_floats (ks : list string) (a b c : Managed.Layer)
    (t' : R) : res Managed.Layer :=
  match ks with
  | [] => Ok c
  | k :: rest =>
      bind (getattr_float a k) (fun a_k =>
      bind (getattr_float b k) (fun b_k =>
      bind (setattr_float c k (interpolate_linear a_k b_k t')) (fun c' =>
      interpolate_floats rest a b c' t')))
  end.

(** [SegmentationLayer.interpolate] *)
Definition SegmentationLayer_interpolate (a b : Managed.Layer) (t' : R)
  : res Managed.Layer :=
  bind (Layer_interpolate a b t') (fun c =>
  interpolate_floats ["selected_alpha"; "not_selected_alpha"; "object_alpha"]
    a b c t').

(** [AnnotationLayer.interpolate]: [del b; del t; return a]. *)
Definition AnnotationLayer_interpolate (a b : Managed.Layer) (t' : R)
  : res Managed.Layer :=
  Ok a.

(** [type(layer.layer).interpolate]: the point annotation layer and the
    mesh layer inherit [Layer.interpolate]. *)
Definition class_interpolate (c : Managed.layer_class)
  : Managed.Layer -> Managed.Layer -> R -> res Managed.Layer :=
  match c with
  | Managed.ImageLayer => ImageLayer_interpolate
  | Managed.SegmentationLayer => SegmentationLayer_interpolate
  | Managed.AnnotationLayer => AnnotationLayer_interpolate
  | Managed.PointAnnotationLayer | Managed.SingleMeshLayer =>
      Layer_interpolate
  end.

(** The loop of [Layers.interpolate] over the layers of the copy; a layer
    that is interpolated is updated in place, and the list keeps its
    order. *)
Fixpoint interpolate_loop (ls : list Managed.ManagedLayer) (b : Layers)
    (t' : R) : outcome (list Managed.ManagedLayer) :=
  match ls with
  | [] => Return []
  | layer :: rest =>
      let index := index b (Managed.name layer) in
      and_then
        (if index =? -1 then Return layer
         else
           match __getitem__ b (KIndex index) with
           | Throw e => Throw e
           | Return (Many _) => Throw (Std AttributeError)
           | Return (One other_layer) =>
               if negb (layer_class_eqb
                          (Managed.layer_type (Managed.layer other_layer))
                          (Managed.layer_type (Managed.layer layer)))
               then Return layer
               else
                 lift
                   (bind
                      (class_interpolate
                         (Managed.layer_type (Managed.layer layer))
                         (Managed.layer layer) (Managed.layer other_layer) t')
                      (ManagedLayer_set_layer layer))
           end)
        (fun layer' =>
         and_then (interpolate_loop rest b t') (fun rest' =>
         Return (layer' :: rest')))
  end.

(** [Layers.interpolate] *)
Definition Layers_interpolate (a b : Layers) (t' : R) : outcome Layers :=
  and_then (lift (Layers_deepcopy a)) (fun c =>
  and_then (interpolate_loop (_layers c) b t') (fun l =>
  Return (with_layers c l))).

End Accessors.

End LayersInterpolate.

Module LayersInterpolateFacts.
Import Py Json Numeric LayerList LayerListFacts LayersInterpolate.

Local Open Scope string_scope.
Local Open Scope list_scope.
Local Open Scope Z_scope.

(** ** The deep copy *)

Lemma deepcopy_name (m m' : Managed.ManagedLayer) :
  ManagedLayer_deepcopy m = Ok m' ->
  Managed.name m' = Managed.name m /\ Managed._readonly m' = false.
Proof.
  unfold ManagedLayer_deepcopy, ManagedLayer_init. cbn [bind fst snd].
  destruct (make_layer (ArgDict (Managed.to_json m)) false); cbn [bind];
    [|discriminate].
  intros [= <-]. split; reflexivity.
Qed.

Lemma deepcopy_list_names (l l' : list Managed.ManagedLayer) :
  deepcopy_list l = Ok l' ->
  map Managed.name l' = map Managed.name l
  /\ Forall (fun m => Managed._readonly m = false) l'.
Proof.
  revert l'. induction l as [|m rest IH]; intros l'; cbn [deepcopy_list].
  - intros [= <-]. split; [reflexivity | constructor].
  - destruct (ManagedLayer_deepcopy m) as [m'|e] eqn:Em; cbn [bind];
      [|discriminate].
    destruct (deepcopy_list rest) as [rest'|e]; cbn [bind]; [|discriminate].
    intros [= <-]. destruct (deepcopy_name _ Em) as [Hn Hr].
    destruct (IH rest' eq_refl) as [Hns Hrs].
    split; [cbn; now rewrite Hn, Hns | now constructor].
Qed.

Lemma layer_class_eqb_eq (c d : Managed.layer_class) :
  layer_class_eqb c d = true -> c = d.
Proof. destruct c, d; cbn; congruence. Qed.

Lemma set_layer_same (m : Managed.ManagedLayer) :
  Managed._readonly m = false ->
  ManagedLayer_set_layer m (Managed.layer m) = Ok m.
Proof.
  unfold ManagedLayer_set_layer. destruct m as [n l d ro]. cbn.
  now intros ->.
Qed.

(** ** The layer of [b] a layer is interpolated with *)

(** The first layer of [b] with the name of [m]. *)
Definition counterpart (b : Layers) (m : Managed.ManagedLayer)
  : option Managed.ManagedLayer :=
  find (fun u => String.eqb (Managed.name u) (Managed.name m)) (_layers b).

(** Whether the loop calls [interpolate] on [m] with an effect: its
    counterpart has the same class, and the class is not
    [AnnotationLayer], whose [interpolate] returns its first argument. *)
Definition interpolated (b : Layers) (m : Managed.ManagedLayer) : bool :=
  match counterpart b m with
  | Some other_layer =>
      layer_class_eqb (Managed.layer_type (Managed.layer other_layer))
                      (Managed.layer_type (Managed.layer m))
      && negb (layer_class_eqb (Managed.layer_type (Managed.layer m))
                               Managed.AnnotationLayer)
  | None => false
  end.

Lemma find_absent (l : list Managed.ManagedLayer) (k : string) :
  (forall u, In u l -> Managed.name u <> k) ->
  find (fun u => String.eqb (Managed.name u) k) l = None.
Proof.
  induction l as [|u rest IH]; intros Hno; cbn [find]; [reflexivity|].
  destruct (String.eqb_spec (Managed.name u) k) as [E|N].
  - exfalso. apply (Hno u); [now left | exact E].
  - apply IH. intros u' I. apply Hno. now right.
Qed.

Lemma find_first (l1 l2 : list Managed.ManagedLayer)
    (m : Managed.ManagedLayer) (k : string) :
  (forall u, In u l1 -> Managed.name u <> k) ->
  Managed.name m = k ->
  find (fun u => String.eqb (Managed.name u) k) (l1 ++ m :: l2) = Some m.
Proof.
  induction l1 as [|u rest IH]; intros Hno Hm; cbn [app find].
  - now rewrite Hm, String.eqb_refl.
  - destruct (String.eqb_spec (Managed.name u) k) as [E|N].
    + exfalso. apply (Hno u); [now left | exact E].
    + apply IH; [|exact Hm]. intros u' I. apply Hno. now right.
Qed.

Lemma lookup_counterpart (b : Layers) (m : Managed.ManagedLayer) :
  match counterpart b m with
  | None => index b (Managed.name m) = -1
  | Some other_layer =>
      (index b (Managed.name m) =? -1) = false
      /\ __getitem__ b (KIndex (index b (Managed.name m)))
         = Return (One other_layer)
  end.
Proof.
  unfold counterpart, index, __getitem__.
  destruct (index_from_split (_layers b) 0 (Managed.name m))
    as [[Hi Hno] | (l1 & o & l2 & Hl & Ho & Hno)].
  - now rewrite (find_absent _ Hno).
  - rewrite Hl, (@find_first l1 l2 o _ Hno Ho),
      (@index_from_at l1 l2 o 0 _ Hno Ho). cbn [Z.add].
    split.
    + apply Z.eqb_neq. lia.
    + unfold list_getitem. now rewrite position_at, nth_error_middle.
Qed.

Section Accessors.

Variable getattr_vector : Managed.Layer -> string -> res (option vec).
Variable setattr_vector
  : Managed.Layer -> string -> option vec -> res Managed.Layer.
Variable getattr_float : Managed.Layer -> string -> res R.
Variable setattr_float : Managed.Layer -> string -> R -> res Managed.Layer.

Local Abbreviation loop :=
  (interpolate_loop getattr_vector setattr_vector getattr_float
     setattr_float).
Local Abbreviation Layers_interpolate' :=
  (Layers_interpolate getattr_vector setattr_vector getattr_float
     setattr_float).

Lemma set_layer_name (m m' : Managed.ManagedLayer) (r : res Managed.Layer) :
  lift (bind r (ManagedLayer_set_layer m)) = Return m' ->
  Managed.name m' = Managed.name m.
Proof.
  destruct r as [l|e]; cbn [bind lift]; [|discriminate].
  unfold ManagedLayer_set_layer. destruct (Managed._readonly m);
    cbn [lift]; [discriminate|].
  now intros [= <-].
Qed.

Lemma loop_names (ls r : list Managed.ManagedLayer) (b : Layers) (t' : R) :
  loop ls b t' = Return r -> map Managed.name r = map Managed.name ls.
Proof.
  revert r. induction ls as [|m rest IH]; intros r; cbn [interpolate_loop].
  - now intros [= <-].
  - match goal with
    | |- and_then ?h _ = _ -> _ => destruct h as [m'|e] eqn:Eh
    end; cbn [and_then]; [|discriminate].
    destruct (loop rest b t') as [rest'|e]; cbn [and_then]; [|discriminate].
    intros [= <-]. cbn [map]. rewrite (IH rest' eq_refl). f_equal.
    destruct (index b (Managed.name m) =? -1); [now injection Eh as <-|].
    destruct (__getitem__ b (KIndex (index b (Managed.name m))))
      as [[o|os]|e]; try discriminate.
    destruct (negb _); [now injection Eh as <-|].
    exact (set_layer_name _ _ Eh).
Qed.

(** X28. When [Layers.interpolate(a, b, t)] returns, the result has the
    layers of [a] by name, in the order of [a] and as many as [a] has, and
    the read-only flag of [a]: the layers of [b] add nothing, whatever the
    attribute accessors of the layers do. *)
Theorem layers_interpolate_keeps_names (a b c : Layers) (t' : R) :
  Layers_interpolate' a b t' = Return c ->
  map Managed.name (_layers c) = map Managed.name (_layers a)
  /\ List.length (_layers c) = List.length (_layers a)
  /\ _readonly c = _readonly a.
Proof.
  unfold Layers_interpolate, Layers_deepcopy.
  destruct (deepcopy_list (_layers a)) as [l|e] eqn:El;
    cbn [bind lift and_then _layers]; [|discriminate].
  destruct (loop l b t') as [r|e] eqn:Er; cbn [and_then];
    [|discriminate].
  intros [= <-]. cbn [with_layers _layers _readonly].
  assert (Hn : map Managed.name r = map Managed.name (_layers a)).
  { rewrite (loop_names _ _ _ Er). exact (proj1 (deepcopy_list_names _ El)). }
  split; [exact Hn|]. split; [|reflexivity].
  rewrite <- (length_map Managed.name r), Hn. apply length_map.
Qed.

Lemma loop_copies (ls : list Managed.ManagedLayer) (b : Layers) (t' : R) :
  Forall (fun m => Managed._readonly m = false) ls ->
  (forall m, In m ls -> interpolated b m = false) ->
  loop ls b t' = Return ls.
Proof.
  induction ls as [|m rest IH]; intros Hro Hnone; cbn [interpolate_loop];
    [reflexivity|].
  inversion Hro as [|? ? Hm Hrest]; subst.
  rewrite (IH Hrest) by (intros u I; apply Hnone; now right).
  assert (Hhead : interpolated b m = false) by (apply Hnone; now left).
  unfold interpolated in Hhead.
  pose proof (lookup_counterpart b m) as Hl.
  destruct (counterpart b m) as [o|].
  - destruct Hl as [Hi Hg]. rewrite Hi, Hg.
    destruct (layer_class_eqb (Managed.layer_type (Managed.layer o))
                (Managed.layer_type (Managed.layer m))) eqn:Ec;
      cbn [negb andb] in *; [|reflexivity].
    destruct (Managed.layer_type (Managed.layer m)) eqn:Et;
      cbn in Hhead; try discriminate.
    cbn [class_interpolate]. unfold AnnotationLayer_interpolate.
    cbn [bind]. rewrite (set_layer_same m Hm). reflexivity.
  - rewrite Hl. reflexivity.
Qed.

(** X29. A layer of [a] is left as deep-copied when [b] has no layer of
    its name, when the first layer of [b] with its name is of another
    class, or when it is an annotation layer.  If that holds for every
    layer, [Layers.interpolate(a, b, t)] is [copy.deepcopy(a)], and no
    attribute is read or written. *)
Theorem layers_without_counterpart_are_copied (a b c : Layers) (t' : R) :
  Layers_deepcopy a = Ok c ->
  (forall m, In m (_layers c) -> interpolated b m = false) ->
  Layers_interpolate' a b t' = Return c.
Proof.
  intros Hc Hnone. unfold Layers_interpolate. rewrite Hc.
  cbn [lift and_then].
  assert (Hro : Forall (fun m => Managed._readonly m = false) (_layers c)).
  { unfold Layers_deepcopy in Hc.
    destruct (deepcopy_list (_layers a)) as [l|e] eqn:El; cbn [bind] in Hc;
      [|discriminate].
    injection Hc as <-. exact (proj2 (deepcopy_list_names _ El)). }
  rewrite (loop_copies b t' Hro Hnone). cbn [and_then].
  now destruct c.
Qed.

Lemma class_interpolate_raises (c : Managed.layer_class)
    (x y : Managed.Layer) (t' : R) :
  (forall l, getattr_vector l "layer_position" = Raise AttributeError) ->
  layer_class_eqb c Managed.AnnotationLayer = false ->
  class_interpolate getattr_vector setattr_vector getattr_float
    setattr_float c x y t' = Raise AttributeError.
Proof.
  intros Hno Hc.
  destruct c; cbn in Hc; try discriminate; cbn [class_interpolate];
    unfold ImageLayer_interpolate, SegmentationLayer_interpolate,
      Layer_interpolate; now rewrite Hno.
Qed.

Lemma loop_raises (ls : list Managed.ManagedLayer) (b : Layers) (t' : R) :
  (forall l, getattr_vector l "layer_position" = Raise AttributeError) ->
  Forall (fun m => Managed._readonly m = false) ls ->
  (exists m, In m ls /\ interpolated b m = true) ->
  loop ls b t' = Throw (Std AttributeError).
Proof.
  intros Hno. induction ls as [|m rest IH]; intros Hro (u & Hin & Hu).
  - destruct Hin.
  - inversion Hro as [|? ? Hm Hrest]; subst. cbn [interpolate_loop].
    destruct (interpolated b m) eqn:Ehead.
    + unfold interpolated in Ehead.
      pose proof (lookup_counterpart b m) as Hl.
      destruct (counterpart b m) as [o|]; [|discriminate].
      destruct Hl as [Hi Hg]. rewrite Hi, Hg.
      apply andb_true_iff in Ehead. destruct Ehead as [Ec Ea].
      rewrite Ec. cbn [negb].
      apply negb_true_iff in Ea.
      now rewrite (class_interpolate_raises _ _ _ _ Hno Ea).
    + destruct Hin as [<-|Hin]; [congruence|].
      rewrite (IH Hrest) by (exists u; now split).
      assert (Hone : loop [m] b t' = Return [m]).
      { apply loop_copies; [now constructor|].
        intros m' [<-|[]]. exact Ehead. }
      cbn [interpolate_loop and_then] in Hone.
      match goal with
      | |- and_then ?h _ = _ => destruct h as [m'|e]
      end; cbn [and_then] in *; [reflexivity | discriminate].
Qed.

(** X30. [Layer.interpolate] reads [a.layer_position], a name that no
    layer class of this file declares.  When reading it raises
    [AttributeError], [Layers.interpolate(a, b, t)] raises [AttributeError]
    as soon as one layer of [a] has, as the first layer of its name in [b],
    a layer of its own class other than [AnnotationLayer]: image,
    segmentation, point annotation and mesh layers cannot be
    interpolated. *)
Theorem layers_interpolate_raises (a b c : Layers) (t' : R) :
  (forall l, getattr_vector l "layer_position" = Raise AttributeError) ->
  Layers_deepcopy a = Ok c ->
  (exists m, In m (_layers c) /\ interpolated b m = true) ->
  Layers_interpolate' a b t' = Throw (Std AttributeError).
Proof.
  intros Hno Hc Hex. unfold Layers_interpolate. rewrite Hc.
  cbn [lift and_then].
  assert (Hro : Forall (fun m => Managed._readonly m = false) (_layers c)).
  { unfold Layers_deepcopy in Hc.
    destruct (deepcopy_list (_layers a)) as [l|e] eqn:El; cbn [bind] in Hc;
      [|discriminate].
    injection Hc as <-. exact (proj2 (deepcopy_list_names _ El)). }
  now rewrite (loop_raises b t' Hno Hro Hex).
Qed.

End Accessors.

(** ** Sample inputs *)

(** Accessors of a layer without the attribute that is asked for. *)
Definition no_vector (l : Managed.Layer) (k : string) : res (option vec) :=
  Raise AttributeError.

Definition no_vector_setter (l : Managed.Layer) (k : string)
    (v : option vec) : res Managed.Layer :=
  Raise AttributeError.

Definition no_float (l : Managed.Layer) (k : string) : res R :=
  Raise AttributeError.

Definition no_float_setter (l : Managed.Layer) (k : string) (v : R)
  : res Managed.Layer :=
  Raise AttributeError.

Definition no_layers : Layers := {| _layers := []; _readonly := false |}.

(** [copy.deepcopy(two_layers)] *)
Definition copied_layer (n : string) : Managed.ManagedLayer :=
  {| Managed.name := n;
     Managed.layer :=
       {| Managed.layer_type := Managed.ImageLayer;
          Managed.layer_data := [("type", JStr "image"); ("name", JStr n)] |};
     Managed._json_data := [("type", JStr "image"); ("name", JStr n)];
     Managed._readonly := false |}.

Definition two_layers_copy : Layers :=
  {| _layers := [copied_layer "a"; copied_layer "b"]; _readonly := false |}.

Lemma layers_interpolate_keeps_names_witness :
  map Managed.name (_layers two_layers_copy)
  = map Managed.name (_layers two_layers)
  /\ List.length (_layers two_layers_copy) = List.length (_layers two_layers)
  /\ _readonly two_layers_copy = _readonly two_layers.
Proof.
  apply (@layers_interpolate_keeps_names no_vector no_vector_setter no_float
           no_float_setter two_layers no_layers two_layers_copy 0%R).
  reflexivity.
Defined.

Lemma layers_without_counterpart_are_copied_witness :
  Layers_interpolate no_vector no_vector_setter no_float no_float_setter
    two_layers no_layers 0%R
  = Return two_layers_copy.
Proof.
  apply (@layers_without_counterpart_are_copied no_vector no_vector_setter
           no_float no_float_setter two_layers no_layers two_layers_copy 0%R).
  - reflexivity.
  - intros m _. reflexivity.
Defined.

Lemma layers_interpolate_raises_witness :
  Layers_interpolate no_vector no_vector_setter no_float no_float_setter
    two_layers two_layers 0%R
  = Throw (Std AttributeError).
Proof.
  apply (@layers_interpolate_raises no_vector no_vector_setter no_float
           no_float_setter two_layers two_layers two_layers_copy 0%R).
  - intros l. reflexivity.
  - reflexivity.
  - exists (copied_layer "a"). split; [now left | reflexivity].
Defined.

End LayersInterpolateFacts.
